(** * planedb: fixed-width record decoder and cached linked-list lookup

    A shallow embedding of [planedb.c] / [planedb.h] (dump1090db).

    Conventions of the embedding
    - a C [int] is a [Z] kept in the signed 32-bit range, every arithmetic
      step that can leave the range is wrapped with [wrap32];
    - a [char *] is the [list ascii] of the bytes it points to; the byte
      just past the listed ones reads as NUL (the terminator of a string
      literal), see [char_at];
    - a pointer to a heap record is a [Z] address, [0] is [NULL];
    - [malloc] hands out fresh addresses; what an uninitialised field of a
      fresh block holds is decided by the environment (the allocation
      oracle), as is whether the allocation succeeds. *)

From Stdlib Require Import ZArith Ascii String Lia.
From stdpp Require Import gmap list.

Local Open Scope Z_scope.

(** ** Characters, C ints *)

Definition NUL : ascii := Ascii.zero.
Definition NL : ascii := "010"%char.

(** The character code as an [int] (the comparisons and differences of the
    source are all against ASCII digits and letters). *)
Definition code (c : ascii) : Z := Z.of_N (N_of_ascii c).

(** Two's-complement wrap-around of a 32-bit [int]. *)
Definition wrap32 (z : Z) : Z := (z + 2 ^ 31) mod 2 ^ 32 - 2 ^ 31.

(** [size_t] conversion of an [int] (LP64). *)
Definition to_size_t (z : Z) : Z := z mod 2 ^ 64.

(** [str[i]]. *)
Definition char_at (str : list ascii) (i : Z) : ascii :=
  if i <? 0 then NUL else nth (Z.to_nat i) str NUL.

(** [strlen(str)]: the number of bytes before the first NUL. *)
Fixpoint strlen (str : list ascii) : Z :=
  match str with
  | [] => 0
  | c :: rest => if Ascii.eqb c NUL then 0 else 1 + strlen rest
  end.

Definition cstr (s : string) : list ascii := list_ascii_of_string s.

(** ** Field extractor *)

Definition is_digit (c : ascii) : bool :=
  (code "0" <=? code c) && (code c <=? code "9").
Definition is_lower_hex (c : ascii) : bool :=
  (code "a" <=? code c) && (code c <=? code "f").
Definition is_upper_hex (c : ascii) : bool :=
  (code "A" <=? code c) && (code c <=? code "F").

(** The body of the [for (i=0 ; i < 8 ; i++)] loop of [parse_hex]; [n] is
    the number of iterations left, [pos] is [i + offset]. *)
Fixpoint parse_hex_loop (n : nat) (str : list ascii) (pos val : Z) : Z :=
  match n with
  | O => val
  | S n' =>
      let c := char_at str pos in
      if is_digit c then
        parse_hex_loop n' str (pos + 1)
          (wrap32 (wrap32 (Z.shiftl val 4) + (code c - code "0")))
      else if is_lower_hex c then
        parse_hex_loop n' str (pos + 1)
          (wrap32 (wrap32 (Z.shiftl val 4) + (code c - code "a" + 10)))
      else if is_upper_hex c then
        parse_hex_loop n' str (pos + 1)
          (wrap32 (wrap32 (Z.shiftl val 4) + (code c - code "A" + 10)))
      else val
  end.

Definition parse_hex (str : list ascii) (offset : Z) : Z :=
  parse_hex_loop 8 str offset 0.

(** The body of the [for (i=0 ; i < 10 ; i++)] loop of [parse_int]. *)
Fixpoint parse_int_loop (n : nat) (str : list ascii) (pos val : Z) : Z :=
  match n with
  | O => val
  | S n' =>
      let c := char_at str pos in
      if is_digit c then
        parse_int_loop n' str (pos + 1)
          (wrap32 (wrap32 (val * 10) + (code c - code "0")))
      else val
  end.

Definition parse_int (str : list ascii) (offset : Z) : Z :=
  parse_int_loop 10 str offset 0.

(** [isspace] in the C locale: space, \t, \n, \v, \f, \r. *)
Definition isspace (c : ascii) : bool :=
  (code c =? 32) || ((9 <=? code c) && (code c <=? 13)).

(** The [while (last >= p0)] loop of [pickup]; it runs at most [p1 - p0]
    times, [n] bounds the iterations. *)
Fixpoint pickup_last (n : nat) (str : list ascii) (p0 last : Z) : Z :=
  match n with
  | O => last
  | S n' =>
      if last >=? p0 then
        if negb (isspace (char_at str last)) then last
        else pickup_last n' str p0 (last - 1)
      else last
  end.

(** The bytes [strndup(s, n)] copies: at most [n], stopping at a NUL. *)
Fixpoint strndup_copy (s : list ascii) (n : Z) : list ascii :=
  match s with
  | [] => []
  | c :: rest =>
      if (n <=? 0) || Ascii.eqb c NUL then []
      else c :: strndup_copy rest (n - 1)
  end.

(** [pickup]; [ok] tells whether the allocation inside [strndup] succeeds,
    [None] is the [NULL] result. *)
Definition pickup (ok : bool) (str : list ascii) (p0 p1 : Z)
  : option (list ascii) :=
  let last := pickup_last (Z.to_nat (p1 - p0)) str p0 (p1 - 1) in
  if ok then
    Some (strndup_copy (drop (Z.to_nat p0) str) (to_size_t (last - p0 + 1)))
  else None.


(** ** Records of [planedb.h] *)

(** [struct TypeInfoDef]; a [char *] field is [None] while it is [NULL]. *)
Record TypeInfo := mkTypeInfo {
  ti_next : Z;
  ti_id : Z;
  ti_manufacturer : option (list ascii);
  ti_model : option (list ascii);
  ti_type : Z;
  ti_nrseats : Z
}.

(** [struct PlaneInfoDef]. *)
Record PlaneInfo := mkPlaneInfo {
  pi_next : Z;
  pi_id : Z;
  pi_nnum : option (list ascii);
  pi_model : Z;
  pi_registrant : option (list ascii)
}.

(** [PlaneDb]: the heads of the two lists and the two one-entry caches. *)
Record PlaneDb := mkPlaneDb {
  types : Z;
  last_model : Z;
  last_ti : Z;
  planes : Z;
  last_icao : Z;
  last_pi : Z
}.

(** ** The world the program runs in *)

(** What one call of [malloc] does: fail, or return a fresh block whose
    words hold [junk] until the program writes them. *)
Inductive malloc_result := ENOMEM | Block (junk : list Z).

Definition INSIZE : nat := 1024.

Record world := mkWorld {
  disk : string -> option (list ascii);  (* the files, by name *)
  allocator : nat -> malloc_result;      (* outcome of the n-th malloc *)
  mallocs : nat;                         (* calls of malloc so far *)
  brk : Z;                               (* next fresh address *)
  inbuf : list ascii;                    (* static char inbuf[INSIZE] *)
  ti_heap : gmap Z TypeInfo;             (* live TypeInfo blocks *)
  pi_heap : gmap Z PlaneInfo;            (* live PlaneInfo blocks *)
  live_strings : nat;                    (* live strndup blocks *)
  live_dbs : nat;                        (* live PlaneDb blocks *)
  open_files : list string;              (* FILE handles not yet closed *)
  opened : list string                   (* fopen calls, oldest first *)
}.

(** The state at program start: nothing allocated, [inbuf] zero-filled. *)
Definition boot (d : string -> option (list ascii))
  (a : nat -> malloc_result) : world :=
  mkWorld d a 0 1 (replicate INSIZE NUL) ∅ ∅ 0 0 [] [].

Definition set_inbuf (b : list ascii) (w : world) : world :=
  mkWorld (disk w) (allocator w) (mallocs w) (brk w) b (ti_heap w)
    (pi_heap w) (live_strings w) (live_dbs w) (open_files w) (opened w).
Definition set_ti_heap (h : gmap Z TypeInfo) (w : world) : world :=
  mkWorld (disk w) (allocator w) (mallocs w) (brk w) (inbuf w) h
    (pi_heap w) (live_strings w) (live_dbs w) (open_files w) (opened w).
Definition set_pi_heap (h : gmap Z PlaneInfo) (w : world) : world :=
  mkWorld (disk w) (allocator w) (mallocs w) (brk w) (inbuf w) (ti_heap w)
    h (live_strings w) (live_dbs w) (open_files w) (opened w).
Definition set_live_strings (n : nat) (w : world) : world :=
  mkWorld (disk w) (allocator w) (mallocs w) (brk w) (inbuf w) (ti_heap w)
    (pi_heap w) n (live_dbs w) (open_files w) (opened w).
Definition set_live_dbs (n : nat) (w : world) : world :=
  mkWorld (disk w) (allocator w) (mallocs w) (brk w) (inbuf w) (ti_heap w)
    (pi_heap w) (live_strings w) n (open_files w) (opened w).

(** A record field that the program never wrote reads as the junk word. *)
Definition junk_word (junk : list Z) (i : nat) : Z := nth i junk 0.

(** [malloc]: [None] is [NULL], otherwise the fresh address and the stale
    contents of the block. *)
Definition malloc (w : world) : option (Z * list Z) * world :=
  match allocator w (mallocs w) with
  | ENOMEM =>
      (None,
       mkWorld (disk w) (allocator w) (S (mallocs w)) (brk w) (inbuf w)
         (ti_heap w) (pi_heap w) (live_strings w) (live_dbs w)
         (open_files w) (opened w))
  | Block junk =>
      (Some (brk w, junk),
       mkWorld (disk w) (allocator w) (S (mallocs w)) (brk w + 1) (inbuf w)
         (ti_heap w) (pi_heap w) (live_strings w) (live_dbs w)
         (open_files w) (opened w))
  end.

(** [fopen(fname, "r")]: the contents still to be read, or [None]. *)
Definition fopen (fname : string) (w : world) : option (list ascii) * world :=
  match disk w fname with
  | None =>
      (None,
       mkWorld (disk w) (allocator w) (mallocs w) (brk w) (inbuf w)
         (ti_heap w) (pi_heap w) (live_strings w) (live_dbs w)
         (open_files w) (opened w ++ [fname]))
  | Some content =>
      (Some content,
       mkWorld (disk w) (allocator w) (mallocs w) (brk w) (inbuf w)
         (ti_heap w) (pi_heap w) (live_strings w) (live_dbs w)
         (fname :: open_files w) (opened w ++ [fname]))
  end.

Fixpoint remove_first (x : string) (l : list string) : list string :=
  match l with
  | [] => []
  | y :: l' => if String.eqb x y then l' else y :: remove_first x l'
  end.

Definition fclose (fname : string) (w : world) : world :=
  mkWorld (disk w) (allocator w) (mallocs w) (brk w) (inbuf w) (ti_heap w)
    (pi_heap w) (live_strings w) (live_dbs w)
    (remove_first fname (open_files w)) (opened w).

(** One [fgets(buf, n + 1, f)] on a stream with [f] still to read: the
    bytes stored (at most [n], ending after a newline) and the rest of the
    stream. *)
Fixpoint fgets (n : nat) (f : list ascii) : list ascii * list ascii :=
  match n, f with
  | S n', c :: f' =>
      if Ascii.eqb c NL then ([c], f')
      else let '(l, r) := fgets n' f' in (c :: l, r)
  | _, _ => ([], f)
  end.

(** The strings the successive [fgets(inbuf, INSIZE, f)] calls of a
    [while (!feof(f))] loop return before end of file; a call consumes at
    least one byte, so [length f] calls are enough. *)
Fixpoint read_lines (fuel : nat) (f : list ascii) : list (list ascii) :=
  match fuel with
  | O => []
  | S k =>
      match f with
      | [] => []
      | _ :: _ => let '(l, r) := fgets (INSIZE - 1) f in l :: read_lines k r
      end
  end.

Definition file_lines (f : list ascii) : list (list ascii) :=
  read_lines (length f) f.

(** [fgets] stores the line and a terminator at the start of the buffer
    and leaves the bytes behind them as they were. *)
Definition fgets_store (line buf : list ascii) : list ascii :=
  line ++ NUL :: drop (S (length line)) buf.

(** [pickup] with its allocation: [strndup] is one [malloc]. *)
Definition pickup_w (str : list ascii) (p0 p1 : Z) (w : world)
  : option (list ascii) * world :=
  let '(r, w1) := malloc w in
  match r with
  | None => (None, w1)
  | Some _ =>
      (pickup true str p0 p1, set_live_strings (S (live_strings w1)) w1)
  end.

(** Result of an operation that dereferences pointers: it returns, or it
    reads or frees memory that is no live block of the expected kind, or
    it never returns. *)
Inductive outcome (A : Type) : Type :=
| Done (a : A)
| Fault
| Hang.
Arguments Done {A} a.
Arguments Fault {A}.
Arguments Hang {A}.

(** ** Linked lists on the heap *)

Section Scan.
Context {A : Type} (next key : A -> Z).

(** The loop [while (rec) { if (rec->id == id) return rec; rec = rec->next; }]
    shared by [type_lookup] and [planedb_lookup]; the result is the
    record found, or [0] when the loop ends on [NULL]. *)
Fixpoint list_scan (fuel : nat) (h : gmap Z A) (rec id : Z) : outcome Z :=
  match fuel with
  | O => Hang
  | S k =>
      if rec =? 0 then Done 0
      else
        match h !! rec with
        | None => Fault
        | Some r =>
            if key r =? id then Done rec else list_scan k h (next r) id
        end
  end.

(** The records at the addresses [l], in this order, are linked from
    [p]: each is a live block, each links to the next, and the last one
    links to [q]. *)
Fixpoint lseg (h : gmap Z A) (p : Z) (l : list Z) (q : Z) : Prop :=
  match l with
  | [] => p = q
  | a :: l' =>
      p = a /\ a <> 0 /\ exists r, h !! a = Some r /\ lseg h (next r) l' q
  end.

(** The list a loader has built so far: the records at [done], in the
    order they were appended, are linked from [head]; [prev] is the
    one appended last ([0] when there is none) and its own link has
    not been written yet. *)
Definition list_built (h : gmap Z A) (head prev : Z) (done : list Z)
  : Prop :=
  NoDup done
  /\ ((done = [] /\ prev = 0)
      \/ exists init,
           done = init ++ [prev] /\ prev <> 0 /\ is_Some (h !! prev)
           /\ lseg h head init prev).

(** [a] is the first record, in the order of [l], with the key [id]. *)
Definition first_with_key (h : gmap Z A) (l : list Z) (id a : Z) : Prop :=
  exists l1 l2 r,
    l = l1 ++ a :: l2 /\ h !! a = Some r /\ key r = id
    /\ forall b rb, b ∈ l1 -> h !! b = Some rb -> key rb <> id.

(** The first address of [l] whose record has the key [id]. *)
Fixpoint first_match (h : gmap Z A) (l : list Z) (id : Z) : option Z :=
  match l with
  | [] => None
  | a :: l' =>
      match h !! a with
      | Some r => if key r =? id then Some a else first_match h l' id
      | None => None
      end
  end.
End Scan.

(** The number of steps the walks are given. A walk that passes more
    records than there are live blocks passes one of them twice and
    therefore never ends (see [scan_bound_enough] below), so that running
    out of steps is the same as looping for ever: [Hang]. *)
Definition scan_bound {A : Type} (h : gmap Z A) : nat := S (size h).

(** ** Aircraft type table *)

Definition typeTable : list string :=
  [ "None"; "Glider"; "Balloon"; "Blimp/Dirigible";
    "Fixed wing single engine"; "Fixed wing multi engine"; "Rotorcraft";
    "Weight-shift-control"; "Powered Parachute"; "Gyroplane" ]%string.

(** [typeTable[i]]; [None] when [i] is outside the array. *)
Definition typeTable_at (i : Z) : option string :=
  if i <? 0 then None else nth_error typeTable (Z.to_nat i).

Definition typeInfoCreate (w : world) : Z * world :=
  match malloc w with
  | (None, w1) => (0, w1)
  | (Some (ti, junk), w1) =>
      (ti,
       set_ti_heap
         (<[ti := mkTypeInfo (junk_word junk 0) 0 None None 0 0]> (ti_heap w1))
         w1)
  end.

Definition count_some (o : option (list ascii)) : nat :=
  match o with Some _ => 1%nat | None => 0%nat end.

Definition typeInfoDelete (ti : Z) (w : world) : outcome world :=
  if ti =? 0 then Done w
  else
    match ti_heap w !! ti with
    | None => Fault
    | Some r =>
        Done
          (set_ti_heap (delete ti (ti_heap w))
             (set_live_strings
                (live_strings w - count_some (ti_manufacturer r)
                 - count_some (ti_model r))%nat
                w))
    end.

(** What [typeInfoPrint] prints for a record: the two names, the type and
    its description, the seats. *)
Record type_report := mkTypeReport {
  rep_manufacturer : option (list ascii);
  rep_model : option (list ascii);
  rep_type : Z;
  rep_description : string;
  rep_seats : Z
}.

Definition typeInfoPrint (ti : Z) (w : world) : outcome type_report :=
  match ti_heap w !! ti with
  | None => Fault
  | Some r =>
      match typeTable_at (ti_type r) with
      | None => Fault
      | Some d =>
          Done
            (mkTypeReport (ti_manufacturer r) (ti_model r) (ti_type r) d
               (ti_nrseats r))
      end
  end.

Definition type_lookup (db : PlaneDb) (id : Z) (w : world)
  : outcome (Z * PlaneDb) :=
  if id =? last_model db then Done (last_ti db, db)
  else
    match
      list_scan ti_next ti_id (scan_bound (ti_heap w)) (ti_heap w)
        (types db) id
    with
    | Done rec =>
        if rec =? 0 then Done (0, db)
        else
          Done
            (rec,
             mkPlaneDb (types db) id rec (planes db) (last_icao db)
               (last_pi db))
    | Fault => Fault
    | Hang => Hang
    end.

Definition ti_field (ti : Z) (f : TypeInfo -> TypeInfo) (w : world) : world :=
  set_ti_heap (alter f ti (ti_heap w)) w.

Definition with_ti_next (v : Z) (r : TypeInfo) : TypeInfo :=
  mkTypeInfo v (ti_id r) (ti_manufacturer r) (ti_model r) (ti_type r)
    (ti_nrseats r).
Definition with_ti_id (v : Z) (r : TypeInfo) : TypeInfo :=
  mkTypeInfo (ti_next r) v (ti_manufacturer r) (ti_model r) (ti_type r)
    (ti_nrseats r).
Definition with_ti_manufacturer (v : option (list ascii)) (r : TypeInfo)
  : TypeInfo :=
  mkTypeInfo (ti_next r) (ti_id r) v (ti_model r) (ti_type r) (ti_nrseats r).
Definition with_ti_model (v : option (list ascii)) (r : TypeInfo) : TypeInfo :=
  mkTypeInfo (ti_next r) (ti_id r) (ti_manufacturer r) v (ti_type r)
    (ti_nrseats r).
Definition with_ti_type (v : Z) (r : TypeInfo) : TypeInfo :=
  mkTypeInfo (ti_next r) (ti_id r) (ti_manufacturer r) (ti_model r) v
    (ti_nrseats r).
Definition with_ti_nrseats (v : Z) (r : TypeInfo) : TypeInfo :=
  mkTypeInfo (ti_next r) (ti_id r) (ti_manufacturer r) (ti_model r)
    (ti_type r) v.

Definition with_types (v : Z) (db : PlaneDb) : PlaneDb :=
  mkPlaneDb v (last_model db) (last_ti db) (planes db) (last_icao db)
    (last_pi db).
Definition with_planes (v : Z) (db : PlaneDb) : PlaneDb :=
  mkPlaneDb (types db) (last_model db) (last_ti db) v (last_icao db)
    (last_pi db).

(** The [while (!feof(f))] loop of [load_types], over the strings that
    [fgets] returns; [prev] is the record appended last, [0] at first. *)
Fixpoint load_types_loop (fname : string) (lines : list (list ascii))
  (prev : Z) (db : PlaneDb) (w : world) : bool * PlaneDb * world :=
  match lines with
  | [] => (true, db, fclose fname w)
  | line :: rest =>
      let w0 := set_inbuf (fgets_store line (inbuf w)) w in
      let str := inbuf w0 in
      if strlen str <? 68 then load_types_loop fname rest prev db w0
      else
        let '(ti, w1) := typeInfoCreate w0 in
        if ti =? 0 then (false, db, fclose fname w1)
        else
          let w2 := ti_field ti (with_ti_id (parse_int str 0)) w1 in
          let '(m, w3) := pickup_w str 8 38 w2 in
          let w4 := ti_field ti (with_ti_manufacturer m) w3 in
          match m with
          | None => (false, db, w4)
          | Some _ =>
              let '(n, w5) := pickup_w str 39 59 w4 in
              let w6 := ti_field ti (with_ti_model n) w5 in
              match n with
              | None => (false, db, w6)
              | Some _ =>
                  let w7 := ti_field ti (with_ti_type (parse_int str 60)) w6 in
                  let w8 :=
                    ti_field ti (with_ti_nrseats (parse_int str 72)) w7 in
                  if prev =? 0 then
                    load_types_loop fname rest ti (with_types ti db) w8
                  else
                    load_types_loop fname rest ti db
                      (ti_field prev (with_ti_next ti) w8)
              end
          end
  end.

Definition load_types (db : PlaneDb) (w : world) : bool * PlaneDb * world :=
  let fname := "ACFTREF.txt"%string in
  match fopen fname w with
  | (None, w1) => (false, db, w1)
  | (Some f, w1) => load_types_loop fname (file_lines f) 0 db w1
  end.

(** ** Registration database *)

Definition planeInfoCreate (w : world) : Z * world :=
  match malloc w with
  | (None, w1) => (0, w1)
  | (Some (pi, junk), w1) =>
      (pi,
       set_pi_heap
         (<[pi := mkPlaneInfo (junk_word junk 0) 0 None 0 None]> (pi_heap w1))
         w1)
  end.

Definition planeInfoDelete (pi : Z) (w : world) : outcome world :=
  if pi =? 0 then Done w
  else
    match pi_heap w !! pi with
    | None => Fault
    | Some r =>
        Done
          (set_pi_heap (delete pi (pi_heap w))
             (set_live_strings
                (live_strings w - count_some (pi_nnum r)
                 - count_some (pi_registrant r))%nat
                w))
    end.

Definition pi_field (pi : Z) (f : PlaneInfo -> PlaneInfo) (w : world)
  : world :=
  set_pi_heap (alter f pi (pi_heap w)) w.

Definition with_pi_next (v : Z) (r : PlaneInfo) : PlaneInfo :=
  mkPlaneInfo v (pi_id r) (pi_nnum r) (pi_model r) (pi_registrant r).
Definition with_pi_id (v : Z) (r : PlaneInfo) : PlaneInfo :=
  mkPlaneInfo (pi_next r) v (pi_nnum r) (pi_model r) (pi_registrant r).
Definition with_pi_nnum (v : option (list ascii)) (r : PlaneInfo)
  : PlaneInfo :=
  mkPlaneInfo (pi_next r) (pi_id r) v (pi_model r) (pi_registrant r).
Definition with_pi_model (v : Z) (r : PlaneInfo) : PlaneInfo :=
  mkPlaneInfo (pi_next r) (pi_id r) (pi_nnum r) v (pi_registrant r).
Definition with_pi_registrant (v : option (list ascii)) (r : PlaneInfo)
  : PlaneInfo :=
  mkPlaneInfo (pi_next r) (pi_id r) (pi_nnum r) (pi_model r) v.

(** What [planeInfoPrint] prints: a line for each registration field that
    is set and, when the model resolves, the report of [typeInfoPrint]. *)
Record plane_report := mkPlaneReport {
  rep_nnum : option (list ascii);       (* [None]: no N-Number line *)
  rep_registrant : option (list ascii); (* [None]: no Registrant line *)
  rep_model_id : option Z;              (* [None]: no Model line *)
  rep_type_info : option type_report    (* [None]: "No model info" *)
}.

(** [if (v) printf(..., v)]: the line is printed for a value that is not
    zero. *)
Definition printed_if_set (v : Z) : option Z :=
  if v =? 0 then None else Some v.

(** [planeInfoPrint]; the lookup of the model goes through the type cache
    and may change it. *)
Definition planeInfoPrint (db : PlaneDb) (pi : Z) (w : world)
  : outcome (plane_report * PlaneDb) :=
  match pi_heap w !! pi with
  | None => Fault
  | Some r =>
      match type_lookup db (pi_model r) w with
      | Done (ti, db1) =>
          if ti =? 0 then
            Done
              (mkPlaneReport (pi_nnum r) (pi_registrant r)
                 (printed_if_set (pi_model r)) None,
               db1)
          else
            match typeInfoPrint ti w with
            | Done t =>
                Done
                  (mkPlaneReport (pi_nnum r) (pi_registrant r)
                     (printed_if_set (pi_model r)) (Some t),
                   db1)
            | Fault => Fault
            | Hang => Hang
            end
      | Fault => Fault
      | Hang => Hang
      end
  end.

(** The [while (!feof(f))] loop of [load_planes]. *)
Fixpoint load_planes_loop (fname : string) (lines : list (list ascii))
  (prev : Z) (db : PlaneDb) (w : world) : bool * PlaneDb * world :=
  match lines with
  | [] => (true, db, fclose fname w)
  | line :: rest =>
      let w0 := set_inbuf (fgets_store line (inbuf w)) w in
      let str := inbuf w0 in
      if strlen str <? 610 then load_planes_loop fname rest prev db w0
      else
        let '(pi, w1) := planeInfoCreate w0 in
        if pi =? 0 then (false, db, fclose fname w1)
        else
          let w2 := pi_field pi (with_pi_id (parse_hex str 601)) w1 in
          let '(m, w3) := pickup_w str 0 5 w2 in
          let w4 := pi_field pi (with_pi_nnum m) w3 in
          match m with
          | None => (false, db, w4)
          | Some _ =>
              let w5 := pi_field pi (with_pi_model (parse_int str 37)) w4 in
              let '(n, w6) := pickup_w str 58 107 w5 in
              let w7 := pi_field pi (with_pi_registrant n) w6 in
              match n with
              | None => (false, db, w7)
              | Some _ =>
                  if prev =? 0 then
                    load_planes_loop fname rest pi (with_planes pi db) w7
                  else
                    load_planes_loop fname rest pi db
                      (pi_field prev (with_pi_next pi) w7)
              end
          end
  end.

Definition load_planes (db : PlaneDb) (w : world) : bool * PlaneDb * world :=
  let fname := "MASTER.txt"%string in
  match fopen fname w with
  | (None, w1) => (false, db, w1)
  | (Some f, w1) => load_planes_loop fname (file_lines f) 0 db w1
  end.

(** ** Main database *)

(** The loops of [planedb_close]:
    [for (trec = db->types ; trec ; trec = tnext)
       { tnext = trec->next; typeInfoDelete(trec); }].
    Every round frees a live block, so [scan_bound] rounds are enough. *)
Fixpoint free_types (fuel : nat) (trec : Z) (w : world) : outcome world :=
  match fuel with
  | O => Hang
  | S k =>
      if trec =? 0 then Done w
      else
        match ti_heap w !! trec with
        | None => Fault
        | Some r =>
            let tnext := ti_next r in
            match typeInfoDelete trec w with
            | Done w1 => free_types k tnext w1
            | Fault => Fault
            | Hang => Hang
            end
        end
  end.

Fixpoint free_planes (fuel : nat) (prec : Z) (w : world) : outcome world :=
  match fuel with
  | O => Hang
  | S k =>
      if prec =? 0 then Done w
      else
        match pi_heap w !! prec with
        | None => Fault
        | Some r =>
            let pnext := pi_next r in
            match planeInfoDelete prec w with
            | Done w1 => free_planes k pnext w1
            | Fault => Fault
            | Hang => Hang
            end
        end
  end.

(** [planedb_close]; the context is [None] when the pointer is [NULL]. *)
Definition planedb_close (db : option PlaneDb) (w : world)
  : outcome (bool * world) :=
  match db with
  | None => Done (false, w)
  | Some d =>
      match free_types (scan_bound (ti_heap w)) (types d) w with
      | Done w1 =>
          match free_planes (scan_bound (pi_heap w1)) (planes d) w1 with
          | Done w2 => Done (true, set_live_dbs (live_dbs w2 - 1)%nat w2)
          | Fault => Fault
          | Hang => Hang
          end
      | Fault => Fault
      | Hang => Hang
      end
  end.

(** [planedb_init]: only [types] and [planes] of the fresh block are
    written before the loads; the four cache fields keep what the block
    held. *)
Definition planedb_init (w : world) : outcome (option PlaneDb * world) :=
  match malloc w with
  | (None, w1) => Done (None, w1)
  | (Some (_, junk), w1) =>
      let w2 := set_live_dbs (S (live_dbs w1)) w1 in
      let db :=
        mkPlaneDb 0 (wrap32 (junk_word junk 1)) (junk_word junk 2) 0
          (wrap32 (junk_word junk 4)) (junk_word junk 5) in
      let '(ok1, db1, w3) := load_types db w2 in
      if negb ok1 then
        match planedb_close (Some db1) w3 with
        | Done (_, w4) => Done (None, w4)
        | Fault => Fault
        | Hang => Hang
        end
      else
        let '(ok2, db2, w4) := load_planes db1 w3 in
        if negb ok2 then
          match planedb_close (Some db2) w4 with
          | Done (_, w5) => Done (None, w5)
          | Fault => Fault
          | Hang => Hang
          end
        else Done (Some db2, w4)
  end.

(** [planedb_lookup]; [db] and [icao] are [None] when [NULL]. *)
Definition planedb_lookup (db : option PlaneDb) (icao : option (list ascii))
  (w : world) : outcome (Z * option PlaneDb) :=
  match db, icao with
  | Some d, Some s =>
      let id := parse_hex s 0 in
      if id =? last_icao d then Done (last_pi d, db)
      else
        match
          list_scan pi_next pi_id (scan_bound (pi_heap w)) (pi_heap w)
            (planes d) id
        with
        | Done rec =>
            if rec =? 0 then Done (0, db)
            else
              Done
                (rec,
                 Some
                   (mkPlaneDb (types d) (last_model d) (last_ti d) (planes d)
                      id rec))
        | Fault => Fault
        | Hang => Hang
        end
  | _, _ => Done (0, db)
  end.

(** ** Reference notions the statements are phrased with *)

(** The position of a character in a string, counted from [i]. *)
Fixpoint position_from (i : Z) (c : ascii) (s : list ascii) : option Z :=
  match s with
  | [] => None
  | x :: rest => if Ascii.eqb c x then Some i else position_from (i + 1) c rest
  end.

(** The value of a hexadecimal digit is its place among the sixteen
    digits, written in lower or in upper case; any other character has
    none. *)
Definition hex_digit_value (c : ascii) : option Z :=
  match position_from 0 c (cstr "0123456789abcdef") with
  | Some d => Some d
  | None => position_from 0 c (cstr "0123456789ABCDEF")
  end.

(** The values of the hexadecimal digits at the start of [s], at most [n]
    of them, up to the first character that is no such digit. *)
Fixpoint hex_digits (n : nat) (s : list ascii) : list Z :=
  match n, s with
  | S n', c :: s' =>
      match hex_digit_value c with
      | Some d => d :: hex_digits n' s'
      | None => []
      end
  | _, _ => []
  end.

(** The number a list of digit values denotes in base [b], most
    significant digit first. *)
Definition base_value (b : Z) (ds : list Z) : Z :=
  fold_left (fun acc d => b * acc + d) ds 0.

(** The 32-bit [int] with the same bits as the unsigned value [v]. *)
Definition as_int32 (v : Z) : Z := if v <? 2 ^ 31 then v else v - 2 ^ 32.

(** The span [[p0, p1)] of a string all consists of whitespace. *)
Definition all_space (str : list ascii) (p0 p1 : Z) : Prop :=
  forall j, p0 <= j < p1 -> isspace (char_at str j) = true.

(** [last] is the position of the last character of the span [[p0, p1)]
    that is no whitespace. *)
Definition last_non_space (str : list ascii) (p0 p1 last : Z) : Prop :=
  p0 <= last < p1 /\ isspace (char_at str last) = false
  /\ all_space str (last + 1) p1.

(** The characters of [str] at the positions [[p0, p1)]. *)
Definition span (str : list ascii) (p0 p1 : Z) : list ascii :=
  take (Z.to_nat (p1 - p0)) (drop (Z.to_nat p0) str).


(** The buffer contents the successive [fgets] calls of a loader leave in
    [inbuf], one per string read. *)
Fixpoint line_buffers (lines : list (list ascii)) (buf : list ascii)
  : list (list ascii) :=
  match lines with
  | [] => []
  | l :: rest =>
      let b := fgets_store l buf in b :: line_buffers rest b
  end.

(** What [inbuf] holds after all of [lines] have been read into it. *)
Definition final_buffer (lines : list (list ascii)) (buf : list ascii)
  : list ascii :=
  fold_left (fun b l => fgets_store l b) lines buf.

(** The strings of at least [width] bytes. *)
Definition accepted (width : Z) (strs : list (list ascii))
  : list (list ascii) :=
  filter (fun s => width <= strlen s) strs.

(** The record holds the fields the type loader reads from [str]. *)
Definition type_fields (str : list ascii) (r : TypeInfo) : Prop :=
  ti_id r = parse_int str 0
  /\ ti_manufacturer r = pickup true str 8 38
  /\ ti_model r = pickup true str 39 59
  /\ ti_type r = parse_int str 60
  /\ ti_nrseats r = parse_int str 72.

(** The record holds the fields the registration loader reads from [str]. *)
Definition plane_fields (str : list ascii) (r : PlaneInfo) : Prop :=
  pi_id r = parse_hex str 601
  /\ pi_nnum r = pickup true str 0 5
  /\ pi_model r = parse_int str 37
  /\ pi_registrant r = pickup true str 58 107.

(** Addresses handed out so far lie below [brk]; [0] is no block. *)
Definition heap_ok (w : world) : Prop :=
  0 < brk w
  /\ (forall a, is_Some (ti_heap w !! a) -> 0 < a < brk w)
  /\ (forall a, is_Some (pi_heap w !! a) -> 0 < a < brk w).

(** The record a round of [load_types] builds from the buffer [str] in a
    fresh block that held [junk]. *)
Definition type_record (junk : list Z) (str : list ascii) : TypeInfo :=
  mkTypeInfo (junk_word junk 0) (parse_int str 0) (pickup true str 8 38)
    (pickup true str 39 59) (parse_int str 60) (parse_int str 72).

(** [if (prev) prev->next = ti;] *)
Definition link_type (prev ti : Z) (h : gmap Z TypeInfo) : gmap Z TypeInfo :=
  if prev =? 0 then h else alter (with_ti_next ti) prev h.

(** The record a round of [load_planes] builds from the buffer [str]. *)
Definition plane_record (junk : list Z) (str : list ascii) : PlaneInfo :=
  mkPlaneInfo (junk_word junk 0) (parse_hex str 601) (pickup true str 0 5)
    (parse_int str 37) (pickup true str 58 107).

(** [if (prev) prev->next = pi;] *)
Definition link_plane (prev pi : Z) (h : gmap Z PlaneInfo)
  : gmap Z PlaneInfo :=
  if prev =? 0 then h else alter (with_pi_next pi) prev h.

(** The Type Index of [db] consists of the records at [addrs], in this
    order, one per buffer of [strs] and holding its fields; [q] is the
    link of the last record (what its block held when allocated), [0] for
    an empty index. *)
Definition types_loaded (w : world) (db : PlaneDb) (addrs : list Z)
  (strs : list (list ascii)) (q : Z) : Prop :=
  NoDup addrs
  /\ Forall2
       (fun a str => exists r, ti_heap w !! a = Some r /\ type_fields str r)
       addrs strs
  /\ lseg ti_next (ti_heap w) (types db) addrs q
  /\ (addrs = [] -> q = 0).

(** The Registration Index of [db], likewise. *)
Definition planes_loaded (w : world) (db : PlaneDb) (addrs : list Z)
  (strs : list (list ascii)) (q : Z) : Prop :=
  NoDup addrs
  /\ Forall2
       (fun a str => exists r, pi_heap w !! a = Some r /\ plane_fields str r)
       addrs strs
  /\ lseg pi_next (pi_heap w) (planes db) addrs q
  /\ (addrs = [] -> q = 0).

(** A line of a text file as the loaders expect it: some bytes, none of
    them a newline or NUL, then the newline, and all of it fits in
    [inbuf] with its terminator. *)
Definition text_line (l : list ascii) : Prop :=
  exists body,
    l = body ++ [NL] /\ (NL ∉ body) /\ (NUL ∉ body)
    /\ (length l <= INSIZE - 1)%nat.

(** ** Sample files and allocators *)

(** [s] in a column of [n] bytes, blank-filled. *)
Definition pad (n : nat) (s : string) : list ascii :=
  take n (cstr s ++ replicate n " "%char).

(** A line of ACFTREF.txt of [width] bytes, newline included: id at
    column 0, manufacturer at 8, model at 39, type at 60, seats at 72. *)
Definition type_line (id mfr model type seats : string) (width : nat)
  : list ascii :=
  take (width - 1)
    (pad 8 id ++ pad 31 mfr ++ pad 21 model ++ pad 12 type ++ pad 8 seats
     ++ replicate width " "%char)
  ++ [NL].

(** A line of MASTER.txt (612 bytes): N-number at column 0, model id at
    37, registrant at 58, ICAO id at 601. *)
Definition plane_line (nnum model registrant icao : string) : list ascii :=
  pad 37 nnum ++ pad 21 model ++ pad 543 registrant ++ pad 10 icao ++ [NL].

Definition disk_of (acftref master : option (list ascii))
  : string -> option (list ascii) :=
  fun name =>
    if String.eqb name "ACFTREF.txt" then acftref
    else if String.eqb name "MASTER.txt" then master
    else None.

(** Every allocation succeeds and returns zero-filled memory. *)
Definition clean_alloc : nat -> malloc_result := fun _ => Block [].

(** Every allocation succeeds and returns memory filled with [v]. *)
Definition dirty_alloc (v : Z) : nat -> malloc_result :=
  fun _ => Block [v; v; v; v; v; v].

(** Zero-filled memory, but the [n]-th allocation fails. *)
Definition failing_alloc (n : nat) : nat -> malloc_result :=
  fun k => if Nat.eqb k n then ENOMEM else Block [].

Definition cessna_line : list ascii :=
  type_line "1200119" "CESSNA" "172" "4" "004" 80.
Definition piper_line : list ascii :=
  type_line "7102802" "PIPER" "PA-28-140" "4" "004" 80.

(** Three lines, the second cut off after 40 bytes. *)
Definition three_line_types : list ascii :=
  cessna_line ++ take 40 piper_line ++ [NL] ++ piper_line.

Definition n12345_line : list ascii :=
  plane_line "12345" "1200119" "JOHN DOE" "A1B2C3".

Definition empty_db : PlaneDb := mkPlaneDb 0 0 0 0 0 0.

(** One Cessna 172 in ACFTREF.txt, one registration of such an aircraft
    in MASTER.txt, zero-filled memory. *)
Definition sample_world : world :=
  boot (disk_of (Some cessna_line) (Some n12345_line)) clean_alloc.

(** Two type records with the same id, and two registrations with the
    same ICAO id. *)
Definition twin_types : list ascii :=
  cessna_line ++ type_line "1200119" "IMPOSTOR" "X" "1" "001" 80.
Definition twin_planes : list ascii :=
  n12345_line ++ plane_line "99999" "7102802" "JANE ROE" "A1B2C3".

(** The context and the world of a run of [planedb_init] that returned a
    context. *)
Definition ready_db (o : outcome (option PlaneDb * world)) : PlaneDb :=
  match o with Done (Some d, _) => d | _ => empty_db end.
Definition ready_world (w : world) (o : outcome (option PlaneDb * world))
  : world :=
  match o with Done (_, w') => w' | _ => w end.

Definition twin_world : world :=
  boot (disk_of (Some twin_types) (Some twin_planes)) clean_alloc.

(** ** Lookups without the cache, sequences of lookups *)

(** The linear scan of the Type Index alone, as [type_lookup] runs it
    when the cache does not answer. *)
Definition type_scan (db : PlaneDb) (id : Z) (w : world) : outcome Z :=
  list_scan ti_next ti_id (scan_bound (ti_heap w)) (ti_heap w) (types db) id.

(** The linear scan of the Registration Index alone. *)
Definition plane_scan (db : PlaneDb) (id : Z) (w : world) : outcome Z :=
  list_scan pi_next pi_id (scan_bound (pi_heap w)) (pi_heap w) (planes db) id.

(** Each cache holds a key together with what the scan of its index
    returns for that key. *)
Definition caches_ok (db : PlaneDb) (w : world) : Prop :=
  type_scan db (last_model db) w = Done (last_ti db)
  /\ plane_scan db (last_icao db) w = Done (last_pi db).

Inductive lookup_call :=
| ByModel (id : Z)               (* type_lookup(db, id) *)
| ByIcao (icao : list ascii).    (* planedb_lookup(db, icao) *)

(** A sequence of lookups on one context: the records returned, in order,
    and the context afterwards. *)
Fixpoint lookups (calls : list lookup_call) (db : PlaneDb) (w : world)
  : outcome (list Z * PlaneDb) :=
  match calls with
  | [] => Done ([], db)
  | c :: rest =>
      let first :=
        match c with
        | ByModel id => type_lookup db id w
        | ByIcao icao =>
            match planedb_lookup (Some db) (Some icao) w with
            | Done (rec, Some db1) => Done (rec, db1)
            | Done (rec, None) => Done (rec, db)
            | Fault => Fault
            | Hang => Hang
            end
        end in
      match first with
      | Done (rec, db1) =>
          match lookups rest db1 w with
          | Done (recs, db2) => Done (rec :: recs, db2)
          | Fault => Fault
          | Hang => Hang
          end
      | Fault => Fault
      | Hang => Hang
      end
  end.

(** The same sequence answered by scans only. *)
Fixpoint scans (calls : list lookup_call) (db : PlaneDb) (w : world)
  : outcome (list Z) :=
  match calls with
  | [] => Done []
  | c :: rest =>
      let first :=
        match c with
        | ByModel id => type_scan db id w
        | ByIcao icao => plane_scan db (parse_hex icao 0) w
        end in
      match first with
      | Done rec =>
          match scans rest db w with
          | Done recs => Done (rec :: recs)
          | Fault => Fault
          | Hang => Hang
          end
      | Fault => Fault
      | Hang => Hang
      end
  end.

(** The records a sequence of lookups returns, without the context. *)
Definition answers (o : outcome (list Z * PlaneDb)) : outcome (list Z) :=
  match o with
  | Done (recs, _) => Done recs
  | Fault => Fault
  | Hang => Hang
  end.

(** ** Worlds the defects show in *)

(** Zero-filled memory; one registration whose ICAO field is [000000]. *)
Definition zero_icao_world : world :=
  boot
    (disk_of (Some cessna_line)
       (Some (plane_line "12345" "1200119" "JOHN DOE" "000000")))
    clean_alloc.

(** A type line of 70 bytes: it ends before the seats column. *)
Definition piper_line_70 : list ascii :=
  type_line "7102802" "PIPER" "PA-28-140" "4" "" 70.

(** A full type line followed by the 70-byte one. *)
Definition stale_world : world :=
  boot (disk_of (Some (cessna_line ++ piper_line_70)) (Some n12345_line))
    clean_alloc.

(** A type line with the two digits [12] in the type column. *)
Definition category_12_world : world :=
  boot
    (disk_of (Some (type_line "1200119" "CESSNA" "172" "12" "004" 80))
       (Some n12345_line))
    clean_alloc.

(** The [strndup] for the manufacturer of the first type record fails
    (allocation 0 is the context, 1 the record, 2 the string). *)
Definition strndup_fails_world : world :=
  boot (disk_of (Some cessna_line) (Some n12345_line)) (failing_alloc 2).

(** Recycled memory full of [0x5a] bytes; MASTER.txt is missing. *)
Definition dirty_world : world :=
  boot (disk_of (Some cessna_line) None) (dirty_alloc 6510615555426900570).

(** Recycled memory, both files present. *)
Definition dirty_ready_world : world :=
  boot (disk_of (Some cessna_line) (Some n12345_line))
    (dirty_alloc 6510615555426900570).

(** Zero-filled memory; MASTER.txt is missing. *)
Definition no_master_world : world :=
  boot (disk_of (Some cessna_line) None) clean_alloc.

(** Zero-filled memory, except that the first block, the one the context
    gets, is a recycled context: its cache words still name a model with
    the record at address 5 and an ICAO id with the record at address
    11. *)
Definition stale_cache_alloc : nat -> malloc_result :=
  fun k =>
    if Nat.eqb k 0 then Block [0; 1200119; 5; 0; 10597059; 11] else Block [].

(** The files with the duplicate ids, loaded into the recycled context. *)
Definition stale_cache_world : world :=
  boot (disk_of (Some twin_types) (Some twin_planes)) stale_cache_alloc.

(** A registration whose model column is blank. *)
Definition blank_model_line : list ascii :=
  plane_line "12345" "" "JOHN DOE" "A1B2C3".

Definition blank_model_world : world :=
  boot (disk_of (Some cessna_line) (Some blank_model_line)) clean_alloc.

(** ** Lines of a file and strings of [fgets] *)

(** The lines of a file as a text editor shows them: each runs up to and
    including its newline, the last one to the end of the file. *)
Fixpoint lines_from (cur f : list ascii) : list (list ascii) :=
  match f with
  | [] => match cur with [] => [] | _ => [cur] end
  | c :: f' =>
      if Ascii.eqb c NL then (cur ++ [c]) :: lines_from [] f'
      else lines_from (cur ++ [c]) f'
  end.

Definition input_lines (f : list ascii) : list (list ascii) :=
  lines_from [] f.

(** One line of 2001 bytes, newline included: longer than the buffer. *)
Definition long_type_line : list ascii :=
  replicate 2000 "A"%char ++ [NL].

(** The 80 bytes of the Cessna line with a NUL byte in place of byte 10. *)
Definition nul_type_line : list ascii :=
  take 10 cessna_line ++ NUL :: drop 11 cessna_line.

Definition long_line_world : world :=
  boot (disk_of (Some long_type_line) None) clean_alloc.

Definition nul_line_world : world :=
  boot (disk_of (Some nul_type_line) None) clean_alloc.

(** ** The standalone tool ([#ifdef STANDALONE]) *)

(** What the tool writes to standard output, one item per [printf] or per
    record printed. *)
Inductive output :=
| Echo (icao : list ascii)        (* printf("%s\n", icao) *)
| Text (msg : string)             (* a fixed message *)
| Report (r : plane_report).      (* what planeInfoPrint prints *)

Module Standalone.

Definition usage : list output := [Text "Usage:  planedb <icao code>"].

(** The context after a call that returns it as an option. *)
Definition context_after (o : option PlaneDb) (db : PlaneDb) : PlaneDb :=
  match o with Some d => d | None => db end.

(** [lookup(icao)]: echo the argument, build the database, look the
    string up, print what was found, close the database. The source
    leaves the [int] result unset on this path and [main] ignores it;
    the tool's output and the final world are what is modelled. *)
Definition lookup (icao : list ascii) (w : world)
  : outcome (list output * world) :=
  match planedb_init w with
  | Done (None, w1) =>
      Done ([Echo icao; Text "Could not initialize plane database"], w1)
  | Done (Some db, w1) =>
      match planedb_lookup (Some db) (Some icao) w1 with
      | Done (pi, odb) =>
          let db1 := context_after odb db in
          if pi =? 0 then
            match planedb_close (Some db1) w1 with
            | Done (_, w2) => Done ([Echo icao; Text "Plane not found"], w2)
            | Fault => Fault
            | Hang => Hang
            end
          else
            match planeInfoPrint db1 pi w1 with
            | Done (rep, db2) =>
                match planedb_close (Some db2) w1 with
                | Done (_, w2) => Done ([Echo icao; Report rep], w2)
                | Fault => Fault
                | Hang => Hang
                end
            | Fault => Fault
            | Hang => Hang
            end
      | Fault => Fault
      | Hang => Hang
      end
  | Fault => Fault
  | Hang => Hang
  end.

(** [main(argc, argv)]; [argv] includes the program name, [argc] is its
    length. *)
Definition main (argv : list (list ascii)) (w : world)
  : outcome (list output * world) :=
  match argv with
  | [_; icao] => lookup icao w
  | _ => Done (usage, w)
  end.

End Standalone.

(** ** More reference notions *)

(** The value of a decimal digit, [None] for any other character. *)
Definition dec_digit_value (c : ascii) : option Z :=
  position_from 0 c (cstr "0123456789").

(** The values of the decimal digits at the start of [s], at most [n] of
    them, up to the first character that is no digit. *)
Fixpoint dec_digits (n : nat) (s : list ascii) : list Z :=
  match n, s with
  | S n', c :: s' =>
      match dec_digit_value c with
      | Some d => d :: dec_digits n' s'
      | None => []
      end
  | _, _ => []
  end.

(** An upper-case ASCII letter becomes the lower-case one, any other
    character stays. *)
Definition to_lower (c : ascii) : ascii :=
  if (code "A" <=? code c) && (code c <=? code "Z")
  then ascii_of_N (N_of_ascii c + 32)
  else c.

(** Every block the allocator returns reads as zero. *)
Definition zero_filled (w : world) : Prop :=
  forall n junk i, allocator w n = Block junk -> junk_word junk i = 0.

(** No allocation fails. *)
Definition never_fails (w : world) : Prop :=
  forall n, allocator w n <> ENOMEM.

(** The fields of a type record as read from [line] itself. The seats
    column starts at byte 72, beyond the 68 bytes a line must have: the
    seats are those of [line] when it has that column. *)
Definition type_line_fields (line : list ascii) (r : TypeInfo) : Prop :=
  ti_id r = parse_int line 0
  /\ ti_manufacturer r = pickup true line 8 38
  /\ ti_model r = pickup true line 39 59
  /\ ti_type r = parse_int line 60
  /\ (72 <= Z.of_nat (length line) -> ti_nrseats r = parse_int line 72).

(** The first string of at least [width] bytes of a file whose field
    [key] is [id]; none for the id 0, the key the caches of a context
    built in zero-filled memory claim to know without a record. *)
Definition found_line (key : list ascii -> Z) (width : Z)
  (file : list ascii) (id : Z) : option (list ascii) :=
  if id =? 0 then None
  else find (fun l => key l =? id) (accepted width (file_lines file)).

(** The type part of the report for the type line [tl]. *)
Definition type_line_report (tl : list ascii) : outcome type_report :=
  match typeTable_at (parse_int tl 60) with
  | Some d =>
      Done
        (mkTypeReport (pickup true tl 8 38) (pickup true tl 39 59)
           (parse_int tl 60) d (parse_int tl 72))
  | None => Fault
  end.

(** What the tool prints after the echo, read off the two files: the
    N-number and registrant of the registration line, its model when that
    is not 0, and the type part. *)
Definition tool_report (acftref master icao : list ascii) : outcome output :=
  match found_line (fun l => parse_hex l 601) 610 master (parse_hex icao 0) with
  | None => Done (Text "Plane not found")
  | Some pl =>
      let report :=
        mkPlaneReport (pickup true pl 0 5) (pickup true pl 58 107)
          (printed_if_set (parse_int pl 37)) in
      match found_line (fun l => parse_int l 0) 68 acftref (parse_int pl 37) with
      | None => Done (Report (report None))
      | Some tl =>
          match type_line_report tl with
          | Done t => Done (Report (report (Some t)))
          | Fault => Fault
          | Hang => Hang
          end
      end
  end.

(** Both strings of a type record are allocated. *)
Definition type_strings_set (r : TypeInfo) : Prop :=
  is_Some (ti_manufacturer r) /\ is_Some (ti_model r).

(** Both strings of a registration record are allocated. *)
Definition plane_strings_set (r : PlaneInfo) : Prop :=
  is_Some (pi_nnum r) /\ is_Some (pi_registrant r).

(** ** Proof automation *)

(** Projections of a world built with [mkWorld]. *)
Ltac world_fields :=
  cbn [allocator mallocs brk inbuf ti_heap pi_heap live_strings live_dbs
       open_files opened disk set_ti_heap set_pi_heap set_live_strings
       set_inbuf pickup].

(** Closed goals about the sample worlds are settled by running the
    program. *)
Ltac by_evaluation := vm_compute; first [reflexivity | discriminate | lia].

Ltac index_by_evaluation :=
  split; [|split; [|split]];
  [ apply NoDup_ListNoDup; repeat constructor; simpl; intuition lia
  | repeat constructor; eexists; (split; [by_evaluation|]);
    repeat split; by_evaluation
  | cbn [lseg]; repeat split; try lia;
    eexists; (split; [by_evaluation|]);
    cbn [lseg]; repeat split; try by_evaluation;
    eexists; (split; by_evaluation)
  | discriminate ].

(** * Properties *)

(** ** Field extractor *)

Lemma wrap32_range z : - 2 ^ 31 <= wrap32 z < 2 ^ 31.
Proof. unfold wrap32. pose proof (Z.mod_pos_bound (z + 2 ^ 31) (2 ^ 32)). lia. Qed.

Lemma wrap32_small z : - 2 ^ 31 <= z < 2 ^ 31 -> wrap32 z = z.
Proof. intros H. unfold wrap32. rewrite Z.mod_small; lia. Qed.

Lemma wrap32_eqm a b : (a - b) mod 2 ^ 32 = 0 -> wrap32 a = wrap32 b.
Proof.
  intros H. unfold wrap32. f_equal.
  apply Z.mod_divide in H; [|lia]. destruct H as [k Hk].
  replace (a + 2 ^ 31) with (b + 2 ^ 31 + k * 2 ^ 32) by lia.
  apply Z.mod_add. lia.
Qed.

Lemma wrap32_diff a : exists k, wrap32 a = a + k * 2 ^ 32.
Proof.
  unfold wrap32. exists (- ((a + 2 ^ 31) / 2 ^ 32)).
  pose proof (Z.div_mod (a + 2 ^ 31) (2 ^ 32)). lia.
Qed.

(** One step of either loop, on wrapped operands, agrees modulo [2^32]
    with the exact step. *)
Lemma wrap32_step b a d :
  wrap32 (wrap32 (b * wrap32 a) + d) = wrap32 (b * a + d).
Proof.
  destruct (wrap32_diff a) as [k Hk].
  destruct (wrap32_diff (b * wrap32 a)) as [j Hj].
  apply wrap32_eqm. rewrite Hj, Hk.
  replace (b * (a + k * 2 ^ 32) + j * 2 ^ 32 + d - (b * a + d))
    with ((b * k + j) * 2 ^ 32) by lia.
  apply Z.mod_mul. lia.
Qed.

Lemma fold_wrap32 b ds a :
  fold_left (fun acc d => wrap32 (wrap32 (b * acc) + d)) ds (wrap32 a)
  = wrap32 (fold_left (fun acc d => b * acc + d) ds a).
Proof.
  revert a. induction ds as [|d ds IH]; intros a; simpl; [reflexivity|].
  rewrite wrap32_step. apply IH.
Qed.

Lemma hex_digit_value_code c :
  hex_digit_value c =
  if is_digit c then Some (code c - code "0")
  else if is_lower_hex c then Some (code c - code "a" + 10)
  else if is_upper_hex c then Some (code c - code "A" + 10)
  else None.
Proof. destruct c as [[] [] [] [] [] [] [] []]; reflexivity. Qed.

Lemma hex_digit_value_range c d : hex_digit_value c = Some d -> 0 <= d < 16.
Proof.
  destruct c as [[] [] [] [] [] [] [] []]; simpl; intros H;
    first [discriminate | injection H as <-; lia].
Qed.

Lemma char_at_drop str (pos : nat) :
  char_at str (Z.of_nat pos) = nth 0 (drop pos str) NUL.
Proof.
  unfold char_at. destruct (Z.ltb_spec (Z.of_nat pos) 0) as [H|_]; [lia|].
  rewrite Nat2Z.id. revert pos.
  induction str as [|c str IH]; intros [|pos]; simpl; auto.
Qed.

Lemma drop_S_nth (str : list ascii) (pos : nat) c rest :
  drop pos str = c :: rest -> drop (S pos) str = rest.
Proof.
  revert pos. induction str as [|x str IH]; intros [|pos]; simpl; try discriminate.
  - intros [= _ ->]. apply drop_0.
  - intros H. apply IH. exact H.
Qed.

Lemma parse_hex_loop_digits n str (pos : nat) val :
  parse_hex_loop n str (Z.of_nat pos) val
  = fold_left (fun acc d => wrap32 (wrap32 (16 * acc) + d))
      (hex_digits n (drop pos str)) val.
Proof.
  revert pos val. induction n as [|n IH]; intros pos val; simpl; [reflexivity|].
  rewrite char_at_drop.
  destruct (drop pos str) as [|c rest] eqn:E; simpl.
  - reflexivity.
  - apply drop_S_nth in E. rewrite hex_digit_value_code.
    replace (Z.of_nat pos + 1) with (Z.of_nat (S pos)) by lia.
    rewrite Z.shiftl_mul_pow2 by lia.
    replace (val * 2 ^ 4) with (16 * val) by lia.
    destruct (is_digit c); [rewrite IH, E; reflexivity|].
    destruct (is_lower_hex c); [rewrite IH, E; reflexivity|].
    destruct (is_upper_hex c); [rewrite IH, E; reflexivity|].
    reflexivity.
Qed.

Lemma hex_digits_length n s : (length (hex_digits n s) <= n)%nat.
Proof.
  revert s. induction n as [|n IH]; intros [|c s]; simpl; try lia.
  destruct (hex_digit_value c); simpl; [specialize (IH s)|]; lia.
Qed.

Lemma hex_digits_range n s : Forall (fun d => 0 <= d < 16) (hex_digits n s).
Proof.
  revert s. induction n as [|n IH]; intros [|c s]; simpl; auto.
  destruct (hex_digit_value c) eqn:E; auto.
  constructor; [eapply hex_digit_value_range; eauto | apply IH].
Qed.

Lemma hex_digits_take n s : hex_digits n (take n s) = hex_digits n s.
Proof.
  revert s. induction n as [|n IH]; intros [|c s]; simpl; auto.
  destruct (hex_digit_value c); [rewrite IH|]; reflexivity.
Qed.

Lemma base_value_bound b ds a :
  0 < b -> Forall (fun d => 0 <= d < b) ds -> 0 <= a ->
  0 <= fold_left (fun acc d => b * acc + d) ds a
  < (a + 1) * b ^ Z.of_nat (length ds).
Proof.
  intros Hb H. revert a. induction H as [|d ds Hd _ IH]; intros a Ha.
  - simpl. lia.
  - cbn [fold_left length]. specialize (IH (b * a + d) ltac:(nia)).
    rewrite Nat2Z.inj_succ, Z.pow_succ_r by lia.
    split; [lia|]. eapply Z.lt_le_trans; [apply IH|].
    assert (0 < b ^ Z.of_nat (length ds)) by (apply Z.pow_pos_nonneg; lia).
    nia.
Qed.

Lemma wrap32_as_int32 v : 0 <= v < 2 ^ 32 -> wrap32 v = as_int32 v.
Proof.
  intros H. unfold wrap32, as_int32.
  destruct (Z.ltb_spec v (2 ^ 31)).
  - rewrite Z.mod_small; lia.
  - replace (v + 2 ^ 31) with (v - 2 ^ 31 + 1 * 2 ^ 32) by lia.
    rewrite Z.mod_add by lia. rewrite Z.mod_small; lia.
Qed.

Lemma parse_hex_wrap str (offset : nat) :
  parse_hex str (Z.of_nat offset)
  = wrap32 (base_value 16 (hex_digits 8 (drop offset str))).
Proof.
  unfold parse_hex, base_value. rewrite parse_hex_loop_digits.
  change 0 with (wrap32 0) at 1. apply fold_wrap32.
Qed.

(** C3 (amended). [parse_hex] looks at no more than the 8 characters at the
    offset, takes the hexadecimal digits up to the first other character,
    most significant first, and returns their base-16 value as a 32-bit
    [int]: the value itself when it is below [2^31] (always so for 1 to 7
    digits), the value minus [2^32] otherwise; it returns 0 when there is
    no hexadecimal digit at the offset. *)
Theorem parse_hex_spec (str : list ascii) (offset : nat) :
  let ds := hex_digits 8 (drop offset str) in
  parse_hex str (Z.of_nat offset) = as_int32 (base_value 16 ds)
  /\ ((length ds <= 7)%nat ->
      parse_hex str (Z.of_nat offset) = base_value 16 ds)
  /\ (ds = [] -> parse_hex str (Z.of_nat offset) = 0)
  /\ (forall str' : list ascii,
        take 8 (drop offset str') = take 8 (drop offset str) ->
        parse_hex str' (Z.of_nat offset) = parse_hex str (Z.of_nat offset)).
Proof.
  intros ds.
  pose proof (hex_digits_length 8 (drop offset str)) as Hlen.
  pose proof (hex_digits_range 8 (drop offset str)) as Hrng.
  pose proof (base_value_bound 16 _ 0 ltac:(lia) Hrng ltac:(lia)) as Hb.
  fold ds in Hlen, Hrng, Hb. fold (base_value 16 ds) in Hb.
  assert (Hw : parse_hex str (Z.of_nat offset) = wrap32 (base_value 16 ds))
    by apply parse_hex_wrap.
  assert (H8 : 16 ^ Z.of_nat (length ds) <= 2 ^ 32).
  { change (2 ^ 32) with (16 ^ 8). apply Z.pow_le_mono_r; lia. }
  repeat split.
  - rewrite Hw. apply wrap32_as_int32. lia.
  - intros H7. rewrite Hw. apply wrap32_small.
    assert (16 ^ Z.of_nat (length ds) <= 2 ^ 28).
    { change (2 ^ 28) with (16 ^ 7). apply Z.pow_le_mono_r; lia. }
    lia.
  - intros E. rewrite Hw, E. reflexivity.
  - intros str' E. rewrite !parse_hex_wrap.
    rewrite <- (hex_digits_take 8 (drop offset str')), E, hex_digits_take.
    reflexivity.
Qed.

Lemma parse_hex_spec_witness :
  parse_hex (cstr "1A2B,junk") 0 = 6699
  /\ parse_hex (cstr ",junk") 0 = 0
  /\ parse_hex (cstr "1A2B,junction") 0 = parse_hex (cstr "1A2B,junk") 0.
Proof.
  split; [|split].
  - apply (proj1 (proj2 (parse_hex_spec (cstr "1A2B,junk") 0))).
    simpl. lia.
  - apply (proj1 (proj2 (proj2 (parse_hex_spec (cstr ",junk") 0)))).
    reflexivity.
  - apply (proj2 (proj2 (proj2 (parse_hex_spec (cstr "1A2B,junk") 0)))).
    reflexivity.
Defined.

(** C3 as stated fails for 8 digits with the top bit set: ["80000000"]
    denotes [2^31], which no [int] holds. *)
Lemma parse_hex_eight_digits_counterexample :
  ~ (forall (str : list ascii) (offset : nat),
       let ds := hex_digits 8 (drop offset str) in
       (1 <= length ds <= 8)%nat ->
       parse_hex str (Z.of_nat offset) = base_value 16 ds).
Proof.
  intros H. specialize (H (cstr "80000000") 0%nat).
  simpl in H. specialize (H ltac:(lia)). vm_compute in H. discriminate.
Qed.

(** *** [strlen], [strndup], [pickup] *)

Lemma strlen_bounds str : 0 <= strlen str <= Z.of_nat (length str).
Proof.
  induction str as [|c str IH]; simpl; [lia|].
  destruct (Ascii.eqb c NUL); lia.
Qed.

Lemma strndup_copy_take s n :
  0 <= n <= strlen s -> strndup_copy s n = take (Z.to_nat n) s.
Proof.
  revert n. induction s as [|c s IH]; intros n Hn; simpl in *.
  - now rewrite take_nil.
  - destruct (Z.leb_spec n 0) as [H0|H0]; simpl.
    + replace n with 0 by lia. reflexivity.
    + destruct (Ascii.eqb c NUL); [lia|].
      rewrite IH by lia.
      replace (Z.to_nat n) with (S (Z.to_nat (n - 1))) by lia. reflexivity.
Qed.

Lemma strlen_drop str (p : nat) :
  Z.of_nat p <= strlen str -> strlen (drop p str) = strlen str - Z.of_nat p.
Proof.
  revert p. induction str as [|c str IH]; intros [|p] Hp; simpl in *; try lia.
  destruct (Ascii.eqb c NUL); [lia|]. rewrite IH; lia.
Qed.

Lemma pickup_last_found str p0 last :
  forall (n : nat) cur,
    p0 <= last <= cur -> isspace (char_at str last) = false ->
    all_space str (last + 1) (cur + 1) ->
    cur - last < Z.of_nat n ->
    pickup_last n str p0 cur = last.
Proof.
  induction n as [|n IH]; intros cur Hr Hl Hs Hn; [lia|]. simpl.
  destruct (Z.geb_spec cur p0); [|lia].
  destruct (Z.eq_dec cur last) as [->|Hne].
  - rewrite Hl. reflexivity.
  - rewrite (Hs cur) by lia. simpl. apply IH; try lia; auto.
    intros j Hj. apply Hs. lia.
Qed.

Lemma pickup_last_blank str p0 :
  forall (n : nat) cur,
    p0 - 1 <= cur -> all_space str p0 (cur + 1) ->
    cur - p0 < Z.of_nat n ->
    pickup_last n str p0 cur = p0 - 1.
Proof.
  induction n as [|n IH]; intros cur Hr Hs Hn; [simpl; lia|]. simpl.
  destruct (Z.geb_spec cur p0).
  - rewrite (Hs cur) by lia. simpl. apply IH; try lia.
    intros j Hj. apply Hs. lia.
  - lia.
Qed.

(** C8. For a span [[p0, p1)] inside the string, [pickup] returns the
    characters from [p0] up to the last one before [p1] that is no
    whitespace (trailing whitespace is dropped, leading whitespace stays),
    and the empty string when the whole span is whitespace; so
    [pickup("  ABC   ", 0, 8)] is ["  ABC"] and [pickup("    ", 0, 4)] is
    [""]. *)
Theorem pickup_spec (str : list ascii) (p0 p1 : Z) :
  0 <= p0 <= p1 -> p1 <= strlen str -> p1 < 2 ^ 31 ->
  (forall last, last_non_space str p0 p1 last ->
     pickup true str p0 p1 = Some (span str p0 (last + 1)))
  /\ (all_space str p0 p1 -> pickup true str p0 p1 = Some [])
  /\ pickup true (cstr "  ABC   ") 0 8 = Some (cstr "  ABC")
  /\ pickup true (cstr "    ") 0 4 = Some (cstr "").
Proof.
  intros Hp Hlen Hint. split; [|split; [|split; reflexivity]].
  - intros last (Hr & Hl & Hs). unfold pickup, span.
    rewrite (pickup_last_found str p0 last); auto; try lia.
    + unfold to_size_t. rewrite Z.mod_small by lia.
      rewrite strndup_copy_take by (rewrite strlen_drop; lia).
      do 2 f_equal. lia.
    + replace (p1 - 1 + 1) with p1 by lia. exact Hs.
  - intros Hs. unfold pickup.
    rewrite pickup_last_blank; try lia.
    + replace (p0 - 1 - p0 + 1) with 0 by lia.
      destruct (drop (Z.to_nat p0) str); reflexivity.
    + replace (p1 - 1 + 1) with p1 by lia. exact Hs.
Qed.

Lemma pickup_spec_witness :
  pickup true (cstr "  ABC   ") 0 8 = Some (span (cstr "  ABC   ") 0 (4 + 1))
  /\ pickup true (cstr "ab    cd") 2 6 = Some [].
Proof.
  split.
  - apply (proj1 (pickup_spec (cstr "  ABC   ") 0 8
                    ltac:(lia) ltac:(simpl; lia) ltac:(lia))).
    repeat split; try lia; try reflexivity.
    intros j Hj.
    assert (E : j = 5 \/ j = 6 \/ j = 7) by lia.
    destruct E as [->|[->| ->]]; reflexivity.
  - apply (proj1 (proj2 (pickup_spec (cstr "ab    cd") 2 6
                           ltac:(lia) ltac:(simpl; lia) ltac:(lia)))).
    intros j Hj.
    assert (E : j = 2 \/ j = 3 \/ j = 4 \/ j = 5) by lia.
    destruct E as [->|[->|[->| ->]]]; reflexivity.
Defined.

(** ** Linked lists on the heap *)

Section ScanFacts.
Context {A : Type} (next key : A -> Z).

Lemma lseg_frame (h h' : gmap Z A) l : forall p q,
  lseg next h p l q ->
  (forall a, a ∈ l -> h' !! a = h !! a) ->
  lseg next h' p l q.
Proof.
  induction l as [|a l IH]; intros p q H Hsame; simpl in *; [exact H|].
  destruct H as (-> & Hnz & r & Hr & Hrest).
  split; [reflexivity|]. split; [exact Hnz|].
  exists r. split.
  - rewrite Hsame; [exact Hr | apply list_elem_of_here].
  - apply IH; [exact Hrest|]. intros b Hb. apply Hsame.
    now apply list_elem_of_further.
Qed.

Lemma lseg_snoc (h : gmap Z A) l : forall p q r,
  lseg next h p l q -> q <> 0 -> h !! q = Some r ->
  lseg next h p (l ++ [q]) (next r).
Proof.
  induction l as [|a l IH]; intros p q r H Hq Hr; simpl in *.
  - subst p. split; [reflexivity|]. split; [exact Hq|]. now exists r.
  - destruct H as (-> & Hnz & ra & Hra & Hrest).
    split; [reflexivity|]. split; [exact Hnz|].
    exists ra. split; [exact Hra|]. now apply IH.
Qed.

Lemma lseg_live (h : gmap Z A) l : forall p q,
  lseg next h p l q -> forall a, a ∈ l -> a <> 0 /\ is_Some (h !! a).
Proof.
  induction l as [|b l IH]; intros p q H a Ha; simpl in *.
  - now apply elem_of_nil in Ha.
  - destruct H as (-> & Hnz & r & Hr & Hrest).
    apply elem_of_cons in Ha as [->|Ha]; [now eauto|].
    now apply (IH _ _ Hrest).
Qed.

(** A walk along a linked segment returns the first record with the
    key, and leaves through the last link when there is none. *)
Lemma list_scan_lseg (h : gmap Z A) id l : forall p q fuel,
  lseg next h p l q -> (length l < fuel)%nat ->
  list_scan next key fuel h p id =
    match first_match key h l id with
    | Some a => Done a
    | None => list_scan next key (fuel - length l) h q id
    end.
Proof.
  induction l as [|a l IH]; intros p q fuel H Hf; simpl in *.
  - subst q. now rewrite Nat.sub_0_r.
  - destruct H as (-> & Hnz & r & Hr & Hrest).
    destruct fuel as [|fuel]; [lia|]. simpl.
    destruct (Z.eqb_spec a 0) as [|_]; [contradiction|].
    rewrite Hr. destruct (key r =? id); [reflexivity|].
    apply IH; [exact Hrest | lia].
Qed.

Lemma first_match_Some (h : gmap Z A) id l a :
  first_match key h l id = Some a ->
  exists l1 l2 r,
    l = l1 ++ a :: l2 /\ h !! a = Some r /\ key r = id
    /\ forall b rb, b ∈ l1 -> h !! b = Some rb -> key rb <> id.
Proof.
  revert a. induction l as [|b l IH]; intros a H; simpl in *; [discriminate|].
  destruct (h !! b) as [rb|] eqn:Hb; [|discriminate].
  destruct (Z.eqb_spec (key rb) id) as [E|E].
  - injection H as <-. exists [], l, rb. repeat split; auto.
    intros c rc Hc. now apply elem_of_nil in Hc.
  - destruct (IH a H) as (l1 & l2 & r & -> & Hr & Hk & Hfirst).
    exists (b :: l1), l2, r. repeat split; auto.
    intros c rc Hc Hrc. apply elem_of_cons in Hc as [->|Hc].
    + congruence.
    + now apply (Hfirst c rc).
Qed.

Lemma first_match_None (h : gmap Z A) id l :
  (forall a, a ∈ l -> is_Some (h !! a)) ->
  first_match key h l id = None ->
  forall a r, a ∈ l -> h !! a = Some r -> key r <> id.
Proof.
  induction l as [|b l IH]; intros Hlive H a r Ha Hr; simpl in *.
  - now apply elem_of_nil in Ha.
  - destruct (Hlive b (list_elem_of_here _ _)) as [rb Hb]. rewrite Hb in H.
    destruct (Z.eqb_spec (key rb) id) as [E|E]; [discriminate|].
    apply elem_of_cons in Ha as [->|Ha]; [congruence|].
    apply (IH (fun c Hc => Hlive c (list_elem_of_further _ _ _ Hc)) H a r Ha Hr).
Qed.

(** Distinct live addresses are no more than the live blocks. *)
Lemma live_length (h : gmap Z A) (l : list Z) :
  NoDup l -> (forall a, a ∈ l -> is_Some (h !! a)) ->
  (length l <= size h)%nat.
Proof.
  intros Hnd Hlive.
  rewrite <- (size_dom (D := gset Z) h).
  rewrite <- (size_list_to_set (C := gset Z) l Hnd).
  apply subseteq_size. intros a Ha.
  apply elem_of_list_to_set in Ha. apply elem_of_dom. now apply Hlive.
Qed.

Lemma list_built_live (h : gmap Z A) head prev done :
  list_built next h head prev done ->
  forall a, a ∈ done -> a <> 0 /\ is_Some (h !! a).
Proof.
  intros [_ [[-> _]|(init & -> & Hnz & Hlive & Hseg)]] a Ha.
  - now apply elem_of_nil in Ha.
  - apply elem_of_app in Ha as [Ha|Ha].
    + now apply (lseg_live _ _ _ _ Hseg).
    + apply list_elem_of_singleton in Ha as ->. now split.
Qed.

(** The whole list is a segment that ends in the link of its last
    record. *)
Lemma list_built_lseg (h : gmap Z A) head prev done :
  list_built next h head prev done -> done <> [] ->
  exists r, h !! prev = Some r /\ lseg next h head done (next r).
Proof.
  intros [_ [[-> _]|(init & -> & Hnz & [r Hr] & Hseg)]] Hne; [congruence|].
  exists r. split; [exact Hr|]. now apply lseg_snoc.
Qed.

Context (set_next : Z -> A -> A).
Hypothesis next_set_next : forall v r, next (set_next v r) = v.

(** Appending a fresh record, as both loaders do: the first record
    becomes the head, a later one is linked from [prev]. *)
Lemma list_built_append (h : gmap Z A) head prev done ti r :
  list_built next h head prev done ->
  h !! ti = None -> ti <> 0 ->
  list_built next
    (if prev =? 0 then <[ti := r]> h
     else alter (set_next ti) prev (<[ti := r]> h))
    (if prev =? 0 then ti else head) ti (done ++ [ti]).
Proof.
  intros Hb Hfresh Hnz.
  pose proof (list_built_live _ _ _ _ Hb) as Hlive.
  destruct Hb as [Hnd Hb].
  assert (Hnotin : ti ∉ done).
  { intros Hin. destruct (Hlive _ Hin) as [_ [x Hx]]. congruence. }
  split.
  { apply NoDup_app. split; [exact Hnd|]. split; [|apply NoDup_singleton].
    intros a Ha Ha'. apply list_elem_of_singleton in Ha' as ->. contradiction. }
  right. exists done. split; [reflexivity|]. split; [exact Hnz|].
  destruct Hb as [[-> ->]|(init & -> & Hpnz & [rp Hrp] & Hseg)].
  - simpl. split; [|reflexivity]. rewrite lookup_insert_eq. eauto.
  - destruct (Z.eqb_spec prev 0) as [|_]; [contradiction|].
    assert (Hne : prev <> ti) by (intros ->; congruence).
    split.
    + rewrite lookup_alter_ne by exact Hne. rewrite lookup_insert_eq. eauto.
    + assert (Hseg' : lseg next
                (alter (set_next ti) prev (<[ti := r]> h)) head init prev).
      { apply (lseg_frame h); [exact Hseg|].
        intros a Ha.
        apply NoDup_app in Hnd as (_ & Hdisj & _).
        rewrite lookup_alter_ne.
        - rewrite lookup_insert_ne; [reflexivity|].
          intros ->. apply Hnotin. apply elem_of_app. now left.
        - intros ->. apply (Hdisj _ Ha). apply list_elem_of_here. }
      assert (Hp : alter (set_next ti) prev (<[ti := r]> h) !! prev
                   = Some (set_next ti rp)).
      { rewrite lookup_alter_eq, lookup_insert_ne by (intros ->; congruence).
        rewrite Hrp. reflexivity. }
      pose proof (lseg_snoc _ _ _ _ _ Hseg' Hpnz Hp) as H.
      rewrite next_set_next in H. exact H.
Qed.
End ScanFacts.

(** ** The loaders, one round at a time *)

Lemma load_types_short fname line rest prev db w :
  strlen (fgets_store line (inbuf w)) < 68 ->
  load_types_loop fname (line :: rest) prev db w
  = load_types_loop fname rest prev db
      (set_inbuf (fgets_store line (inbuf w)) w).
Proof.
  intros H. cbn [load_types_loop]. cbn [inbuf set_inbuf].
  destruct (Z.ltb_spec (strlen (fgets_store line (inbuf w))) 68); [reflexivity|lia].
Qed.

Lemma load_types_round fname line rest prev db w junk j2 j3 :
  0 < brk w ->
  68 <= strlen (fgets_store line (inbuf w)) ->
  allocator w (mallocs w) = Block junk ->
  allocator w (S (mallocs w)) = Block j2 ->
  allocator w (S (S (mallocs w))) = Block j3 ->
  load_types_loop fname (line :: rest) prev db w
  = load_types_loop fname rest (brk w)
      (if prev =? 0 then with_types (brk w) db else db)
      (mkWorld (disk w) (allocator w) (S (S (S (mallocs w))))
         (brk w + 1 + 1 + 1) (fgets_store line (inbuf w))
         (link_type prev (brk w)
            (<[brk w := type_record junk (fgets_store line (inbuf w))]>
               (ti_heap w)))
         (pi_heap w) (S (S (live_strings w))) (live_dbs w) (open_files w)
         (opened w)).
Proof.
  intros Hbrk Hlen A1 A2 A3. cbn [load_types_loop]. cbn [inbuf set_inbuf].
  destruct (Z.ltb_spec (strlen (fgets_store line (inbuf w))) 68); [lia|].
  unfold typeInfoCreate, malloc. cbn [allocator mallocs set_inbuf]. rewrite A1.
  cbn [brk set_inbuf].
  destruct (Z.eqb_spec (brk w) 0); [lia|].
  unfold pickup_w, malloc, ti_field.
  cbn [allocator mallocs brk inbuf ti_heap pi_heap live_strings live_dbs
       open_files opened disk set_ti_heap set_live_strings set_inbuf].
  rewrite A2.
  cbn [allocator mallocs brk inbuf ti_heap pi_heap live_strings live_dbs
       open_files opened disk set_ti_heap set_live_strings set_inbuf pickup].
  rewrite A3.
  cbn [allocator mallocs brk inbuf ti_heap pi_heap live_strings live_dbs
       open_files opened disk set_ti_heap set_live_strings set_inbuf pickup].
  rewrite !alter_insert_eq. unfold link_type, type_record.
  cbn [with_ti_id with_ti_manufacturer with_ti_model with_ti_type
       with_ti_nrseats ti_next ti_id ti_manufacturer ti_model ti_type
       ti_nrseats].
  destruct (prev =? 0); reflexivity.
Qed.

Lemma load_types_oom fname line rest prev db w :
  68 <= strlen (fgets_store line (inbuf w)) ->
  (allocator w (mallocs w) = ENOMEM
   \/ allocator w (S (mallocs w)) = ENOMEM
   \/ allocator w (S (S (mallocs w))) = ENOMEM) ->
  (load_types_loop fname (line :: rest) prev db w).1.1 = false.
Proof.
  intros Hlen Hoom. cbn [load_types_loop]. cbn [inbuf set_inbuf].
  destruct (Z.ltb_spec (strlen (fgets_store line (inbuf w))) 68); [lia|].
  unfold typeInfoCreate, malloc. cbn [allocator mallocs set_inbuf].
  destruct (allocator w (mallocs w)) as [|junk] eqn:A1; [reflexivity|].
  cbn [brk set_inbuf].
  destruct (brk w =? 0); [reflexivity|].
  unfold pickup_w, malloc, ti_field.
  cbn [allocator mallocs brk inbuf ti_heap pi_heap live_strings live_dbs
       open_files opened disk set_ti_heap set_live_strings set_inbuf].
  destruct (allocator w (S (mallocs w))) as [|j2] eqn:A2; [reflexivity|].
  cbn [allocator mallocs brk inbuf ti_heap pi_heap live_strings live_dbs
       open_files opened disk set_ti_heap set_live_strings set_inbuf pickup].
  destruct (allocator w (S (S (mallocs w)))) as [|j3] eqn:A3; [reflexivity|].
  destruct Hoom as [?|[?|?]]; discriminate.
Qed.

(** ** What a successful load leaves on the heap *)

Lemma strlen_app_NUL (l rest : list ascii) : strlen (l ++ NUL :: rest) = strlen l.
Proof.
  induction l as [|c l IH]; simpl; [reflexivity|].
  destruct (Ascii.eqb c NUL); [reflexivity|]. now rewrite IH.
Qed.

Lemma strlen_fgets_store line buf : strlen (fgets_store line buf) = strlen line.
Proof. apply strlen_app_NUL. Qed.

Lemma accepted_cons_yes width s strs :
  width <= strlen s -> accepted width (s :: strs) = s :: accepted width strs.
Proof. intros H. unfold accepted. now rewrite filter_cons_True. Qed.

Lemma accepted_cons_no width s strs :
  strlen s < width -> accepted width (s :: strs) = accepted width strs.
Proof. intros H. unfold accepted. rewrite filter_cons_False; [reflexivity|lia]. Qed.

Lemma link_type_is_Some prev ti h a :
  is_Some (link_type prev ti h !! a) <-> is_Some (h !! a).
Proof.
  unfold link_type. destruct (prev =? 0); [reflexivity|].
  apply lookup_alter_is_Some.
Qed.

Lemma link_type_data prev ti h a r :
  h !! a = Some r ->
  exists r', link_type prev ti h !! a = Some r'
             /\ with_ti_next 0 r' = with_ti_next 0 r.
Proof.
  intros Hr. unfold link_type. destruct (prev =? 0); [eauto|].
  destruct (Z.eq_dec prev a) as [->|Hne].
  - rewrite lookup_alter_eq, Hr. simpl. eexists. split; reflexivity.
  - rewrite lookup_alter_ne by exact Hne. eauto.
Qed.

Lemma type_record_fields junk str : type_fields str (type_record junk str).
Proof. repeat split. Qed.

Lemma type_fields_data str r r' :
  with_ti_next 0 r' = with_ti_next 0 r -> type_fields str r -> type_fields str r'.
Proof.
  destruct r, r'. unfold with_ti_next, type_fields. simpl.
  intros [= -> -> -> -> ->]. auto.
Qed.

Lemma heap_ok_fresh_type w : heap_ok w -> ti_heap w !! brk w = None.
Proof.
  intros (_ & Ht & _). destruct (ti_heap w !! brk w) eqn:E; [|reflexivity].
  specialize (Ht (brk w) ltac:(eauto)). lia.
Qed.

(** The loop of [load_types] from any state in which the list built so far
    is well linked: when it returns TRUE it has appended one record per
    accepted buffer, in order, each holding the fields read from its
    buffer, and has touched nothing else but the link of [prev]. *)
Lemma load_types_loop_built fname lines : forall prev db w done db' w',
  heap_ok w ->
  list_built ti_next (ti_heap w) (types db) prev done ->
  load_types_loop fname lines prev db w = (true, db', w') ->
  exists addrs prev',
    heap_ok w'
    /\ list_built ti_next (ti_heap w') (types db') prev' (done ++ addrs)
    /\ Forall2
         (fun a str => exists r, ti_heap w' !! a = Some r /\ type_fields str r)
         addrs (accepted 68 (line_buffers lines (inbuf w)))
    /\ (forall a,
          is_Some (ti_heap w' !! a) <-> is_Some (ti_heap w !! a) \/ a ∈ addrs)
    /\ (forall a r, ti_heap w !! a = Some r ->
          exists r', ti_heap w' !! a = Some r'
                     /\ with_ti_next 0 r' = with_ti_next 0 r)
    /\ pi_heap w' = pi_heap w
    /\ with_types 0 db' = with_types 0 db
    /\ (addrs = [] \/ done <> [] -> types db' = types db)
    /\ (forall a, a ∈ addrs -> brk w <= a)
    /\ inbuf w' = final_buffer lines (inbuf w)
    /\ (forall r', ti_heap w' !! prev' = Some r' ->
          (addrs = []
           /\ exists r, ti_heap w !! prev = Some r /\ ti_next r' = ti_next r)
          \/ exists n junk,
               allocator w n = Block junk /\ ti_next r' = junk_word junk 0)
    /\ allocator w' = allocator w
    /\ mallocs w' = (mallocs w + 3 * length addrs)%nat
    /\ live_strings w' = (live_strings w + 2 * length addrs)%nat
    /\ live_dbs w' = live_dbs w
    /\ open_files w' = remove_first fname (open_files w)
    /\ (forall a r, ti_heap w !! a = Some r -> a <> prev -> ti_heap w' !! a = Some r).
Proof.
  induction lines as [|line rest IH]; intros prev db w done db' w' Hok Hb Hrun.
  - simpl in Hrun. injection Hrun as <- <-.
    exists [], prev. rewrite app_nil_r. cbn [accepted line_buffers].
    split; [exact Hok|]. split; [exact Hb|].
    split; [constructor|].
    split; [intros a; cbn [fclose ti_heap]; split;
            [auto | intros [H|H]; [exact H|now apply elem_of_nil in H]]|].
    split; [intros a r Hr; exists r; split; [exact Hr|reflexivity]|].
    split; [reflexivity|]. split; [reflexivity|]. split; [auto|].
    split; [intros a Ha; now apply elem_of_nil in Ha|].
    split; [reflexivity|].
    split; [intros r' Hr'; left; split; [reflexivity|]; exists r'; auto|].
    cbn [fclose allocator mallocs live_strings live_dbs open_files length
         ti_heap pi_heap].
    repeat split; auto; lia.
  - cbn [line_buffers].
    destruct (Z.lt_ge_cases (strlen (fgets_store line (inbuf w))) 68) as [Hs|Hs].
    + rewrite load_types_short in Hrun by exact Hs.
      rewrite accepted_cons_no by exact Hs.
      apply (IH prev db (set_inbuf (fgets_store line (inbuf w)) w) done);
        auto.
    + destruct (allocator w (mallocs w)) as [|junk] eqn:A1;
        [pose proof (load_types_oom fname line rest prev db w Hs ltac:(auto)) as F;
         rewrite Hrun in F; discriminate|].
      destruct (allocator w (S (mallocs w))) as [|j2] eqn:A2;
        [pose proof (load_types_oom fname line rest prev db w Hs ltac:(auto)) as F;
         rewrite Hrun in F; discriminate|].
      destruct (allocator w (S (S (mallocs w)))) as [|j3] eqn:A3;
        [pose proof (load_types_oom fname line rest prev db w Hs ltac:(auto)) as F;
         rewrite Hrun in F; discriminate|].
      pose proof Hok as (Hbrk & Htl & Hpl).
      rewrite (load_types_round _ _ _ _ _ _ junk j2 j3) in Hrun by auto.
      set (str := fgets_store line (inbuf w)) in *.
      set (ti := brk w) in *.
      pose proof (heap_ok_fresh_type w Hok) as Hfresh. fold ti in Hfresh.
      apply (IH _ _ _ (done ++ [ti])) in Hrun; cycle 1.
      { split; [cbn [brk]; lia|]. split; cbn [brk ti_heap pi_heap].
        - intros a Ha. apply link_type_is_Some in Ha.
          destruct (Z.eq_dec a ti) as [->|Hne]; [unfold ti; lia|].
          rewrite lookup_insert_ne in Ha by congruence.
          specialize (Htl a Ha). lia.
        - intros a Ha. specialize (Hpl a Ha). lia. }
      { cbn [ti_heap].
        pose proof (list_built_append ti_next with_ti_next ltac:(reflexivity)
                      (ti_heap w) (types db) prev done ti
                      (type_record junk str) Hb Hfresh ltac:(unfold ti; lia))
          as Happ.
        unfold link_type. destruct (prev =? 0); exact Happ. }
      destruct Hrun as (addrs & prev' & Hok' & Hb' & Hall & Hdom & Hdata
                        & Hpi & Hdb & Hhead & Hge & Hbuf & Htail & Hal & Hm & Hls & Hld & Hof & Hold).
      cbn [inbuf ti_heap pi_heap] in *.
      rewrite accepted_cons_yes by exact Hs.
      exists (ti :: addrs), prev'.
      assert (Hti : exists r', ti_heap w' !! ti = Some r'
                               /\ type_fields str r').
      { destruct (link_type_data prev ti
                    (<[ti := type_record junk str]> (ti_heap w)) ti
                    (type_record junk str) (lookup_insert_eq _ _ _))
          as (r1 & Hr1 & Hd1).
        destruct (Hdata _ _ Hr1) as (r2 & Hr2 & Hd2).
        exists r2. split; [exact Hr2|].
        apply (type_fields_data str (type_record junk str));
          [congruence | apply type_record_fields]. }
      split; [exact Hok'|].
      split; [now rewrite <- app_assoc in Hb'|].
      split; [constructor; [exact Hti | exact Hall]|].
      split.
      { intros a. rewrite Hdom, link_type_is_Some, elem_of_cons.
        destruct (Z.eq_dec a ti) as [->|Hne].
        - rewrite lookup_insert_eq. split; [auto|eauto].
        - rewrite lookup_insert_ne by congruence. tauto. }
      split.
      { intros a r Hr.
        assert (Hne : ti <> a) by (intros <-; congruence).
        destruct (link_type_data prev ti
                    (<[ti := type_record junk str]> (ti_heap w)) a r)
          as (r1 & Hr1 & Hd1).
        { now rewrite lookup_insert_ne. }
        destruct (Hdata _ _ Hr1) as (r2 & Hr2 & Hd2).
        exists r2. split; [exact Hr2|congruence]. }
      split; [exact Hpi|].
      split.
      { rewrite Hdb. destruct (prev =? 0); reflexivity. }
      split.
      { intros [H|H]; [discriminate|].
        rewrite Hhead.
        - destruct Hb as [_ [[-> _]|(init & -> & Hnz & _)]]; [congruence|].
          destruct (Z.eqb_spec prev 0); [contradiction|reflexivity].
        - right. destruct done; discriminate. }
      split.
      { intros a Ha. apply elem_of_cons in Ha as [->|Ha]; [unfold ti; lia|].
        specialize (Hge a Ha). cbn [brk] in Hge. lia. }
      split; [exact Hbuf|].
      cbn [allocator mallocs live_strings live_dbs open_files length] in *.
      split.
      { intros r' Hr'. right.
        destruct (Htail r' Hr') as [(_ & r & Hr & E)|(n & j & Hn & E)];
          [|eauto].
        exists (mallocs w), junk. split; [exact A1|]. rewrite E.
        assert (Hlast : link_type prev ti (<[ti := type_record junk str]> (ti_heap w)) !! ti
                        = Some (type_record junk str)).
        { unfold link_type. destruct (Z.eqb_spec prev 0); [apply lookup_insert_eq|].
          rewrite lookup_alter_ne; [apply lookup_insert_eq|].
          intros E0.
          destruct Hb as [_ [[_ ?]|(init & _ & _ & [x Hx] & _)]];
            [contradiction|].
          rewrite E0 in Hx. congruence. }
        rewrite Hlast in Hr. injection Hr as <-. reflexivity. }
      split; [assumption|]. split; [lia|]. split; [lia|].
      split; [assumption|]. split; [assumption|].
      intros a r Hr Hne.
      assert (Hfr : a <> brk w) by (intros ->; unfold ti in Hfresh; congruence).
      apply Hold; [|exact Hfr].
      unfold link_type. destruct (Z.eqb_spec prev 0).
      * rewrite lookup_insert_ne by (unfold ti; congruence). exact Hr.
      * rewrite lookup_alter_ne by congruence.
        rewrite lookup_insert_ne by (unfold ti; congruence). exact Hr.
Qed.

(** *** The registration loader *)

Lemma load_planes_short fname line rest prev db w :
  strlen (fgets_store line (inbuf w)) < 610 ->
  load_planes_loop fname (line :: rest) prev db w
  = load_planes_loop fname rest prev db
      (set_inbuf (fgets_store line (inbuf w)) w).
Proof.
  intros H. cbn [load_planes_loop]. cbn [inbuf set_inbuf].
  destruct (Z.ltb_spec (strlen (fgets_store line (inbuf w))) 610); [reflexivity|lia].
Qed.

Lemma load_planes_round fname line rest prev db w junk j2 j3 :
  0 < brk w ->
  610 <= strlen (fgets_store line (inbuf w)) ->
  allocator w (mallocs w) = Block junk ->
  allocator w (S (mallocs w)) = Block j2 ->
  allocator w (S (S (mallocs w))) = Block j3 ->
  load_planes_loop fname (line :: rest) prev db w
  = load_planes_loop fname rest (brk w)
      (if prev =? 0 then with_planes (brk w) db else db)
      (mkWorld (disk w) (allocator w) (S (S (S (mallocs w))))
         (brk w + 1 + 1 + 1) (fgets_store line (inbuf w)) (ti_heap w)
         (link_plane prev (brk w)
            (<[brk w := plane_record junk (fgets_store line (inbuf w))]>
               (pi_heap w)))
         (S (S (live_strings w))) (live_dbs w) (open_files w) (opened w)).
Proof.
  intros Hbrk Hlen A1 A2 A3. cbn [load_planes_loop]. cbn [inbuf set_inbuf].
  destruct (Z.ltb_spec (strlen (fgets_store line (inbuf w))) 610); [lia|].
  unfold planeInfoCreate, malloc. cbn [allocator mallocs set_inbuf]. rewrite A1.
  cbn [brk set_inbuf].
  destruct (Z.eqb_spec (brk w) 0); [lia|].
  unfold pickup_w, malloc, pi_field. world_fields. rewrite A2. world_fields.
  rewrite A3. world_fields.
  rewrite !alter_insert_eq. unfold link_plane, plane_record.
  cbn [with_pi_id with_pi_nnum with_pi_model with_pi_registrant pi_next pi_id
       pi_nnum pi_model pi_registrant].
  destruct (prev =? 0); reflexivity.
Qed.

Lemma load_planes_oom fname line rest prev db w :
  610 <= strlen (fgets_store line (inbuf w)) ->
  (allocator w (mallocs w) = ENOMEM
   \/ allocator w (S (mallocs w)) = ENOMEM
   \/ allocator w (S (S (mallocs w))) = ENOMEM) ->
  (load_planes_loop fname (line :: rest) prev db w).1.1 = false.
Proof.
  intros Hlen Hoom. cbn [load_planes_loop]. cbn [inbuf set_inbuf].
  destruct (Z.ltb_spec (strlen (fgets_store line (inbuf w))) 610); [lia|].
  unfold planeInfoCreate, malloc. cbn [allocator mallocs set_inbuf].
  destruct (allocator w (mallocs w)) as [|junk] eqn:A1; [reflexivity|].
  cbn [brk set_inbuf].
  destruct (brk w =? 0); [reflexivity|].
  unfold pickup_w, malloc, pi_field. world_fields.
  destruct (allocator w (S (mallocs w))) as [|j2] eqn:A2; [reflexivity|].
  world_fields.
  destruct (allocator w (S (S (mallocs w)))) as [|j3] eqn:A3; [reflexivity|].
  destruct Hoom as [?|[?|?]]; discriminate.
Qed.

Lemma link_plane_is_Some prev pi h a :
  is_Some (link_plane prev pi h !! a) <-> is_Some (h !! a).
Proof.
  unfold link_plane. destruct (prev =? 0); [reflexivity|].
  apply lookup_alter_is_Some.
Qed.

Lemma link_plane_data prev pi h a r :
  h !! a = Some r ->
  exists r', link_plane prev pi h !! a = Some r'
             /\ with_pi_next 0 r' = with_pi_next 0 r.
Proof.
  intros Hr. unfold link_plane. destruct (prev =? 0); [eauto|].
  destruct (Z.eq_dec prev a) as [->|Hne].
  - rewrite lookup_alter_eq, Hr. simpl. eexists. split; reflexivity.
  - rewrite lookup_alter_ne by exact Hne. eauto.
Qed.

Lemma plane_record_fields junk str : plane_fields str (plane_record junk str).
Proof. repeat split. Qed.

Lemma plane_fields_data str r r' :
  with_pi_next 0 r' = with_pi_next 0 r ->
  plane_fields str r -> plane_fields str r'.
Proof.
  destruct r, r'. unfold with_pi_next, plane_fields. simpl.
  intros [= -> -> -> ->]. auto.
Qed.

Lemma heap_ok_fresh_plane w : heap_ok w -> pi_heap w !! brk w = None.
Proof.
  intros (_ & _ & Hp). destruct (pi_heap w !! brk w) eqn:E; [|reflexivity].
  specialize (Hp (brk w) ltac:(eauto)). lia.
Qed.

(** The loop of [load_planes], as [load_types_loop_built]. *)
Lemma load_planes_loop_built fname lines : forall prev db w done db' w',
  heap_ok w ->
  list_built pi_next (pi_heap w) (planes db) prev done ->
  load_planes_loop fname lines prev db w = (true, db', w') ->
  exists addrs prev',
    heap_ok w'
    /\ list_built pi_next (pi_heap w') (planes db') prev' (done ++ addrs)
    /\ Forall2
         (fun a str => exists r, pi_heap w' !! a = Some r /\ plane_fields str r)
         addrs (accepted 610 (line_buffers lines (inbuf w)))
    /\ (forall a,
          is_Some (pi_heap w' !! a) <-> is_Some (pi_heap w !! a) \/ a ∈ addrs)
    /\ (forall a r, pi_heap w !! a = Some r ->
          exists r', pi_heap w' !! a = Some r'
                     /\ with_pi_next 0 r' = with_pi_next 0 r)
    /\ ti_heap w' = ti_heap w
    /\ with_planes 0 db' = with_planes 0 db
    /\ (addrs = [] \/ done <> [] -> planes db' = planes db)
    /\ (forall a, a ∈ addrs -> brk w <= a)
    /\ inbuf w' = final_buffer lines (inbuf w)
    /\ (forall r', pi_heap w' !! prev' = Some r' ->
          (addrs = []
           /\ exists r, pi_heap w !! prev = Some r /\ pi_next r' = pi_next r)
          \/ exists n junk,
               allocator w n = Block junk /\ pi_next r' = junk_word junk 0)
    /\ allocator w' = allocator w
    /\ mallocs w' = (mallocs w + 3 * length addrs)%nat
    /\ live_strings w' = (live_strings w + 2 * length addrs)%nat
    /\ live_dbs w' = live_dbs w
    /\ open_files w' = remove_first fname (open_files w)
    /\ (forall a r, pi_heap w !! a = Some r -> a <> prev -> pi_heap w' !! a = Some r).
Proof.
  induction lines as [|line rest IH]; intros prev db w done db' w' Hok Hb Hrun.
  - simpl in Hrun. injection Hrun as <- <-.
    exists [], prev. rewrite app_nil_r. cbn [accepted line_buffers].
    split; [exact Hok|]. split; [exact Hb|].
    split; [constructor|].
    split; [intros a; cbn [fclose pi_heap]; split;
            [auto | intros [H|H]; [exact H|now apply elem_of_nil in H]]|].
    split; [intros a r Hr; exists r; split; [exact Hr|reflexivity]|].
    split; [reflexivity|]. split; [reflexivity|]. split; [auto|].
    split; [intros a Ha; now apply elem_of_nil in Ha|].
    split; [reflexivity|].
    split; [intros r' Hr'; left; split; [reflexivity|]; exists r'; auto|].
    cbn [fclose allocator mallocs live_strings live_dbs open_files length
         ti_heap pi_heap].
    repeat split; auto; lia.
  - cbn [line_buffers].
    destruct (Z.lt_ge_cases (strlen (fgets_store line (inbuf w))) 610) as [Hs|Hs].
    + rewrite load_planes_short in Hrun by exact Hs.
      rewrite accepted_cons_no by exact Hs.
      apply (IH prev db (set_inbuf (fgets_store line (inbuf w)) w) done);
        auto.
    + destruct (allocator w (mallocs w)) as [|junk] eqn:A1;
        [pose proof (load_planes_oom fname line rest prev db w Hs ltac:(auto)) as F;
         rewrite Hrun in F; discriminate|].
      destruct (allocator w (S (mallocs w))) as [|j2] eqn:A2;
        [pose proof (load_planes_oom fname line rest prev db w Hs ltac:(auto)) as F;
         rewrite Hrun in F; discriminate|].
      destruct (allocator w (S (S (mallocs w)))) as [|j3] eqn:A3;
        [pose proof (load_planes_oom fname line rest prev db w Hs ltac:(auto)) as F;
         rewrite Hrun in F; discriminate|].
      pose proof Hok as (Hbrk & Htl & Hpl).
      rewrite (load_planes_round _ _ _ _ _ _ junk j2 j3) in Hrun by auto.
      set (str := fgets_store line (inbuf w)) in *.
      set (pi := brk w) in *.
      pose proof (heap_ok_fresh_plane w Hok) as Hfresh. fold pi in Hfresh.
      apply (IH _ _ _ (done ++ [pi])) in Hrun; cycle 1.
      { split; [cbn [brk]; lia|]. split; cbn [brk ti_heap pi_heap].
        - intros a Ha. specialize (Htl a Ha). lia.
        - intros a Ha. apply link_plane_is_Some in Ha.
          destruct (Z.eq_dec a pi) as [->|Hne]; [unfold pi; lia|].
          rewrite lookup_insert_ne in Ha by congruence.
          specialize (Hpl a Ha). lia. }
      { cbn [pi_heap].
        pose proof (list_built_append pi_next with_pi_next ltac:(reflexivity)
                      (pi_heap w) (planes db) prev done pi
                      (plane_record junk str) Hb Hfresh ltac:(unfold pi; lia))
          as Happ.
        unfold link_plane. destruct (prev =? 0); exact Happ. }
      destruct Hrun as (addrs & prev' & Hok' & Hb' & Hall & Hdom & Hdata
                        & Hti & Hdb & Hhead & Hge & Hbuf & Htail & Hal & Hm & Hls & Hld & Hof & Hold).
      cbn [inbuf ti_heap pi_heap] in *.
      rewrite accepted_cons_yes by exact Hs.
      exists (pi :: addrs), prev'.
      assert (Hpi : exists r', pi_heap w' !! pi = Some r'
                               /\ plane_fields str r').
      { destruct (link_plane_data prev pi
                    (<[pi := plane_record junk str]> (pi_heap w)) pi
                    (plane_record junk str) (lookup_insert_eq _ _ _))
          as (r1 & Hr1 & Hd1).
        destruct (Hdata _ _ Hr1) as (r2 & Hr2 & Hd2).
        exists r2. split; [exact Hr2|].
        apply (plane_fields_data str (plane_record junk str));
          [congruence | apply plane_record_fields]. }
      split; [exact Hok'|].
      split; [now rewrite <- app_assoc in Hb'|].
      split; [constructor; [exact Hpi | exact Hall]|].
      split.
      { intros a. rewrite Hdom, link_plane_is_Some, elem_of_cons.
        destruct (Z.eq_dec a pi) as [->|Hne].
        - rewrite lookup_insert_eq. split; [auto|eauto].
        - rewrite lookup_insert_ne by congruence. tauto. }
      split.
      { intros a r Hr.
        assert (Hne : pi <> a) by (intros <-; congruence).
        destruct (link_plane_data prev pi
                    (<[pi := plane_record junk str]> (pi_heap w)) a r)
          as (r1 & Hr1 & Hd1).
        { now rewrite lookup_insert_ne. }
        destruct (Hdata _ _ Hr1) as (r2 & Hr2 & Hd2).
        exists r2. split; [exact Hr2|congruence]. }
      split; [exact Hti|].
      split.
      { rewrite Hdb. destruct (prev =? 0); reflexivity. }
      split.
      { intros [H|H]; [discriminate|].
        rewrite Hhead.
        - destruct Hb as [_ [[-> _]|(init & -> & Hnz & _)]]; [congruence|].
          destruct (Z.eqb_spec prev 0); [contradiction|reflexivity].
        - right. destruct done; discriminate. }
      split.
      { intros a Ha. apply elem_of_cons in Ha as [->|Ha]; [unfold pi; lia|].
        specialize (Hge a Ha). cbn [brk] in Hge. lia. }
      split; [exact Hbuf|].
      cbn [allocator mallocs live_strings live_dbs open_files length] in *.
      split.
      { intros r' Hr'. right.
        destruct (Htail r' Hr') as [(_ & r & Hr & E)|(n & j & Hn & E)];
          [|eauto].
        exists (mallocs w), junk. split; [exact A1|]. rewrite E.
        assert (Hlast : link_plane prev pi (<[pi := plane_record junk str]> (pi_heap w)) !! pi
                        = Some (plane_record junk str)).
        { unfold link_plane. destruct (Z.eqb_spec prev 0); [apply lookup_insert_eq|].
          rewrite lookup_alter_ne; [apply lookup_insert_eq|].
          intros E0.
          destruct Hb as [_ [[_ ?]|(init & _ & _ & [x Hx] & _)]];
            [contradiction|].
          rewrite E0 in Hx. congruence. }
        rewrite Hlast in Hr. injection Hr as <-. reflexivity. }
      split; [assumption|]. split; [lia|]. split; [lia|].
      split; [assumption|]. split; [assumption|].
      intros a r Hr Hne.
      assert (Hfr : a <> brk w) by (intros ->; unfold pi in Hfresh; congruence).
      apply Hold; [|exact Hfr].
      unfold link_plane. destruct (Z.eqb_spec prev 0).
      * rewrite lookup_insert_ne by (unfold pi; congruence). exact Hr.
      * rewrite lookup_alter_ne by congruence.
        rewrite lookup_insert_ne by (unfold pi; congruence). exact Hr.
Qed.

(** *** The loaders as [planedb_init] calls them *)

Lemma list_built_nil {A} (next : A -> Z) (h : gmap Z A) head :
  list_built next h head 0 [].
Proof. split; [constructor|]. left. auto. Qed.

Lemma heap_ok_fopen fname w : heap_ok (fopen fname w).2 <-> heap_ok w.
Proof. unfold fopen. destruct (disk w fname); reflexivity. Qed.

Lemma load_types_loaded db w db' w' :
  heap_ok w -> types db = 0 ->
  load_types db w = (true, db', w') ->
  exists f addrs q,
    disk w "ACFTREF.txt"%string = Some f
    /\ heap_ok w'
    /\ types_loaded w' db' addrs
         (accepted 68 (line_buffers (file_lines f) (inbuf w))) q
    /\ (forall a,
          is_Some (ti_heap w' !! a) <-> is_Some (ti_heap w !! a) \/ a ∈ addrs)
    /\ (forall a, a ∈ addrs -> ti_heap w !! a = None)
    /\ pi_heap w' = pi_heap w
    /\ with_types 0 db' = with_types 0 db
    /\ inbuf w' = final_buffer (file_lines f) (inbuf w)
    /\ (addrs <> [] ->
        exists n junk, allocator w n = Block junk /\ q = junk_word junk 0)
    /\ allocator w' = allocator w
    /\ mallocs w' = (mallocs w + 3 * length addrs)%nat
    /\ live_strings w' = (live_strings w + 2 * length addrs)%nat
    /\ live_dbs w' = live_dbs w
    /\ open_files w' = open_files w
    /\ (forall a, a ∉ addrs -> ti_heap w' !! a = ti_heap w !! a).
Proof.
  intros Hok Hhead Hrun. unfold load_types, fopen in Hrun.
  destruct (disk w "ACFTREF.txt"%string) as [f|] eqn:Hf; [|discriminate].
  apply (load_types_loop_built _ _ _ _ _ []) in Hrun;
    [|exact Hok|apply list_built_nil].
  destruct Hrun as (addrs & prev' & Hok' & Hb & Hall & Hdom & _ & Hpi & Hdb
                    & Hkeep & Hge & Hbuf & Htail & Hal & Hm & Hls & Hld & Hof
                    & Hold).
  cbn [app inbuf ti_heap pi_heap brk allocator mallocs live_strings live_dbs
       open_files remove_first] in *.
  rewrite String.eqb_refl in Hof.
  assert (Hnew : forall a, a ∈ addrs -> ti_heap w !! a = None).
  { intros a Ha. destruct (ti_heap w !! a) as [ra|] eqn:E; [|reflexivity].
    exfalso. destruct Hok as (_ & Ht & Hp).
    specialize (Ht a ltac:(eauto)). specialize (Hge a Ha). lia. }
  assert (Hsame : forall a, a ∉ addrs -> ti_heap w' !! a = ti_heap w !! a).
  { intros a Ha. destruct (ti_heap w !! a) as [ra|] eqn:E.
    - apply Hold; [exact E|]. intros ->. destruct Hok as (_ & Ht & Hp).
      specialize (Ht 0 ltac:(eauto)). lia.
    - destruct (ti_heap w' !! a) as [ra|] eqn:E'; [|reflexivity].
      exfalso. destruct (proj1 (Hdom a) ltac:(eauto)) as [[x Hx]|Hin];
        [congruence|contradiction]. }
  destruct (decide (addrs = [])) as [->|Hne].
  - exists f, [], 0. unfold types_loaded. rewrite Hkeep by auto.
    split; [reflexivity|]. split; [exact Hok'|].
    split; [split; [constructor|]; split; [exact Hall|]; split;
            [exact Hhead|reflexivity]|].
    repeat (split; [assumption|]).
    split; [congruence|]. repeat (split; [assumption|]). exact Hsame.
  - destruct (list_built_lseg _ _ _ _ _ Hb Hne) as (r & Hr & Hseg).
    exists f, addrs, (ti_next r).
    split; [reflexivity|]. split; [exact Hok'|].
    split; [split; [apply Hb|]; split; [exact Hall|]; split;
            [exact Hseg|congruence]|].
    repeat (split; [assumption|]).
    split.
    { intros _. destruct (Htail r Hr) as [(E & _)|Hj]; [contradiction|exact Hj]. }
    repeat (split; [assumption|]). exact Hsame.
Qed.

Lemma load_planes_loaded db w db' w' :
  heap_ok w -> planes db = 0 ->
  load_planes db w = (true, db', w') ->
  exists f addrs q,
    disk w "MASTER.txt"%string = Some f
    /\ heap_ok w'
    /\ planes_loaded w' db' addrs
         (accepted 610 (line_buffers (file_lines f) (inbuf w))) q
    /\ (forall a,
          is_Some (pi_heap w' !! a) <-> is_Some (pi_heap w !! a) \/ a ∈ addrs)
    /\ (forall a, a ∈ addrs -> pi_heap w !! a = None)
    /\ ti_heap w' = ti_heap w
    /\ with_planes 0 db' = with_planes 0 db
    /\ inbuf w' = final_buffer (file_lines f) (inbuf w)
    /\ (addrs <> [] ->
        exists n junk, allocator w n = Block junk /\ q = junk_word junk 0)
    /\ allocator w' = allocator w
    /\ mallocs w' = (mallocs w + 3 * length addrs)%nat
    /\ live_strings w' = (live_strings w + 2 * length addrs)%nat
    /\ live_dbs w' = live_dbs w
    /\ open_files w' = open_files w
    /\ (forall a, a ∉ addrs -> pi_heap w' !! a = pi_heap w !! a).
Proof.
  intros Hok Hhead Hrun. unfold load_planes, fopen in Hrun.
  destruct (disk w "MASTER.txt"%string) as [f|] eqn:Hf; [|discriminate].
  apply (load_planes_loop_built _ _ _ _ _ []) in Hrun;
    [|exact Hok|apply list_built_nil].
  destruct Hrun as (addrs & prev' & Hok' & Hb & Hall & Hdom & _ & Hpi & Hdb
                    & Hkeep & Hge & Hbuf & Htail & Hal & Hm & Hls & Hld & Hof
                    & Hold).
  cbn [app inbuf ti_heap pi_heap brk allocator mallocs live_strings live_dbs
       open_files remove_first] in *.
  rewrite String.eqb_refl in Hof.
  assert (Hnew : forall a, a ∈ addrs -> pi_heap w !! a = None).
  { intros a Ha. destruct (pi_heap w !! a) as [ra|] eqn:E; [|reflexivity].
    exfalso. destruct Hok as (_ & Ht & Hp).
    specialize (Hp a ltac:(eauto)). specialize (Hge a Ha). lia. }
  assert (Hsame : forall a, a ∉ addrs -> pi_heap w' !! a = pi_heap w !! a).
  { intros a Ha. destruct (pi_heap w !! a) as [ra|] eqn:E.
    - apply Hold; [exact E|]. intros ->. destruct Hok as (_ & Ht & Hp).
      specialize (Hp 0 ltac:(eauto)). lia.
    - destruct (pi_heap w' !! a) as [ra|] eqn:E'; [|reflexivity].
      exfalso. destruct (proj1 (Hdom a) ltac:(eauto)) as [[x Hx]|Hin];
        [congruence|contradiction]. }
  destruct (decide (addrs = [])) as [->|Hne].
  - exists f, [], 0. unfold planes_loaded. rewrite Hkeep by auto.
    split; [reflexivity|]. split; [exact Hok'|].
    split; [split; [constructor|]; split; [exact Hall|]; split;
            [exact Hhead|reflexivity]|].
    repeat (split; [assumption|]).
    split; [congruence|]. repeat (split; [assumption|]). exact Hsame.
  - destruct (list_built_lseg _ _ _ _ _ Hb Hne) as (r & Hr & Hseg).
    exists f, addrs, (pi_next r).
    split; [reflexivity|]. split; [exact Hok'|].
    split; [split; [apply Hb|]; split; [exact Hall|]; split;
            [exact Hseg|congruence]|].
    repeat (split; [assumption|]).
    split.
    { intros _. destruct (Htail r Hr) as [(E & _)|Hj]; [contradiction|exact Hj]. }
    repeat (split; [assumption|]). exact Hsame.
Qed.

(** ** Reading a file line by line *)

Lemma fgets_app n f l r : fgets n f = (l, r) -> l ++ r = f.
Proof.
  revert f l r. induction n as [|n IH]; intros [|c f] l r; simpl;
    try (intros [= <- <-]; reflexivity).
  destruct (Ascii.eqb c NL); [intros [= <- <-]; reflexivity|].
  destruct (fgets n f) as [l' r'] eqn:E. intros [= <- <-].
  simpl. f_equal. now apply IH.
Qed.

Lemma fgets_progress n c f l r :
  fgets (S n) (c :: f) = (l, r) -> (length r < length (c :: f))%nat.
Proof.
  simpl. destruct (Ascii.eqb c NL); [intros [= <- <-]; simpl; lia|].
  destruct (fgets n f) as [l' r'] eqn:E. intros [= <- <-].
  apply fgets_app in E. subst f. rewrite length_app. simpl. lia.
Qed.

(** The bound of [read_lines] is never what ends the reading: any bound
    of at least the length of the stream gives the same strings. *)
Lemma read_lines_fuel fuel1 : forall fuel2 f,
  (length f <= fuel1)%nat -> (length f <= fuel2)%nat ->
  read_lines fuel1 f = read_lines fuel2 f.
Proof.
  induction fuel1 as [|k1 IH]; intros fuel2 [|c f] H1 H2;
    try (simpl in *; lia); try (destruct fuel2; reflexivity).
  destruct fuel2 as [|k2]; [simpl in H2; lia|].
  cbn [read_lines]. change (INSIZE - 1)%nat with (S 1022).
  destruct (fgets (S 1022) (c :: f)) as [l r] eqn:E.
  pose proof (fgets_progress _ _ _ _ _ E) as Hr. simpl in *.
  f_equal. apply IH; lia.
Qed.

Lemma fgets_text_line n body rest :
  NL ∉ body -> (length body < n)%nat ->
  fgets n (body ++ NL :: rest) = (body ++ [NL], rest).
Proof.
  revert n. induction body as [|c body IH]; intros n Hnl Hlen.
  - destruct n; [simpl in Hlen; lia|]. reflexivity.
  - destruct n; [simpl in Hlen; lia|]. simpl.
    destruct (Ascii.eqb_spec c NL) as [->|_].
    + exfalso. apply Hnl. apply list_elem_of_here.
    + rewrite IH; [reflexivity| |simpl in Hlen; lia].
      intros H. apply Hnl. now apply list_elem_of_further.
Qed.

(** A file that is the concatenation of text lines is read back as
    exactly those lines. *)
Lemma file_lines_concat ls :
  Forall text_line ls -> file_lines (concat ls) = ls.
Proof.
  unfold file_lines. intros H.
  assert (G : forall fuel, (length (concat ls) <= fuel)%nat ->
                           read_lines fuel (concat ls) = ls).
  { induction H as [|l ls (body & -> & Hnl & _ & Hlen) _ IH]; intros fuel Hf.
    - destruct fuel; reflexivity.
    - simpl in Hf. rewrite !length_app in Hf. simpl in Hf.
      destruct fuel as [|k]; [lia|].
      cbn [concat read_lines]. rewrite <- app_assoc. cbn [app].
      destruct (body ++ NL :: concat ls) as [|c t] eqn:E;
        [destruct body; discriminate|].
      rewrite <- E.
      rewrite fgets_text_line;
        [|exact Hnl
         |rewrite length_app in Hlen; unfold INSIZE in *; simpl in Hlen; lia].
      f_equal. apply IH. lia. }
  apply G. lia.
Qed.

Lemma strlen_no_NUL (l : list ascii) : NUL ∉ l -> strlen l = Z.of_nat (length l).
Proof.
  induction l as [|c l IH]; intros H; [reflexivity|]. simpl.
  destruct (Ascii.eqb_spec c NUL) as [->|_].
  - exfalso. apply H. apply list_elem_of_here.
  - rewrite IH; [lia|]. intros Hin. apply H. now apply list_elem_of_further.
Qed.

Lemma strlen_text_line l : text_line l -> strlen l = Z.of_nat (length l).
Proof.
  intros (body & -> & _ & Hnul & _). apply strlen_no_NUL.
  intros H. apply elem_of_app in H as [H|H]; [contradiction|].
  apply list_elem_of_singleton in H. discriminate.
Qed.

(** ** Short lines *)

Lemma length_accepted_buffers width lines : forall buf,
  length (accepted width (line_buffers lines buf))
  = length (accepted width lines).
Proof.
  induction lines as [|l lines IH]; intros buf; [reflexivity|].
  cbn [line_buffers].
  destruct (Z.lt_ge_cases (strlen l) width) as [H|H].
  - rewrite !accepted_cons_no by (rewrite ?strlen_fgets_store; exact H).
    apply IH.
  - rewrite !accepted_cons_yes by (rewrite ?strlen_fgets_store; exact H).
    simpl. f_equal. apply IH.
Qed.

Lemma length_accepted_short width lines :
  (length (accepted width lines)
   + length (filter (fun s => (strlen s < width)%Z) lines))%nat
  = length lines.
Proof.
  induction lines as [|l lines IH]; [reflexivity|].
  destruct (Z.lt_ge_cases (strlen l) width) as [H|H].
  - rewrite accepted_cons_no by exact H.
    rewrite filter_cons_True by exact H. simpl. lia.
  - rewrite accepted_cons_yes by exact H.
    rewrite filter_cons_False by lia. simpl. lia.
Qed.

Lemma length_accepted_text width ls :
  Forall text_line ls ->
  length (accepted width ls)
  = length (filter (fun l => width <= Z.of_nat (length l)) ls).
Proof.
  induction 1 as [|l ls Hl _ IH]; [reflexivity|].
  pose proof (strlen_text_line l Hl) as E.
  destruct (Z.lt_ge_cases (strlen l) width) as [H|H].
  - rewrite accepted_cons_no by exact H.
    rewrite filter_cons_False by lia. exact IH.
  - rewrite accepted_cons_yes by exact H.
    rewrite filter_cons_True by lia. simpl. now rewrite IH.
Qed.

Lemma heap_ok_boot d a : heap_ok (boot d a).
Proof.
  split; [simpl; lia|].
  split; intros x [r Hr]; simpl in Hr; rewrite lookup_empty in Hr; discriminate.
Qed.

(** C4, as amended. The loaders see a file as the strings the [fgets]
    calls return, a line or a piece of at most 1023 bytes of a longer
    line, and the width of a string is its [strlen], the bytes before its
    first NUL. A load that succeeds appends to its index exactly one
    record per string of at least the minimum width (68 bytes for the
    type file, 610 for the registration file), at distinct fresh
    addresses, in file order and with the fields read from that string's
    buffer, and no record for a shorter string. For a file of
    newline-ended lines without NUL that fit the buffer the strings are
    the lines of the file and their widths the lengths in bytes; so a
    type file of three such lines of which one is too short gives two
    records. *)
Theorem short_lines_skipped (db : PlaneDb) (w : world) (db' : PlaneDb)
  (w' : world) :
  heap_ok w ->
  (types db = 0 -> load_types db w = (true, db', w') ->
   exists f addrs q,
     disk w "ACFTREF.txt"%string = Some f
     /\ types_loaded w' db' addrs
          (accepted 68 (line_buffers (file_lines f) (inbuf w))) q
     /\ (forall a,
           is_Some (ti_heap w' !! a) <-> is_Some (ti_heap w !! a) \/ a ∈ addrs)
     /\ (forall a, a ∈ addrs -> ti_heap w !! a = None)
     /\ length addrs = length (accepted 68 (file_lines f))
     /\ (forall ls,
           Forall text_line ls -> f = concat ls ->
           length addrs
           = length (filter (fun l => 68 <= Z.of_nat (length l)) ls))
     /\ (length (file_lines f) = 3%nat ->
         length (filter (fun s => strlen s < 68) (file_lines f)) = 1%nat ->
         length addrs = 2%nat))
  /\ (planes db = 0 -> load_planes db w = (true, db', w') ->
      exists f addrs q,
        disk w "MASTER.txt"%string = Some f
        /\ planes_loaded w' db' addrs
             (accepted 610 (line_buffers (file_lines f) (inbuf w))) q
        /\ (forall a,
              is_Some (pi_heap w' !! a)
              <-> is_Some (pi_heap w !! a) \/ a ∈ addrs)
        /\ (forall a, a ∈ addrs -> pi_heap w !! a = None)
        /\ length addrs = length (accepted 610 (file_lines f))
        /\ (forall ls,
              Forall text_line ls -> f = concat ls ->
              length addrs
              = length (filter (fun l => 610 <= Z.of_nat (length l)) ls))).
Proof.
  intros Hok. split.
  - intros Hhead Hrun.
    destruct (load_types_loaded _ _ _ _ Hok Hhead Hrun)
      as (f & addrs & q & Hf & _ & Hl & Hdom & Hnew & _ & _).
    assert (Hlen : length addrs = length (accepted 68 (file_lines f))).
    { destruct Hl as (_ & Hall & _).
      rewrite (Forall2_length _ _ _ Hall). apply length_accepted_buffers. }
    exists f, addrs, q. repeat (split; [assumption|]).
    split.
    { intros ls Hls ->. rewrite Hlen, file_lines_concat by exact Hls.
      now apply length_accepted_text. }
    intros H3 H1. pose proof (length_accepted_short 68 (file_lines f)). lia.
  - intros Hhead Hrun.
    destruct (load_planes_loaded _ _ _ _ Hok Hhead Hrun)
      as (f & addrs & q & Hf & _ & Hl & Hdom & Hnew & _ & _).
    assert (Hlen : length addrs = length (accepted 610 (file_lines f))).
    { destruct Hl as (_ & Hall & _).
      rewrite (Forall2_length _ _ _ Hall). apply length_accepted_buffers. }
    exists f, addrs, q. repeat (split; [assumption|]).
    intros ls Hls ->. rewrite Hlen, file_lines_concat by exact Hls.
    now apply length_accepted_text.
Qed.

Lemma short_lines_skipped_witness :
  (exists addrs : list Z,
     NoDup addrs /\ length addrs = 2%nat
     /\ forall a,
          is_Some
            (ti_heap
               (load_types empty_db
                  (boot (disk_of (Some three_line_types) None) clean_alloc)).2
             !! a)
          <-> a ∈ addrs)
  /\ (exists addrs : list Z,
        NoDup addrs /\ length addrs = 1%nat
        /\ forall a,
             is_Some
               (pi_heap
                  (load_planes empty_db
                     (boot (disk_of None (Some n12345_line)) clean_alloc)).2
                !! a)
             <-> a ∈ addrs).
Proof.
  split.
  - pose (w := boot (disk_of (Some three_line_types) None) clean_alloc).
    pose (r := load_types empty_db w).
    destruct (proj1 (short_lines_skipped empty_db w r.1.2 r.2
                       (heap_ok_boot _ _))
                eq_refl ltac:(vm_compute; reflexivity))
      as (f & addrs & q & Hf & (Hnd & _) & Hdom & _ & _ & _ & H2).
    exists addrs. injection Hf as <-.
    split; [exact Hnd|].
    split; [apply H2; vm_compute; reflexivity|].
    intros a. fold w. fold r. rewrite Hdom. cbn [w boot ti_heap].
    rewrite lookup_empty. split; [intros [[x Hx]|H]; [discriminate|exact H]|auto].
  - pose (w := boot (disk_of None (Some n12345_line)) clean_alloc).
    pose (r := load_planes empty_db w).
    destruct (proj2 (short_lines_skipped empty_db w r.1.2 r.2
                       (heap_ok_boot _ _))
                eq_refl ltac:(vm_compute; reflexivity))
      as (f & addrs & q & Hf & (Hnd & _) & Hdom & _ & H1 & _).
    exists addrs. injection Hf as <-.
    split; [exact Hnd|].
    split; [rewrite H1; vm_compute; reflexivity|].
    intros a. fold w. fold r. rewrite Hdom. cbn [w boot pi_heap].
    rewrite lookup_empty. split; [intros [[x Hx]|H]; [discriminate|exact H]|auto].
Defined.

(** C4 as stated, with a line being a line of the file and its width its
    length in bytes, fails both ways: a line of 2001 bytes reaches the
    loader as two strings of 1023 and 978 bytes and gives two records,
    and a line of 80 bytes with a NUL at byte 10 has a [strlen] of 10
    and gives none. *)
Lemma line_is_not_one_record_counterexample :
  ~ (forall (f : list ascii) (w : world) (db db' : PlaneDb) (w' : world),
       heap_ok w -> types db = 0 ->
       disk w "ACFTREF.txt"%string = Some f ->
       load_types db w = (true, db', w') ->
       size (ti_heap w')
       = (size (ti_heap w)
          + length
              (filter (fun l => (68 <= Z.of_nat (length l))%Z)
                 (input_lines f)))%nat)
  /\ (input_lines long_type_line = [long_type_line]
      /\ length long_type_line = 2001%nat
      /\ (load_types empty_db long_line_world).1.1 = true
      /\ size (ti_heap (load_types empty_db long_line_world).2) = 2%nat)
  /\ (input_lines nul_type_line = [nul_type_line]
      /\ length nul_type_line = 80%nat
      /\ (load_types empty_db nul_line_world).1.1 = true
      /\ size (ti_heap (load_types empty_db nul_line_world).2) = 0%nat).
Proof.
  assert (L : input_lines long_type_line = [long_type_line]
              /\ length long_type_line = 2001%nat
              /\ (load_types empty_db long_line_world).1.1 = true
              /\ size (ti_heap (load_types empty_db long_line_world).2)
                 = 2%nat).
  { split; [vm_compute; reflexivity|]. split; [vm_compute; reflexivity|].
    split; vm_compute; reflexivity. }
  split; [|split; [exact L|]].
  - intros H.
    specialize (H long_type_line long_line_world empty_db
                  (load_types empty_db long_line_world).1.2
                  (load_types empty_db long_line_world).2
                  (heap_ok_boot _ _) eq_refl ltac:(vm_compute; reflexivity)
                  ltac:(vm_compute; reflexivity)).
    destruct L as (L1 & L2 & _ & L4). rewrite L4, L1 in H.
    vm_compute in H. discriminate.
  - split; [vm_compute; reflexivity|]. split; [vm_compute; reflexivity|].
    split; vm_compute; reflexivity.
Qed.

(** ** A Ready context *)

Lemma heap_ok_malloc w : heap_ok w -> heap_ok (malloc w).2.
Proof.
  intros (Hb & Ht & Hp). unfold malloc.
  destruct (allocator w (mallocs w)); (split; [|split]); cbn [snd brk ti_heap pi_heap];
    try lia; auto; intros a Ha.
  - specialize (Ht a Ha). lia.
  - specialize (Hp a Ha). lia.
Qed.

Lemma planedb_close_never_ready d w db w' :
  match planedb_close (Some d) w with
  | Done (_, w4) => Done (@None PlaneDb, w4)
  | Fault => Fault
  | Hang => Hang
  end <> Done (Some db, w').
Proof. destruct (planedb_close (Some d) w) as [[b w4]| |]; discriminate. Qed.

Lemma load_types_loop_disk fname lines : forall prev db w,
  disk (load_types_loop fname lines prev db w).2 = disk w.
Proof.
  induction lines as [|line rest IH]; intros prev db w; [reflexivity|].
  cbn [load_types_loop]. cbn [inbuf set_inbuf].
  destruct (strlen (fgets_store line (inbuf w)) <? 68); [now rewrite IH|].
  unfold typeInfoCreate, malloc. cbn [allocator mallocs set_inbuf].
  destruct (allocator w (mallocs w)); [reflexivity|].
  cbn [brk set_inbuf]. destruct (brk w =? 0); [reflexivity|].
  unfold pickup_w, malloc, ti_field. world_fields.
  destruct (allocator w (S (mallocs w))); [reflexivity|]. world_fields.
  destruct (allocator w (S (S (mallocs w)))); [reflexivity|].
  destruct (prev =? 0); now rewrite IH.
Qed.

Lemma load_types_disk db w : disk (load_types db w).2 = disk w.
Proof.
  unfold load_types, fopen. destruct (disk w "ACFTREF.txt"%string) eqn:E;
    [now rewrite load_types_loop_disk | reflexivity].
Qed.

Lemma inbuf_malloc w : inbuf (malloc w).2 = inbuf w.
Proof. unfold malloc. destruct (allocator w (mallocs w)); reflexivity. Qed.

(** A context that [planedb_init] returns has both indexes loaded: the
    Type Index holds one record per accepted string of ACFTREF.txt, the
    Registration Index one per accepted string of MASTER.txt, in file
    order. *)
Lemma planedb_init_ready w db w' :
  heap_ok w -> planedb_init w = Done (Some db, w') ->
  heap_ok w'
  /\ exists ft fp taddrs tq paddrs pq,
       disk w "ACFTREF.txt"%string = Some ft
       /\ disk w "MASTER.txt"%string = Some fp
       /\ types_loaded w' db taddrs
            (accepted 68 (line_buffers (file_lines ft) (inbuf w))) tq
       /\ planes_loaded w' db paddrs
            (accepted 610
               (line_buffers (file_lines fp)
                  (final_buffer (file_lines ft) (inbuf w))))
            pq.
Proof.
  intros Hok Hrun. unfold planedb_init in Hrun.
  pose proof (heap_ok_malloc w Hok) as Hok1.
  pose proof (inbuf_malloc w) as Hbuf1.
  assert (Hdisk1 : disk (malloc w).2 = disk w).
  { unfold malloc. destruct (allocator w (mallocs w)); reflexivity. }
  destruct (malloc w) as [[[blk junk]|] w1]; [|discriminate].
  cbn [snd] in Hok1, Hbuf1, Hdisk1.
  set (db0 := mkPlaneDb 0 _ _ 0 _ _) in Hrun.
  set (w2 := set_live_dbs _ w1) in Hrun.
  assert (Hok2 : heap_ok w2) by exact Hok1.
  destruct (load_types db0 w2) as [[ok1 db1] w3] eqn:L1.
  destruct ok1; cbn [negb] in Hrun;
    [|now apply planedb_close_never_ready in Hrun].
  destruct (load_types_loaded db0 w2 db1 w3 Hok2 eq_refl L1)
    as (ft & taddrs & tq & Hft & Hok3 & Ht & _ & _ & _ & Hdb1 & Hbuf3 & _).
  assert (Hp0 : planes db1 = 0).
  { change (planes (with_types 0 db1) = 0). now rewrite Hdb1. }
  destruct (load_planes db1 w3) as [[ok2 db2] w4] eqn:L2.
  destruct ok2; cbn [negb] in Hrun;
    [|now apply planedb_close_never_ready in Hrun].
  injection Hrun as <- <-.
  destruct (load_planes_loaded _ _ _ _ Hok3 Hp0 L2)
    as (fp & paddrs & pq & Hfp & Hok4 & Hp & _ & _ & Hti & Hdb2 & _).
  split; [exact Hok4|].
  exists ft, fp, taddrs, tq, paddrs, pq.
  cbn [w2 set_live_dbs disk inbuf] in Hft, Hbuf3.
  rewrite Hdisk1 in Hft. rewrite Hbuf1 in Hbuf3.
  split; [exact Hft|].
  split.
  { assert (Hd3 : disk w3 = disk w).
    { pose proof (load_types_disk db0 w2) as D. rewrite L1 in D.
      cbn [snd w2 set_live_dbs disk] in D. congruence. }
    now rewrite <- Hd3. }
  split.
  - unfold types_loaded in *. rewrite Hti.
    replace (types db2) with (types db1);
      [cbn [w2 set_live_dbs inbuf] in Ht; rewrite Hbuf1 in Ht; exact Ht
      | change (types (with_planes 0 db1) = types db2); now rewrite <- Hdb2].
  - rewrite <- Hbuf3. exact Hp.
Qed.

Section LoadedScan.
Context {A : Type} (next key : A -> Z).

Lemma first_with_key_match (h : gmap Z A) l id a :
  (forall b, b ∈ l -> is_Some (h !! b)) ->
  first_with_key key h l id a -> first_match key h l id = Some a.
Proof.
  intros Hlive (l1 & l2 & r & -> & Hr & Hk & Hfirst).
  induction l1 as [|b l1 IH]; simpl.
  - rewrite Hr. destruct (Z.eqb_spec (key r) id); [reflexivity|contradiction].
  - destruct (Hlive b (list_elem_of_here _ _)) as [rb Hb]. rewrite Hb.
    destruct (Z.eqb_spec (key rb) id) as [E|E].
    + exfalso. apply (Hfirst b rb); [apply list_elem_of_here|exact Hb|exact E].
    + apply IH.
      * intros c Hc. apply Hlive. now apply list_elem_of_further.
      * intros c rc Hc. apply Hfirst. now apply list_elem_of_further.
Qed.

(** A scan of a whole index with the bound of the lookups. *)
Lemma list_scan_index (h : gmap Z A) head l q id :
  NoDup l -> lseg next h head l q ->
  list_scan next key (scan_bound h) h head id =
    match first_match key h l id with
    | Some a => Done a
    | None => list_scan next key (scan_bound h - length l) h q id
    end.
Proof.
  intros Hnd Hseg. apply list_scan_lseg; [exact Hseg|].
  unfold scan_bound.
  pose proof (live_length h l Hnd
                (fun a Ha => proj2 (lseg_live next h l head q Hseg a Ha))).
  lia.
Qed.
End LoadedScan.

(** ** Duplicate ids *)

(** The half of the duplicate-id rule that holds in every context
    [planedb_init] returns: a lookup that is answered by the scan (the
    key is not the cached one) returns the first record, in file order,
    that has the id, and caches it, so that the next lookup of the id
    returns the same record. What the cache of a fresh context answers
    before that is another matter. *)
Theorem first_record_wins (w : world) (db : PlaneDb) (w' : world) :
  heap_ok w -> planedb_init w = Done (Some db, w') ->
  (exists ft fp taddrs tq paddrs pq,
     disk w "ACFTREF.txt"%string = Some ft
     /\ disk w "MASTER.txt"%string = Some fp
     /\ types_loaded w' db taddrs
          (accepted 68 (line_buffers (file_lines ft) (inbuf w))) tq
     /\ planes_loaded w' db paddrs
          (accepted 610
             (line_buffers (file_lines fp)
                (final_buffer (file_lines ft) (inbuf w))))
          pq)
  /\ (forall taddrs tstrs tq dbq id a,
        types_loaded w' db taddrs tstrs tq ->
        types dbq = types db -> id <> last_model dbq ->
        first_with_key ti_id (ti_heap w') taddrs id a ->
        let dbq' :=
          mkPlaneDb (types dbq) id a (planes dbq) (last_icao dbq)
            (last_pi dbq) in
        type_lookup dbq id w' = Done (a, dbq')
        /\ type_lookup dbq' id w' = Done (a, dbq'))
  /\ (forall paddrs pstrs pq dbq icao a,
        planes_loaded w' db paddrs pstrs pq ->
        planes dbq = planes db -> parse_hex icao 0 <> last_icao dbq ->
        first_with_key pi_id (pi_heap w') paddrs (parse_hex icao 0) a ->
        let dbq' :=
          mkPlaneDb (types dbq) (last_model dbq) (last_ti dbq) (planes dbq)
            (parse_hex icao 0) a in
        planedb_lookup (Some dbq) (Some icao) w' = Done (a, Some dbq')
        /\ planedb_lookup (Some dbq') (Some icao) w' = Done (a, Some dbq')).
Proof.
  intros Hok Hrun.
  split; [apply (planedb_init_ready w db w' Hok Hrun)|].
  split.
  - intros taddrs tstrs tq dbq id a (Hnd & _ & Hseg & _) Hhead Hmiss Hfirst dbq'.
    pose proof (lseg_live _ _ _ _ _ Hseg) as Hlive.
    assert (Ha : a <> 0).
    { destruct Hfirst as (l1 & l2 & r & -> & _).
      apply (Hlive a). apply elem_of_app. right. apply list_elem_of_here. }
    split.
    + unfold type_lookup.
      destruct (Z.eqb_spec id (last_model dbq)); [contradiction|].
      rewrite Hhead, (list_scan_index ti_next ti_id _ _ _ _ id Hnd Hseg).
      rewrite (first_with_key_match ti_id _ _ id a
                 (fun b Hb => proj2 (Hlive b Hb)) Hfirst).
      destruct (Z.eqb_spec a 0); [contradiction|]. now rewrite <- Hhead.
    + unfold type_lookup. cbn [last_model dbq']. now rewrite Z.eqb_refl.
  - intros paddrs pstrs pq dbq icao a (Hnd & _ & Hseg & _) Hhead Hmiss Hfirst dbq'.
    pose proof (lseg_live _ _ _ _ _ Hseg) as Hlive.
    assert (Ha : a <> 0).
    { destruct Hfirst as (l1 & l2 & r & -> & _).
      apply (Hlive a). apply elem_of_app. right. apply list_elem_of_here. }
    split.
    + unfold planedb_lookup.
      destruct (Z.eqb_spec (parse_hex icao 0) (last_icao dbq)); [contradiction|].
      rewrite Hhead,
        (list_scan_index pi_next pi_id _ _ _ _ (parse_hex icao 0) Hnd Hseg).
      rewrite (first_with_key_match pi_id _ _ _ a
                 (fun b Hb => proj2 (Hlive b Hb)) Hfirst).
      destruct (Z.eqb_spec a 0); [contradiction|]. now rewrite <- Hhead.
    + unfold planedb_lookup. cbn [last_icao dbq']. now rewrite Z.eqb_refl.
Qed.

Lemma first_record_wins_witness :
  let o := planedb_init twin_world in
  let db := ready_db o in
  let w' := ready_world twin_world o in
  type_lookup db 1200119 w'
  = Done (2, mkPlaneDb (types db) 1200119 2 (planes db) (last_icao db)
               (last_pi db))
  /\ planedb_lookup (Some db) (Some (cstr "A1B2C3")) w'
     = Done (8, Some (mkPlaneDb (types db) (last_model db) (last_ti db)
                        (planes db) (parse_hex (cstr "A1B2C3") 0) 8)).
Proof.
  intros o db w'.
  pose proof (first_record_wins twin_world db w' (heap_ok_boot _ _)
                ltac:(by_evaluation)) as (_ & Ht & Hp).
  split.
  - apply (Ht [2; 5]
             [cessna_line; type_line "1200119" "IMPOSTOR" "X" "1" "001" 80]
             0 db 1200119 2).
    + index_by_evaluation.
    + by_evaluation.
    + by_evaluation.
    + eexists [], [5], _.
      split; [reflexivity|]. split; [by_evaluation|]. split; [by_evaluation|].
      intros b rb Hb. now apply elem_of_nil in Hb.
  - apply (Hp [8; 11]
             [n12345_line; plane_line "99999" "7102802" "JANE ROE" "A1B2C3"]
             0 db (cstr "A1B2C3") 8).
    + index_by_evaluation.
    + by_evaluation.
    + by_evaluation.
    + eexists [], [11], _.
      split; [reflexivity|]. split; [by_evaluation|]. split; [by_evaluation|].
      intros b rb Hb. now apply elem_of_nil in Hb.
Defined.

(** ** The caches *)

(** What a lookup leaves in the cache: the key and the record of a lookup
    that returned a record, nothing new after one that returned [NULL]. *)
Lemma type_lookup_cache db id w rec db' :
  type_lookup db id w = Done (rec, db') ->
  (rec <> 0 -> last_model db' = id /\ last_ti db' = rec)
  /\ (rec = 0 -> db' = db)
  /\ types db' = types db /\ planes db' = planes db
  /\ last_icao db' = last_icao db /\ last_pi db' = last_pi db.
Proof.
  unfold type_lookup. destruct (Z.eqb_spec id (last_model db)) as [->|Hne].
  - intros [= <- <-]. repeat split; auto.
  - destruct (list_scan _ _ _ _ _ _) as [r| |]; try discriminate.
    destruct (Z.eqb_spec r 0) as [->|Hr]; intros [= <- <-]; simpl;
      repeat split; auto; contradiction.
Qed.

Lemma planedb_lookup_cache db icao w rec db' :
  planedb_lookup (Some db) (Some icao) w = Done (rec, Some db') ->
  (rec <> 0 -> last_icao db' = parse_hex icao 0 /\ last_pi db' = rec)
  /\ (rec = 0 -> db' = db)
  /\ types db' = types db /\ planes db' = planes db
  /\ last_model db' = last_model db /\ last_ti db' = last_ti db.
Proof.
  unfold planedb_lookup.
  destruct (Z.eqb_spec (parse_hex icao 0) (last_icao db)) as [E|Hne].
  - intros [= <- <-]. repeat split; auto.
  - destruct (list_scan _ _ _ _ _ _) as [r| |]; try discriminate.
    destruct (Z.eqb_spec r 0) as [->|Hr]; intros [= <- <-]; simpl;
      repeat split; auto; contradiction.
Qed.

(** From a context whose caches agree with the indexes, a lookup returns
    what the scan returns and leaves the caches in agreement. *)
Lemma type_lookup_coherent db id w :
  caches_ok db w ->
  exists db',
    (match type_scan db id w with
     | Done rec => type_lookup db id w = Done (rec, db')
     | Fault => type_lookup db id w = Fault
     | Hang => type_lookup db id w = Hang
     end)
    /\ caches_ok db' w /\ types db' = types db /\ planes db' = planes db.
Proof.
  intros [Ht Hp]. unfold type_lookup, type_scan in *.
  destruct (Z.eqb_spec id (last_model db)) as [->|Hne].
  - exists db. rewrite Ht. repeat split; auto.
  - destruct (list_scan _ _ _ _ (types db) id) as [r| |] eqn:E.
    + destruct (Z.eqb_spec r 0) as [->|Hr].
      * exists db. repeat split; auto.
      * eexists. split; [reflexivity|]. repeat split; auto.
    + exists db. repeat split; auto.
    + exists db. repeat split; auto.
Qed.

Lemma planedb_lookup_coherent db icao w :
  caches_ok db w ->
  exists db',
    (match plane_scan db (parse_hex icao 0) w with
     | Done rec => planedb_lookup (Some db) (Some icao) w = Done (rec, Some db')
     | Fault => planedb_lookup (Some db) (Some icao) w = Fault
     | Hang => planedb_lookup (Some db) (Some icao) w = Hang
     end)
    /\ caches_ok db' w /\ types db' = types db /\ planes db' = planes db.
Proof.
  intros [Ht Hp]. unfold planedb_lookup, plane_scan in *.
  destruct (Z.eqb_spec (parse_hex icao 0) (last_icao db)) as [->|Hne].
  - exists db. rewrite Hp. repeat split; auto.
  - destruct (list_scan _ _ _ _ (planes db) (parse_hex icao 0)) as [r| |] eqn:E.
    + destruct (Z.eqb_spec r 0) as [->|Hr].
      * exists db. repeat split; auto.
      * eexists. split; [reflexivity|]. repeat split; auto.
    + exists db. repeat split; auto.
    + exists db. repeat split; auto.
Qed.

Lemma scans_same_heads calls w : forall db db',
  types db' = types db -> planes db' = planes db ->
  scans calls db' w = scans calls db w.
Proof.
  induction calls as [|c rest IH]; intros db db' Ht Hp; [reflexivity|].
  cbn [scans]. unfold type_scan, plane_scan. rewrite Ht, Hp.
  now rewrite (IH db db').
Qed.

(** Any sequence of lookups on a context with coherent caches returns
    exactly what the cache-free scans return. *)
Lemma lookups_coherent calls w : forall db,
  caches_ok db w -> answers (lookups calls db w) = scans calls db w.
Proof.
  induction calls as [|c rest IH]; intros db Hok; [reflexivity|].
  cbn [lookups scans]. destruct c as [id|icao].
  - destruct (type_lookup_coherent db id w Hok) as (db' & Hl & Hok' & Ht & Hp).
    destruct (type_scan db id w) as [rec| |]; rewrite Hl; try reflexivity.
    rewrite <- (scans_same_heads rest w db db' Ht Hp), <- (IH db' Hok').
    destruct (lookups rest db' w) as [[recs db2]| |]; reflexivity.
  - destruct (planedb_lookup_coherent db icao w Hok)
      as (db' & Hl & Hok' & Ht & Hp).
    destruct (plane_scan db (parse_hex icao 0) w) as [rec| |]; rewrite Hl;
      try reflexivity.
    rewrite <- (scans_same_heads rest w db db' Ht Hp), <- (IH db' Hok').
    destruct (lookups rest db' w) as [[recs db2]| |]; reflexivity.
Qed.

(** ** Fields that are never written *)

(** The cache fields of the context that [planedb_init] returns are what
    the block held when [malloc] returned it. *)
Lemma planedb_init_cache w db w' :
  heap_ok w -> planedb_init w = Done (Some db, w') ->
  exists junk,
    allocator w (mallocs w) = Block junk
    /\ last_model db = wrap32 (junk_word junk 1)
    /\ last_ti db = junk_word junk 2
    /\ last_icao db = wrap32 (junk_word junk 4)
    /\ last_pi db = junk_word junk 5.
Proof.
  intros Hok Hrun. unfold planedb_init in Hrun.
  pose proof (heap_ok_malloc w Hok) as Hok1. unfold malloc in Hrun, Hok1.
  destruct (allocator w (mallocs w)) as [|junk]; [discriminate|].
  cbn [snd] in Hok1. exists junk. split; [reflexivity|].
  set (db0 := mkPlaneDb 0 _ _ 0 _ _) in Hrun.
  set (w2 := set_live_dbs _ _) in Hrun.
  assert (Hok2 : heap_ok w2) by exact Hok1.
  destruct (load_types db0 w2) as [[ok1 db1] w3] eqn:L1.
  destruct ok1; cbn [negb] in Hrun;
    [|now apply planedb_close_never_ready in Hrun].
  destruct (load_types_loaded db0 w2 db1 w3 Hok2 eq_refl L1)
    as (ft & taddrs & tq & _ & Hok3 & _ & _ & _ & _ & Hdb1 & _).
  assert (Hp0 : planes db1 = 0).
  { change (planes (with_types 0 db1) = 0). now rewrite Hdb1. }
  destruct (load_planes db1 w3) as [[ok2 db2] w4] eqn:L2.
  destruct ok2; cbn [negb] in Hrun;
    [|now apply planedb_close_never_ready in Hrun].
  injection Hrun as <- <-.
  destruct (load_planes_loaded _ _ _ _ Hok3 Hp0 L2)
    as (fp & paddrs & pq & _ & _ & _ & _ & _ & _ & Hdb2 & _).
  assert (E : with_planes 0 (with_types 0 db2)
              = with_planes 0 (with_types 0 db0)).
  { transitivity (with_planes 0 (with_types 0 db1)).
    - destruct db2, db1. unfold with_planes, with_types in *. simpl in *.
      congruence.
    - destruct db1. unfold with_planes, with_types in *. simpl in *.
      congruence. }
  destruct db2. unfold with_planes, with_types, db0 in E. simpl in *.
  injection E as -> -> -> ->. auto.
Qed.

(** C1 (the code departs from it). In zero-filled memory the cache of a
    fresh context reads "key 0, no record": the first lookup of the ICAO
    id [000000] is answered from it with [NULL], while the scan of the
    index finds the loaded record with that id. *)
Theorem first_lookup_answered_by_unset_cache :
  let o := planedb_init zero_icao_world in
  let db := ready_db o in
  let w' := ready_world zero_icao_world o in
  o = Done (Some db, w')
  /\ last_icao db = 0 /\ last_pi db = 0
  /\ planedb_lookup (Some db) (Some (cstr "000000")) w' = Done (0, Some db)
  /\ plane_scan db (parse_hex (cstr "000000") 0) w' = Done 5
  /\ answers (lookups [ByIcao (cstr "000000")] db w')
     <> scans [ByIcao (cstr "000000")] db w'.
Proof.
  intros o db w'.
  split; [vm_compute; reflexivity|].
  split; [vm_compute; reflexivity|].
  split; [vm_compute; reflexivity|].
  split; [vm_compute; reflexivity|].
  split; [vm_compute; reflexivity|].
  vm_compute. discriminate.
Qed.

(** C2 (the code departs from it). A registration whose id is 0 is loaded
    and is in the index, yet [planedb_lookup] on its hex string returns
    [NULL] from the unset cache (zero-filled memory); and in recycled
    memory the lookup of an id that no record has runs off the list
    through the unset link of the last record. *)
Theorem loaded_record_not_found :
  (let o := planedb_init zero_icao_world in
   let db := ready_db o in
   let w' := ready_world zero_icao_world o in
   o = Done (Some db, w')
   /\ planes_loaded w' db [5]
        [plane_line "12345" "1200119" "JOHN DOE" "000000"] 0
   /\ (exists r, pi_heap w' !! 5 = Some r /\ pi_id r = 0)
   /\ parse_hex (cstr "0") 0 = 0
   /\ planedb_lookup (Some db) (Some (cstr "0")) w' = Done (0, Some db))
  /\ (let o := planedb_init dirty_ready_world in
      let db := ready_db o in
      let w' := ready_world dirty_ready_world o in
      o = Done (Some db, w')
      /\ planes_loaded w' db [5] [n12345_line] 6510615555426900570
      /\ planedb_lookup (Some db) (Some (cstr "ABCDEF")) w' = Fault).
Proof.
  split; intros o db w'.
  - split; [vm_compute; reflexivity|].
    split.
    { split; [|split; [|split]].
      - apply NoDup_ListNoDup. repeat constructor. simpl. tauto.
      - repeat constructor. eexists. split; [vm_compute; reflexivity|].
        repeat split; vm_compute; reflexivity.
      - cbn [lseg]. split; [vm_compute; reflexivity|]. split; [lia|].
        eexists. split; vm_compute; reflexivity.
      - discriminate. }
    split; [eexists; split; vm_compute; reflexivity|].
    split; vm_compute; reflexivity.
  - split; [vm_compute; reflexivity|].
    split; [|vm_compute; reflexivity].
    split; [|split; [|split]].
    + apply NoDup_ListNoDup. repeat constructor. simpl. tauto.
    + repeat constructor. eexists. split; [vm_compute; reflexivity|].
      repeat split; vm_compute; reflexivity.
    + cbn [lseg]. split; [vm_compute; reflexivity|]. split; [lia|].
      eexists. split; vm_compute; reflexivity.
    + discriminate.
Qed.

(** ** Duplicate ids and the unset cache *)

(** C10 (the code departs from it). Two type records with the id 1200119
    and two registrations with the ICAO id A1B2C3 are loaded, the later
    ones at the addresses 5 and 11. [planedb_init] never writes the cache
    fields, and here the block of the context is a recycled one whose
    cache words name those ids with the later records: the lookups of
    the two ids return the later records, which the scans never reach,
    and go on doing so, since a cache answer leaves the cache as it
    is. *)
Theorem later_record_returned_by_stale_cache :
  let o := planedb_init stale_cache_world in
  let db := ready_db o in
  let w' := ready_world stale_cache_world o in
  o = Done (Some db, w')
  /\ types_loaded w' db [2; 5]
       [cessna_line; type_line "1200119" "IMPOSTOR" "X" "1" "001" 80] 0
  /\ planes_loaded w' db [8; 11]
       [n12345_line; plane_line "99999" "7102802" "JANE ROE" "A1B2C3"] 0
  /\ first_with_key ti_id (ti_heap w') [2; 5] 1200119 2
  /\ first_with_key pi_id (pi_heap w') [8; 11]
       (parse_hex (cstr "A1B2C3") 0) 8
  /\ type_scan db 1200119 w' = Done 2
  /\ type_lookup db 1200119 w' = Done (5, db)
  /\ plane_scan db (parse_hex (cstr "A1B2C3") 0) w' = Done 8
  /\ planedb_lookup (Some db) (Some (cstr "A1B2C3")) w' = Done (11, Some db)
  /\ answers
       (lookups [ByModel 1200119; ByIcao (cstr "A1B2C3"); ByModel 1200119] db
          w')
     = Done [5; 11; 5].
Proof.
  intros o db w'.
  split; [by_evaluation|].
  split; [index_by_evaluation|].
  split; [index_by_evaluation|].
  split.
  { eexists [], [5], _.
    split; [reflexivity|]. split; [by_evaluation|]. split; [by_evaluation|].
    intros b rb Hb. now apply elem_of_nil in Hb. }
  split.
  { eexists [], [11], _.
    split; [reflexivity|]. split; [by_evaluation|]. split; [by_evaluation|].
    intros b rb Hb. now apply elem_of_nil in Hb. }
  split; [by_evaluation|]. split; [by_evaluation|].
  split; [by_evaluation|]. split; by_evaluation.
Qed.

(** ** The seats column of a short line *)

Lemma char_at_fgets_store line buf (pos : nat) :
  (pos <= length line)%nat ->
  char_at (fgets_store line buf) (Z.of_nat pos) = char_at line (Z.of_nat pos).
Proof.
  intros H. rewrite !char_at_drop. unfold fgets_store.
  destruct (decide (pos = length line)) as [->|Hne].
  - rewrite drop_app_length. rewrite drop_all. reflexivity.
  - rewrite drop_app_le by lia.
    destruct (drop pos line) as [|c rest] eqn:E; [|reflexivity].
    apply (f_equal length) in E. rewrite length_drop in E. simpl in E. lia.
Qed.

Lemma parse_int_loop_fgets_store line buf n : forall (pos : nat) val,
  (pos <= length line)%nat ->
  parse_int_loop n (fgets_store line buf) (Z.of_nat pos) val
  = parse_int_loop n line (Z.of_nat pos) val.
Proof.
  induction n as [|n IH]; intros pos val Hpos; [reflexivity|].
  cbn [parse_int_loop]. rewrite char_at_fgets_store by exact Hpos.
  destruct (is_digit (char_at line (Z.of_nat pos))) eqn:D; [|reflexivity].
  destruct (decide (pos = length line)) as [->|Hne].
  - exfalso. rewrite char_at_drop, drop_all in D. discriminate.
  - replace (Z.of_nat pos + 1) with (Z.of_nat (S pos)) by lia.
    apply IH. lia.
Qed.

(** A field that starts inside the string just read is read from that
    string alone. *)
Lemma parse_int_fgets_store line buf (k : nat) :
  (k <= length line)%nat ->
  parse_int (fgets_store line buf) (Z.of_nat k) = parse_int line (Z.of_nat k).
Proof. apply parse_int_loop_fgets_store. Qed.

(** C6 (the code departs from it). A 70-byte line is accepted, and its
    record gets the seat count of the line read before it: the bytes of
    [inbuf] behind the terminator still hold the earlier, longer line.
    The line itself has no byte at offset 72. *)
Theorem short_line_takes_stale_seats :
  let o := planedb_init stale_world in
  let db := ready_db o in
  let w' := ready_world stale_world o in
  o = Done (Some db, w')
  /\ file_lines (cessna_line ++ piper_line_70) = [cessna_line; piper_line_70]
  /\ strlen piper_line_70 = 70
  /\ parse_int piper_line_70 72 = 0
  /\ parse_int cessna_line 72 = 4
  /\ (exists r, ti_heap w' !! 5 = Some r
                /\ ti_id r = parse_int piper_line_70 0
                /\ ti_nrseats r = 4).
Proof.
  intros o db w'. repeat (split; [vm_compute; reflexivity|]).
  eexists. split; [vm_compute; reflexivity|]. split; vm_compute; reflexivity.
Qed.

(** ** The type category *)

(** With no second digit behind it, the digit in the type column gives a
    value within the table. *)
Lemma parse_int_one_digit str (k : Z) :
  is_digit (char_at str (k + 1)) = false -> 0 <= parse_int str k <= 9.
Proof.
  intros H. unfold parse_int. cbn [parse_int_loop].
  destruct (is_digit (char_at str k)) eqn:D; [|lia].
  rewrite H. unfold is_digit in D.
  apply andb_true_iff in D as [D1 D2].
  apply Z.leb_le in D1, D2. change (code "0") with 48 in *.
  change (code "9") with 57 in *.
  change (wrap32 (0 * 10)) with 0. rewrite wrap32_small; lia.
Qed.

(** C7 (the code departs from it). The loader stores whatever number the
    type column holds: a line with [12] there gives a record of type 12,
    and [typeInfoPrint] then indexes [typeTable] outside its 10 entries. *)
Theorem type_category_outside_table :
  let o := planedb_init category_12_world in
  let db := ready_db o in
  let w' := ready_world category_12_world o in
  o = Done (Some db, w')
  /\ (exists r, ti_heap w' !! 2 = Some r /\ ti_type r = 12)
  /\ typeTable_at 12 = None
  /\ typeInfoPrint 2 w' = Fault
  /\ ~ (forall a r, ti_heap w' !! a = Some r -> 0 <= ti_type r <= 9).
Proof.
  intros o db w'.
  split; [vm_compute; reflexivity|].
  assert (H : exists r, ti_heap w' !! 2 = Some r /\ ti_type r = 12).
  { eexists. split; vm_compute; reflexivity. }
  split; [exact H|]. split; [reflexivity|]. split; [vm_compute; reflexivity|].
  intros Hall. destruct H as (r & Hr & Ht). specialize (Hall 2 r Hr). lia.
Qed.

(** ** Failed construction *)

Lemma planedb_close_null w : planedb_close None w = Done (false, w).
Proof. reflexivity. Qed.

(** A context is returned only when both loads returned TRUE. *)
Lemma planedb_init_all_or_nothing w db w' :
  planedb_init w = Done (Some db, w') ->
  exists db0 w0 db1 w1,
    load_types db0 w0 = (true, db1, w1)
    /\ load_planes db1 w1 = (true, db, w').
Proof.
  unfold planedb_init. destruct (malloc w) as [[[blk junk]|] w1]; [|discriminate].
  set (db0 := mkPlaneDb 0 _ _ 0 _ _). set (w2 := set_live_dbs _ w1).
  destruct (load_types db0 w2) as [[ok1 db1] w3] eqn:L1.
  destruct ok1; cbn [negb];
    [|intros H; now apply planedb_close_never_ready in H].
  destruct (load_planes db1 w3) as [[ok2 db2] w4] eqn:L2.
  destruct ok2; cbn [negb];
    [|intros H; now apply planedb_close_never_ready in H].
  intros [= <- <-]. exists db0, w2, db1, w3. auto.
Qed.

(** C5 (the code departs from it). When the [strndup] for the
    manufacturer fails, [load_types] returns FALSE at once: the record
    just allocated is linked nowhere, so the [planedb_close] of
    [planedb_init] does not free it, and the file stays open.
    [planedb_init] returns [NULL] and never opens MASTER.txt. *)
Theorem record_leaks_when_strndup_fails :
  exists w',
    planedb_init strndup_fails_world = Done (None, w')
    /\ opened w' = ["ACFTREF.txt"%string]
    /\ open_files w' = ["ACFTREF.txt"%string]
    /\ live_dbs w' = 0%nat
    /\ ti_heap w' !! 2
       = Some (mkTypeInfo 0 (parse_int cessna_line 0) None None 0 0).
Proof.
  eexists. split; [vm_compute; reflexivity|].
  repeat split; vm_compute; reflexivity.
Qed.

(** C9 (the code departs from it). The link of the last record of a list
    is never written. In recycled memory, with MASTER.txt missing, the
    [planedb_close] of the failed [planedb_init] frees the one type
    record and then follows its link, which is no block. Closing [NULL]
    touches nothing, and in zero-filled memory the same failed
    construction frees all it built. *)
Theorem close_follows_unset_link :
  planedb_init dirty_world = Fault
  /\ (exists db w,
        load_types (mkPlaneDb 0 1515870810 6510615555426900570 0 1515870810
                      6510615555426900570)
          (set_live_dbs 1 (malloc dirty_world).2)
        = (true, db, w)
        /\ (exists r, ti_heap w !! types db = Some r
                      /\ ti_next r = 6510615555426900570)
        /\ ti_heap w !! 6510615555426900570 = None
        /\ planedb_close (Some db) w = Fault)
  /\ (forall w, planedb_close None w = Done (false, w))
  /\ (exists w',
        planedb_init no_master_world = Done (None, w')
        /\ ti_heap w' = ∅ /\ pi_heap w' = ∅ /\ live_strings w' = 0%nat
        /\ live_dbs w' = 0%nat /\ open_files w' = []).
Proof.
  split; [vm_compute; reflexivity|].
  split.
  { eexists _, _. split; [vm_compute; reflexivity|].
    split; [eexists; split; vm_compute; reflexivity|].
    split; vm_compute; reflexivity. }
  split; [exact planedb_close_null|].
  eexists. split; [vm_compute; reflexivity|].
  repeat split; vm_compute; reflexivity.
Qed.

(** ** What holds when the unwritten fields happen to read well *)

Section TotalScan.
Context {A : Type} (next key : A -> Z).

(** On a list whose last link is [NULL] the scan returns the first record
    with the key, or [NULL]. *)
Lemma list_scan_total (h : gmap Z A) head l id :
  NoDup l -> lseg next h head l 0 ->
  list_scan next key (scan_bound h) h head id =
    match first_match key h l id with
    | Some a => Done a
    | None => Done 0
    end.
Proof.
  intros Hnd Hseg. rewrite (list_scan_index next key h head l 0 id Hnd Hseg).
  destruct (first_match key h l id); [reflexivity|].
  pose proof (live_length h l Hnd
                (fun a Ha => proj2 (lseg_live next h l head 0 Hseg a Ha))).
  unfold scan_bound. destruct (S (size h) - length l)%nat eqn:E; [lia|].
  reflexivity.
Qed.
End TotalScan.

(** The round trip of C2, for a context whose caches are coherent and
    whose registration list ends in [NULL]: a loaded record is found by
    the hex string of its id, an id that no record has gives [NULL]. *)
Lemma lookup_round_trip w db paddrs pstrs :
  planes_loaded w db paddrs pstrs 0 -> caches_ok db w ->
  (forall a r icao,
     a ∈ paddrs -> pi_heap w !! a = Some r -> parse_hex icao 0 = pi_id r ->
     exists rec r' db',
       planedb_lookup (Some db) (Some icao) w = Done (rec, Some db')
       /\ pi_heap w !! rec = Some r' /\ pi_id r' = pi_id r)
  /\ (forall icao,
        (forall a r, a ∈ paddrs -> pi_heap w !! a = Some r ->
                     pi_id r <> parse_hex icao 0) ->
        exists db',
          planedb_lookup (Some db) (Some icao) w = Done (0, Some db')).
Proof.
  intros (Hnd & _ & Hseg & _) Hok.
  pose proof (lseg_live _ _ _ _ _ Hseg) as Hlive.
  assert (Hscan : forall id,
            plane_scan db id w =
            match first_match pi_id (pi_heap w) paddrs id with
            | Some a => Done a
            | None => Done 0
            end).
  { intros id. apply list_scan_total; assumption. }
  split.
  - intros a r icao Ha Hr Hid.
    destruct (planedb_lookup_coherent db icao w Hok) as (db' & Hl & _).
    rewrite Hscan in Hl.
    destruct (first_match pi_id (pi_heap w) paddrs (parse_hex icao 0))
      as [b|] eqn:E.
    + destruct (first_match_Some _ _ _ _ _ E) as (l1 & l2 & rb & _ & Hb & Hk & _).
      exists b, rb, db'. repeat split; [exact Hl|exact Hb|congruence].
    + exfalso.
      apply (first_match_None pi_id _ _ _ (fun c Hc => proj2 (Hlive c Hc)) E
               a r Ha Hr).
      congruence.
  - intros icao Habsent.
    destruct (planedb_lookup_coherent db icao w Hok) as (db' & Hl & _).
    rewrite Hscan in Hl.
    destruct (first_match pi_id (pi_heap w) paddrs (parse_hex icao 0))
      as [b|] eqn:E; [|eauto].
    exfalso.
    destruct (first_match_Some _ _ _ _ _ E) as (l1 & l2 & rb & -> & Hb & Hk & _).
    apply (Habsent b rb); [|exact Hb|exact Hk].
    apply elem_of_app. right. apply list_elem_of_here.
Qed.

(** ** The order of the loads *)

Lemma load_types_loop_opened fname lines : forall prev db w,
  opened (load_types_loop fname lines prev db w).2 = opened w.
Proof.
  induction lines as [|line rest IH]; intros prev db w; [reflexivity|].
  cbn [load_types_loop]. cbn [inbuf set_inbuf].
  destruct (strlen (fgets_store line (inbuf w)) <? 68); [now rewrite IH|].
  unfold typeInfoCreate, malloc. cbn [allocator mallocs set_inbuf].
  destruct (allocator w (mallocs w)); [reflexivity|].
  cbn [brk set_inbuf]. destruct (brk w =? 0); [reflexivity|].
  unfold pickup_w, malloc, ti_field. world_fields.
  destruct (allocator w (S (mallocs w))); [reflexivity|]. world_fields.
  destruct (allocator w (S (S (mallocs w)))); [reflexivity|].
  destruct (prev =? 0); now rewrite IH.
Qed.

Lemma load_planes_loop_opened fname lines : forall prev db w,
  opened (load_planes_loop fname lines prev db w).2 = opened w.
Proof.
  induction lines as [|line rest IH]; intros prev db w; [reflexivity|].
  cbn [load_planes_loop]. cbn [inbuf set_inbuf].
  destruct (strlen (fgets_store line (inbuf w)) <? 610); [now rewrite IH|].
  unfold planeInfoCreate, malloc. cbn [allocator mallocs set_inbuf].
  destruct (allocator w (mallocs w)); [reflexivity|].
  cbn [brk set_inbuf]. destruct (brk w =? 0); [reflexivity|].
  unfold pickup_w, malloc, pi_field. world_fields.
  destruct (allocator w (S (mallocs w))); [reflexivity|]. world_fields.
  destruct (allocator w (S (S (mallocs w)))); [reflexivity|].
  destruct (prev =? 0); now rewrite IH.
Qed.

Lemma load_types_opened db w :
  opened (load_types db w).2 = opened w ++ ["ACFTREF.txt"%string].
Proof.
  unfold load_types, fopen. destruct (disk w "ACFTREF.txt"%string);
    [now rewrite load_types_loop_opened | reflexivity].
Qed.

Lemma load_planes_opened db w :
  opened (load_planes db w).2 = opened w ++ ["MASTER.txt"%string].
Proof.
  unfold load_planes, fopen. destruct (disk w "MASTER.txt"%string);
    [now rewrite load_planes_loop_opened | reflexivity].
Qed.

(** The part of C5 that holds: a context that is returned comes from a
    run that opened ACFTREF.txt first and MASTER.txt second, and both
    loads returned TRUE. *)
Lemma planedb_init_order w db w' :
  planedb_init w = Done (Some db, w') ->
  opened w' = opened w ++ ["ACFTREF.txt"; "MASTER.txt"]%string.
Proof.
  unfold planedb_init, malloc.
  destruct (allocator w (mallocs w)) as [|junk]; [discriminate|].
  set (db0 := mkPlaneDb 0 _ _ 0 _ _). set (w2 := set_live_dbs _ _).
  pose proof (load_types_opened db0 w2) as O1.
  destruct (load_types db0 w2) as [[ok1 db1] w3].
  destruct ok1; cbn [negb];
    [|intros H; now apply planedb_close_never_ready in H].
  pose proof (load_planes_opened db1 w3) as O2.
  destruct (load_planes db1 w3) as [[ok2 db2] w4].
  destruct ok2; cbn [negb];
    [|intros H; now apply planedb_close_never_ready in H].
  intros [= <- <-]. cbn [snd] in *. rewrite O2, O1. cbn [opened w2 set_live_dbs].
  now rewrite <- app_assoc.
Qed.

(** ** The bounds of the loops are never what ends them *)

Section ScanBound.
Context {A : Type} (next key : A -> Z).

(** [a] is a live record whose key is not [id]. *)
Let passes (h : gmap Z A) (id a : Z) : Prop :=
  exists r, h !! a = Some r /\ key r <> id.

Lemma scan_skip (h : gmap Z A) id l : forall p q fuel,
  lseg next h p l q -> Forall (passes h id) l -> (length l < fuel)%nat ->
  list_scan next key fuel h p id
  = list_scan next key (fuel - length l) h q id.
Proof.
  induction l as [|a l IH]; intros p q fuel Hseg Hall Hf; simpl in *.
  - subst q. now rewrite Nat.sub_0_r.
  - destruct Hseg as (-> & Hnz & r & Hr & Hrest).
    apply Forall_cons in Hall as [(r' & Hr' & Hk) Hall].
    assert (r' = r) by congruence. subst r'.
    destruct fuel as [|fuel]; [lia|]. simpl.
    destruct (Z.eqb_spec a 0); [contradiction|]. rewrite Hr.
    destruct (Z.eqb_spec (key r) id); [contradiction|].
    apply IH; [exact Hrest|exact Hall|lia].
Qed.

Lemma scan_short (h : gmap Z A) id l : forall p q fuel,
  lseg next h p l q -> Forall (passes h id) l -> (fuel <= length l)%nat ->
  list_scan next key fuel h p id = Hang.
Proof.
  induction l as [|a l IH]; intros p q fuel Hseg Hall Hf; simpl in *.
  - replace fuel with 0%nat by lia. reflexivity.
  - destruct fuel as [|fuel]; [reflexivity|].
    destruct Hseg as (-> & Hnz & r & Hr & Hrest).
    apply Forall_cons in Hall as [(r' & Hr' & Hk) Hall].
    assert (r' = r) by congruence. subst r'. simpl.
    destruct (Z.eqb_spec a 0); [contradiction|]. rewrite Hr.
    destruct (Z.eqb_spec (key r) id); [contradiction|].
    apply (IH _ q); [exact Hrest|exact Hall|lia].
Qed.

(** A walk that comes back to a record it has passed never ends. *)
Lemma cycle_hangs (h : gmap Z A) id a c :
  lseg next h a c a -> c <> [] -> Forall (passes h id) c ->
  forall fuel, list_scan next key fuel h a id = Hang.
Proof.
  intros Hseg Hne Hall fuel.
  induction fuel as [fuel IH] using lt_wf_ind.
  destruct (le_lt_dec fuel (length c)) as [Hle|Hlt].
  - now apply (scan_short h id c a a).
  - rewrite (scan_skip h id c a a fuel Hseg Hall Hlt).
    apply IH. destruct c; [congruence|simpl; lia].
Qed.

Lemma scan_more (h : gmap Z A) id fuel : forall p k,
  list_scan next key fuel h p id <> Hang ->
  list_scan next key (fuel + k) h p id = list_scan next key fuel h p id.
Proof.
  induction fuel as [|fuel IH]; intros p k H; [now contradict H|]. simpl in *.
  destruct (p =? 0); [reflexivity|].
  destruct (h !! p) as [r|]; [|reflexivity].
  destruct (key r =? id); [reflexivity|]. now apply IH.
Qed.

(** A walk that ends has passed some records, none with the key, and
    ends at the first step from where it has come to. *)
Lemma scan_trace (h : gmap Z A) id fuel : forall p,
  list_scan next key fuel h p id <> Hang ->
  exists l q,
    lseg next h p l q /\ Forall (passes h id) l /\ (length l < fuel)%nat
    /\ list_scan next key 1 h q id = list_scan next key fuel h p id
    /\ list_scan next key 1 h q id <> Hang.
Proof.
  induction fuel as [|fuel IH]; intros p H; [now contradict H|].
  cbn [list_scan] in H |- *.
  destruct (Z.eqb_spec p 0) as [E|Hp].
  { subst p. exists [], 0. repeat split; simpl; auto; try lia; discriminate. }
  destruct (h !! p) as [r|] eqn:Hr.
  2:{ exists [], p. cbn [list_scan].
      destruct (Z.eqb_spec p 0); [contradiction|]. rewrite Hr.
      repeat split; simpl; auto; try lia; discriminate. }
  destruct (Z.eqb_spec (key r) id) as [Hk|Hk].
  { exists [], p. cbn [list_scan].
    destruct (Z.eqb_spec p 0); [contradiction|]. rewrite Hr.
    destruct (Z.eqb_spec (key r) id); [|contradiction].
    repeat split; simpl; auto; try lia; discriminate. }
  destruct (IH (next r) H) as (l & q & Hseg & Hall & Hlen & Hres & Hend).
  exists (p :: l), q. split; [simpl; eauto 6|].
  split; [constructor; [exists r; auto|exact Hall]|].
  split; [simpl; lia|]. split; assumption.
Qed.

Lemma lseg_split (h : gmap Z A) l1 : forall p l2 q,
  lseg next h p (l1 ++ l2) q ->
  exists m, lseg next h p l1 m /\ lseg next h m l2 q.
Proof.
  induction l1 as [|a l1 IH]; intros p l2 q H; simpl in *; [eauto|].
  destruct H as (-> & Hnz & r & Hr & Hrest).
  destruct (IH _ _ _ Hrest) as (m & H1 & H2). exists m. eauto 8.
Qed.

Lemma trace_NoDup (h : gmap Z A) id l : forall p q,
  lseg next h p l q -> Forall (passes h id) l ->
  list_scan next key 1 h q id <> Hang -> NoDup l.
Proof.
  induction l as [|a l IH]; intros p q Hseg Hall Hend; [constructor|].
  pose proof Hseg as Hwhole. pose proof Hall as Hallwhole.
  cbn [lseg] in Hseg. destruct Hseg as (-> & Hnz & r & Hr & Hrest).
  apply Forall_cons in Hall as [Ha Hall].
  apply NoDup_cons. split; [|now apply (IH _ _ Hrest)].
  intros Hin. apply list_elem_of_split in Hin as (l2 & l3 & ->).
  destruct (lseg_split h l2 _ _ _ Hrest) as (m & H2 & H3).
  assert (m = a) by (cbn [lseg] in H3; now destruct H3).
  subst m.
  assert (Hcycle : lseg next h a (a :: l2) a) by (cbn [lseg]; eauto 6).
  apply Forall_app in Hall as [Hall2 _].
  pose proof (cycle_hangs h id a (a :: l2) Hcycle ltac:(discriminate)
                ltac:(now constructor)
                (S (length (a :: l2 ++ a :: l3)))) as Hhang.
  rewrite (scan_skip h id (a :: l2 ++ a :: l3) a q _ Hwhole Hallwhole
             (Nat.lt_succ_diag_r _)) in Hhang.
  replace (S (length (a :: l2 ++ a :: l3)) - length (a :: l2 ++ a :: l3))%nat
    with 1%nat in Hhang by lia.
  contradiction.
Qed.

(** [scan_bound] steps are enough: a scan that ends with any bound ends
    the same way with [scan_bound], so [Hang] from a lookup means that the
    loop of the source never ends. *)
Lemma scan_bound_enough (h : gmap Z A) id p fuel :
  list_scan next key fuel h p id <> Hang ->
  list_scan next key (scan_bound h) h p id = list_scan next key fuel h p id.
Proof.
  intros H.
  destruct (scan_trace h id fuel p H) as (l & q & Hseg & Hall & _ & Hres & Hend).
  pose proof (trace_NoDup h id l p q Hseg Hall Hend) as Hnd.
  pose proof (live_length h l Hnd
                (fun a Ha => proj2 (lseg_live next h l p q Hseg a Ha))) as Hlen.
  unfold scan_bound.
  rewrite (scan_skip h id l p q (S (size h)) Hseg Hall) by lia.
  rewrite <- Hres.
  replace (S (size h) - length l)%nat with (1 + (size h - length l))%nat by lia.
  now apply scan_more.
Qed.

Lemma scan_hang_forever (h : gmap Z A) id p :
  list_scan next key (scan_bound h) h p id = Hang ->
  forall fuel, list_scan next key fuel h p id = Hang.
Proof.
  intros H fuel.
  destruct (list_scan next key fuel h p id) as [a| |] eqn:E; [| |reflexivity].
  - rewrite <- (scan_bound_enough h id p fuel) in E by (rewrite E; discriminate).
    congruence.
  - rewrite <- (scan_bound_enough h id p fuel) in E by (rewrite E; discriminate).
    congruence.
Qed.
End ScanBound.

Lemma free_types_returns fuel : forall trec w,
  (size (ti_heap w) < fuel)%nat -> free_types fuel trec w <> Hang.
Proof.
  induction fuel as [|fuel IH]; intros trec w Hf; [lia|]. cbn [free_types].
  destruct (trec =? 0) eqn:E0; [discriminate|].
  destruct (ti_heap w !! trec) as [r|] eqn:Hr; [|discriminate].
  unfold typeInfoDelete. rewrite E0, Hr. apply IH. cbn [ti_heap set_ti_heap].
  assert (E : size (ti_heap w) = S (size (delete trec (ti_heap w)))).
  { rewrite <- (insert_delete_id (ti_heap w) trec r Hr) at 1.
    apply map_size_insert_None, lookup_delete_eq. }
  lia.
Qed.

Lemma free_planes_returns fuel : forall prec w,
  (size (pi_heap w) < fuel)%nat -> free_planes fuel prec w <> Hang.
Proof.
  induction fuel as [|fuel IH]; intros prec w Hf; [lia|]. cbn [free_planes].
  destruct (prec =? 0) eqn:E0; [discriminate|].
  destruct (pi_heap w !! prec) as [r|] eqn:Hr; [|discriminate].
  unfold planeInfoDelete. rewrite E0, Hr. apply IH. cbn [pi_heap set_pi_heap].
  assert (E : size (pi_heap w) = S (size (delete prec (pi_heap w)))).
  { rewrite <- (insert_delete_id (pi_heap w) prec r Hr) at 1.
    apply map_size_insert_None, lookup_delete_eq. }
  lia.
Qed.

(** [planedb_close] always returns or faults. *)
Lemma planedb_close_returns db w : planedb_close db w <> Hang.
Proof.
  destruct db as [d|]; [|discriminate]. unfold planedb_close.
  pose proof (free_types_returns (scan_bound (ti_heap w)) (types d) w
                ltac:(unfold scan_bound; lia)) as H1.
  destruct (free_types _ _ _) as [w1| |]; try discriminate; [|contradiction].
  pose proof (free_planes_returns (scan_bound (pi_heap w1)) (planes d) w1
                ltac:(unfold scan_bound; lia)) as H2.
  destruct (free_planes _ _ _) as [w2| |]; try discriminate. contradiction.
Qed.

(** ** The whole path once *)

(** Looking up [A1B2C3] in the sample files returns the registration, and
    printing it resolves the Cessna 172 with its category text and seat
    count; closing the context afterwards frees everything. *)
Example end_to_end :
  let o := planedb_init sample_world in
  let db := ready_db o in
  let w := ready_world sample_world o in
  o = Done (Some db, w)
  /\ planedb_lookup (Some db) (Some (cstr "A1B2C3")) w
     = Done (5, Some (mkPlaneDb 2 0 0 5 10597059 5))
  /\ planeInfoPrint (mkPlaneDb 2 0 0 5 10597059 5) 5 w
     = Done
         (mkPlaneReport (Some (cstr "12345")) (Some (cstr "JOHN DOE"))
            (Some 1200119)
            (Some
               (mkTypeReport (Some (cstr "CESSNA")) (Some (cstr "172")) 4
                  "Fixed wing single engine" 4)),
          mkPlaneDb 2 1200119 2 5 10597059 5)
  /\ (exists w',
        planedb_close (Some db) w = Done (true, w')
        /\ ti_heap w' = ∅ /\ pi_heap w' = ∅ /\ live_strings w' = 0%nat
        /\ live_dbs w' = 0%nat /\ open_files w' = []).
Proof.
  intros o db w.
  split; [by_evaluation|]. split; [by_evaluation|]. split; [by_evaluation|].
  eexists. split; [by_evaluation|].
  split; [by_evaluation|]. split; [by_evaluation|]. split; [by_evaluation|].
  split; by_evaluation.
Qed.

(** * Further properties *)

(** ** The decimal extractor *)

Lemma dec_digit_value_code c :
  dec_digit_value c = if is_digit c then Some (code c - code "0") else None.
Proof. destruct c as [[] [] [] [] [] [] [] []]; reflexivity. Qed.

Lemma dec_digit_value_range c d : dec_digit_value c = Some d -> 0 <= d < 10.
Proof.
  destruct c as [[] [] [] [] [] [] [] []]; vm_compute; intros H;
    first [discriminate | injection H as <-; split; discriminate || reflexivity].
Qed.

Lemma parse_int_loop_digits n str (pos : nat) val :
  parse_int_loop n str (Z.of_nat pos) val
  = fold_left (fun acc d => wrap32 (wrap32 (10 * acc) + d))
      (dec_digits n (drop pos str)) val.
Proof.
  revert pos val. induction n as [|n IH]; intros pos val; simpl; [reflexivity|].
  rewrite char_at_drop.
  destruct (drop pos str) as [|c rest] eqn:E; simpl.
  - reflexivity.
  - apply drop_S_nth in E. rewrite dec_digit_value_code.
    replace (Z.of_nat pos + 1) with (Z.of_nat (S pos)) by lia.
    replace (val * 10) with (10 * val) by lia.
    destruct (is_digit c); [rewrite IH, E; reflexivity|reflexivity].
Qed.

Lemma dec_digits_length n s : (length (dec_digits n s) <= n)%nat.
Proof.
  revert s. induction n as [|n IH]; intros [|c s]; simpl; try lia.
  destruct (dec_digit_value c); simpl; [specialize (IH s)|]; lia.
Qed.

Lemma dec_digits_range n s : Forall (fun d => 0 <= d < 10) (dec_digits n s).
Proof.
  revert s. induction n as [|n IH]; intros [|c s]; simpl; auto.
  destruct (dec_digit_value c) eqn:E; auto.
  constructor; [eapply dec_digit_value_range; eauto | apply IH].
Qed.

Lemma dec_digits_take n s : dec_digits n (take n s) = dec_digits n s.
Proof.
  revert s. induction n as [|n IH]; intros [|c s]; simpl; auto.
  destruct (dec_digit_value c); [rewrite IH|]; reflexivity.
Qed.

Lemma parse_int_wrap str (offset : nat) :
  parse_int str (Z.of_nat offset)
  = wrap32 (base_value 10 (dec_digits 10 (drop offset str))).
Proof.
  unfold parse_int, base_value. rewrite parse_int_loop_digits.
  change 0 with (wrap32 0) at 1. apply fold_wrap32.
Qed.

(** X1. [parse_int] looks at no more than the 10 characters at the offset,
    takes the decimal digits up to the first other character and returns
    their value as a 32-bit [int]: the value itself whenever it is below
    [2^31] (always so for up to 9 digits), wrapped otherwise; 0 when there
    is no digit at the offset. *)
Theorem parse_int_spec (str : list ascii) (offset : nat) :
  let ds := dec_digits 10 (drop offset str) in
  parse_int str (Z.of_nat offset) = wrap32 (base_value 10 ds)
  /\ (base_value 10 ds < 2 ^ 31 ->
      parse_int str (Z.of_nat offset) = base_value 10 ds)
  /\ ((length ds <= 9)%nat ->
      parse_int str (Z.of_nat offset) = base_value 10 ds)
  /\ (ds = [] -> parse_int str (Z.of_nat offset) = 0)
  /\ (forall str' : list ascii,
        take 10 (drop offset str') = take 10 (drop offset str) ->
        parse_int str' (Z.of_nat offset) = parse_int str (Z.of_nat offset)).
Proof.
  intros ds.
  pose proof (dec_digits_range 10 (drop offset str)) as Hrng.
  pose proof (base_value_bound 10 _ 0 ltac:(lia) Hrng ltac:(lia)) as Hb.
  fold ds in Hrng, Hb. fold (base_value 10 ds) in Hb.
  assert (Hw : parse_int str (Z.of_nat offset) = wrap32 (base_value 10 ds))
    by apply parse_int_wrap.
  split; [exact Hw|]. split; [|split; [|split]].
  - intros Hlt. rewrite Hw. apply wrap32_small. lia.
  - intros H9. rewrite Hw. apply wrap32_small.
    assert (10 ^ Z.of_nat (length ds) <= 10 ^ 9)
      by (apply Z.pow_le_mono_r; lia).
    lia.
  - intros E. rewrite Hw, E. reflexivity.
  - intros str' E. rewrite !parse_int_wrap.
    rewrite <- (dec_digits_take 10 (drop offset str')), E, dec_digits_take.
    reflexivity.
Qed.

Lemma parse_int_spec_witness :
  parse_int (cstr "1200119 CESSNA") 0 = 1200119
  /\ parse_int (cstr "2147483647") 0 = 2147483647
  /\ parse_int (cstr "N12345") 0 = 0
  /\ parse_int (cstr "12345678901234") 0 = parse_int (cstr "1234567890") 0.
Proof.
  split; [|split; [|split]].
  - apply (proj1 (proj2 (proj2 (parse_int_spec (cstr "1200119 CESSNA") 0)))).
    simpl. lia.
  - apply (proj1 (proj2 (parse_int_spec (cstr "2147483647") 0))).
    vm_compute. reflexivity.
  - apply (proj1 (proj2 (proj2 (proj2 (parse_int_spec (cstr "N12345") 0))))).
    reflexivity.
  - apply (proj2 (proj2 (proj2 (proj2
             (parse_int_spec (cstr "1234567890") 0))))).
    reflexivity.
Defined.

(** ** Letter case of hexadecimal digits *)

Lemma hex_digit_value_lower c :
  hex_digit_value (to_lower c) = hex_digit_value c.
Proof. destruct c as [[] [] [] [] [] [] [] []]; reflexivity. Qed.

Lemma hex_digits_lower n s :
  hex_digits n (map to_lower s) = hex_digits n s.
Proof.
  revert s. induction n as [|n IH]; intros [|c s]; simpl; auto.
  rewrite hex_digit_value_lower.
  destruct (hex_digit_value c); [rewrite IH|]; reflexivity.
Qed.

Lemma parse_hex_lower str (offset : nat) :
  parse_hex (map to_lower str) (Z.of_nat offset)
  = parse_hex str (Z.of_nat offset).
Proof.
  rewrite !parse_hex_wrap. change (map to_lower str) with (to_lower <$> str).
  rewrite <- fmap_drop. change (to_lower <$> drop offset str)
    with (map to_lower (drop offset str)).
  now rewrite hex_digits_lower.
Qed.

(** X2. The hex extractor does not tell upper-case from lower-case
    digits: two strings that differ only in the case of letters give the
    same id, and [planedb_lookup] answers them alike. *)
Theorem lookup_ignores_case (s s' : list ascii) :
  map to_lower s = map to_lower s' ->
  (forall offset : nat,
     parse_hex s (Z.of_nat offset) = parse_hex s' (Z.of_nat offset))
  /\ (forall db w,
        planedb_lookup db (Some s) w = planedb_lookup db (Some s') w).
Proof.
  intros E.
  assert (H : forall offset : nat,
            parse_hex s (Z.of_nat offset) = parse_hex s' (Z.of_nat offset)).
  { intros offset.
    rewrite <- (parse_hex_lower s), <- (parse_hex_lower s'), E. reflexivity. }
  split; [exact H|].
  intros [d|] w; [|reflexivity]. unfold planedb_lookup.
  change 0 with (Z.of_nat 0). now rewrite (H 0%nat).
Qed.

Lemma lookup_ignores_case_witness :
  parse_hex (cstr "a1b2c3") 0 = parse_hex (cstr "A1B2C3") 0
  /\ planedb_lookup (Some empty_db) (Some (cstr "a1b2c3")) sample_world
     = planedb_lookup (Some empty_db) (Some (cstr "A1B2C3")) sample_world.
Proof.
  pose proof (lookup_ignores_case (cstr "a1b2c3") (cstr "A1B2C3") eq_refl)
    as [H1 H2].
  split; [exact (H1 0%nat) | apply H2].
Defined.

(** ** [pickup] at and beyond its edges *)

Lemma pickup_last_range str p0 : forall (n : nat) cur,
  p0 - 1 <= cur -> p0 - 1 <= pickup_last n str p0 cur <= cur.
Proof.
  induction n as [|n IH]; intros cur H; simpl; [lia|].
  destruct (Z.geb_spec cur p0); [|lia].
  destruct (negb (isspace (char_at str cur))); [lia|].
  specialize (IH (cur - 1) ltac:(lia)). lia.
Qed.

Lemma strndup_copy_length s : forall n,
  0 <= n -> Z.of_nat (length (strndup_copy s n)) <= n.
Proof.
  induction s as [|c s IH]; intros n Hn; simpl; [lia|].
  destruct (Z.leb_spec n 0); simpl; [lia|].
  destruct (Ascii.eqb c NUL); simpl; [lia|].
  specialize (IH (n - 1) ltac:(lia)). lia.
Qed.

Lemma strndup_copy_no_NUL s : forall n, NUL ∉ strndup_copy s n.
Proof.
  induction s as [|c s IH]; intros n; simpl; [apply not_elem_of_nil|].
  destruct (n <=? 0); simpl; [apply not_elem_of_nil|].
  destruct (Ascii.eqb_spec c NUL); [apply not_elem_of_nil|].
  intros H. apply elem_of_cons in H as [H|H]; [congruence|].
  now apply (IH (n - 1)).
Qed.

Lemma strndup_copy_prefix s : forall n, strndup_copy s n `prefix_of` s.
Proof.
  induction s as [|c s IH]; intros n; simpl; [reflexivity|].
  destruct ((n <=? 0) || Ascii.eqb c NUL); [apply prefix_nil|].
  apply prefix_cons, IH.
Qed.

Lemma strndup_copy_all s : forall n,
  strlen s <= n -> strndup_copy s n = take (Z.to_nat (strlen s)) s.
Proof.
  induction s as [|c s IH]; intros n Hn; simpl in *; [reflexivity|].
  destruct (Ascii.eqb c NUL).
  - rewrite orb_true_r. reflexivity.
  - pose proof (strlen_bounds s).
    destruct (Z.leb_spec n 0); [lia|]. simpl.
    rewrite IH by lia.
    replace (Z.to_nat (1 + strlen s)) with (S (Z.to_nat (strlen s))) by lia.
    reflexivity.
Qed.

(** X3. Whatever the buffer holds, a [pickup] whose allocation succeeds
    returns a string of at most [p1 - p0] characters, without a NUL,
    that is a prefix of the bytes at [p0]; it returns [NULL] only when
    the allocation fails. *)
Theorem pickup_bounds (str : list ascii) (p0 p1 : Z) :
  0 <= p0 <= p1 -> p1 < 2 ^ 31 ->
  (exists s,
     pickup true str p0 p1 = Some s
     /\ Z.of_nat (length s) <= p1 - p0
     /\ (NUL ∉ s)
     /\ s `prefix_of` drop (Z.to_nat p0) str)
  /\ pickup false str p0 p1 = None.
Proof.
  intros Hp Hint. split; [|reflexivity]. unfold pickup.
  pose proof (pickup_last_range str p0 (Z.to_nat (p1 - p0)) (p1 - 1)
                ltac:(lia)) as Hl.
  set (last := pickup_last _ _ _ _) in *.
  eexists. split; [reflexivity|].
  unfold to_size_t. rewrite Z.mod_small by lia.
  split; [|split].
  - pose proof (strndup_copy_length (drop (Z.to_nat p0) str)
                  (last - p0 + 1) ltac:(lia)). lia.
  - apply strndup_copy_no_NUL.
  - apply strndup_copy_prefix.
Qed.

Lemma pickup_bounds_witness :
  exists s,
    pickup true (cstr "N123  SMITH") 0 6 = Some s
    /\ Z.of_nat (length s) <= 6 - 0.
Proof.
  destruct (proj1 (pickup_bounds (cstr "N123  SMITH") 0 6
                     ltac:(lia) ltac:(lia)))
    as (s & Hs & Hlen & _).
  exists s. split; [exact Hs|exact Hlen].
Defined.

(** X4. An inverted span is not empty for [pickup]: with [p1 < p0] the
    loop does not run, the length [p1 - p0] is negative, and as a
    [size_t] it is huge, so [strndup] copies everything from [p0] to the
    end of the string. *)
Theorem pickup_inverted_span (str : list ascii) (p0 p1 : Z) :
  0 <= p1 < p0 -> p0 <= strlen str -> strlen str < 2 ^ 63 ->
  pickup true str p0 p1 = Some (span str p0 (strlen str)).
Proof.
  intros Hp Hlen Hbig. unfold pickup, span.
  replace (Z.to_nat (p1 - p0)) with 0%nat by lia. cbn [pickup_last].
  unfold to_size_t.
  replace ((p1 - 1 - p0 + 1) mod 2 ^ 64) with (2 ^ 64 + (p1 - p0)).
  2:{ replace (p1 - 1 - p0 + 1) with ((p1 - p0) + 1 * 2 ^ 64 - 2 ^ 64) by lia.
      symmetry.
      replace (p1 - p0 + 1 * 2 ^ 64 - 2 ^ 64)
        with (2 ^ 64 + (p1 - p0) + (-1) * 2 ^ 64) by lia.
      rewrite Z.mod_add by lia. apply Z.mod_small. lia. }
  pose proof (strlen_drop str (Z.to_nat p0) ltac:(lia)) as Hd.
  rewrite strndup_copy_all by lia.
  do 2 f_equal. lia.
Qed.

Lemma pickup_inverted_span_witness :
  pickup true (cstr "hello") 3 1 = Some (cstr "lo").
Proof.
  apply (pickup_inverted_span (cstr "hello") 3 1);
    [lia | simpl; lia | simpl; lia].
Defined.

(** ** Creating, deleting and printing records *)

(** X5. [typeInfoPrint] prints a live record exactly when its type is
    within the ten entries of [typeTable], with the description at that
    index; for any other type the table access is out of bounds, and for
    [NULL] the function dereferences it after printing "None". *)
Theorem typeInfoPrint_table (ti : Z) (w : world) :
  heap_ok w ->
  (ti = 0 -> typeInfoPrint ti w = Fault)
  /\ (forall r, ti_heap w !! ti = Some r ->
        (0 <= ti_type r <= 9 ->
         exists d,
           nth_error typeTable (Z.to_nat (ti_type r)) = Some d
           /\ typeInfoPrint ti w
              = Done (mkTypeReport (ti_manufacturer r) (ti_model r)
                        (ti_type r) d (ti_nrseats r)))
        /\ (~ 0 <= ti_type r <= 9 -> typeInfoPrint ti w = Fault)).
Proof.
  intros (_ & Ht & _). split.
  - intros ->. unfold typeInfoPrint.
    destruct (ti_heap w !! 0) as [r|] eqn:E; [|reflexivity].
    specialize (Ht 0 ltac:(eauto)). lia.
  - intros r Hr. unfold typeInfoPrint, typeTable_at. rewrite Hr. split.
    + intros Hrange. destruct (Z.ltb_spec (ti_type r) 0); [lia|].
      destruct (nth_error typeTable (Z.to_nat (ti_type r))) as [d|] eqn:E.
      * exists d. auto.
      * apply nth_error_None in E. simpl in E. lia.
    + intros Hout. destruct (Z.ltb_spec (ti_type r) 0); [reflexivity|].
      destruct (nth_error typeTable (Z.to_nat (ti_type r))) as [d|] eqn:E;
        [|reflexivity].
      assert (Z.to_nat (ti_type r) < length typeTable)%nat
        by (apply nth_error_Some; congruence).
      simpl in *. lia.
Qed.

Lemma typeInfoPrint_table_witness :
  let o := planedb_init sample_world in
  let w := ready_world sample_world o in
  exists d,
    typeInfoPrint 2 w
    = Done (mkTypeReport (Some (cstr "CESSNA")) (Some (cstr "172")) 4 d 4).
Proof.
  intros o w.
  destruct (proj2 (typeInfoPrint_table 2 w
                     ltac:(apply (planedb_init_ready sample_world
                                    (ready_db o) w (heap_ok_boot _ _));
                           by_evaluation))
              (mkTypeInfo 0 1200119 (Some (cstr "CESSNA")) (Some (cstr "172"))
                 4 4)
              ltac:(by_evaluation)) as [Hin _].
  destruct (Hin ltac:(simpl; lia)) as (d & _ & Hd).
  exists d. exact Hd.
Defined.

(** X6. A record created by [typeInfoCreate] or [planeInfoCreate] sits at
    a fresh non-null address with every field but [next] cleared;
    deleting it gives the heap back as it was, and deleting it once more
    frees a block that is no longer live. A failed allocation gives
    [NULL] and leaves the heap alone. *)
Theorem create_delete_round_trip (w : world) :
  heap_ok w ->
  (forall junk, allocator w (mallocs w) = Block junk ->
     let '(ti, w1) := typeInfoCreate w in
     ti = brk w /\ ti <> 0 /\ ti_heap w !! ti = None
     /\ ti_heap w1 !! ti = Some (mkTypeInfo (junk_word junk 0) 0 None None 0 0)
     /\ exists w2,
          typeInfoDelete ti w1 = Done w2
          /\ ti_heap w2 = ti_heap w /\ pi_heap w2 = pi_heap w
          /\ live_strings w2 = live_strings w
          /\ typeInfoDelete ti w2 = Fault)
  /\ (forall junk, allocator w (mallocs w) = Block junk ->
        let '(pi, w1) := planeInfoCreate w in
        pi = brk w /\ pi <> 0 /\ pi_heap w !! pi = None
        /\ pi_heap w1 !! pi = Some (mkPlaneInfo (junk_word junk 0) 0 None 0 None)
        /\ exists w2,
             planeInfoDelete pi w1 = Done w2
             /\ pi_heap w2 = pi_heap w /\ ti_heap w2 = ti_heap w
             /\ live_strings w2 = live_strings w
             /\ planeInfoDelete pi w2 = Fault)
  /\ (allocator w (mallocs w) = ENOMEM ->
      (typeInfoCreate w).1 = 0 /\ ti_heap (typeInfoCreate w).2 = ti_heap w
      /\ (planeInfoCreate w).1 = 0
      /\ pi_heap (planeInfoCreate w).2 = pi_heap w).
Proof.
  intros Hok. pose proof Hok as (Hbrk & Ht & Hp).
  pose proof (heap_ok_fresh_type w Hok) as Hft.
  pose proof (heap_ok_fresh_plane w Hok) as Hfp.
  assert (Hz : (brk w =? 0) = false) by (apply Z.eqb_neq; lia).
  split; [|split].
  - intros junk A. unfold typeInfoCreate, malloc. rewrite A.
    split; [reflexivity|]. split; [lia|]. split; [exact Hft|].
    cbn [ti_heap set_ti_heap]. rewrite lookup_insert_eq.
    split; [reflexivity|].
    eexists. split.
    { unfold typeInfoDelete. rewrite Hz. cbn [ti_heap set_ti_heap].
      rewrite lookup_insert_eq. reflexivity. }
    cbn [ti_heap pi_heap live_strings set_ti_heap set_live_strings
         ti_manufacturer ti_model count_some].
    rewrite delete_insert_id by exact Hft.
    split; [reflexivity|]. split; [reflexivity|]. split; [lia|].
    unfold typeInfoDelete. rewrite Hz. cbn [ti_heap set_ti_heap].
    now rewrite Hft.
  - intros junk A. unfold planeInfoCreate, malloc. rewrite A.
    split; [reflexivity|]. split; [lia|]. split; [exact Hfp|].
    cbn [pi_heap set_pi_heap]. rewrite lookup_insert_eq.
    split; [reflexivity|].
    eexists. split.
    { unfold planeInfoDelete. rewrite Hz. cbn [pi_heap set_pi_heap].
      rewrite lookup_insert_eq. reflexivity. }
    cbn [ti_heap pi_heap live_strings set_pi_heap set_live_strings
         pi_nnum pi_registrant count_some].
    rewrite delete_insert_id by exact Hfp.
    split; [reflexivity|]. split; [reflexivity|]. split; [lia|].
    unfold planeInfoDelete. rewrite Hz. cbn [pi_heap set_pi_heap].
    now rewrite Hfp.
  - intros A. unfold typeInfoCreate, planeInfoCreate, malloc. rewrite A.
    repeat split.
Qed.

Lemma create_delete_round_trip_witness :
  let w := boot (disk_of None None) (dirty_alloc 7) in
  ti_heap (typeInfoCreate w).2 !! 1 = Some (mkTypeInfo 7 0 None None 0 0)
  /\ (typeInfoCreate (boot (disk_of None None) (failing_alloc 0))).1 = 0.
Proof.
  intros w. split.
  - pose proof (proj1 (create_delete_round_trip w (heap_ok_boot _ _))
                  [7; 7; 7; 7; 7; 7] eq_refl) as H.
    destruct (typeInfoCreate w) as [ti w1] eqn:E.
    destruct H as (Hti & _ & _ & Hrec & _). cbn [snd].
    replace 1 with ti by (rewrite Hti; reflexivity). exact Hrec.
  - apply (proj2 (proj2 (create_delete_round_trip
                           (boot (disk_of None None) (failing_alloc 0))
                           (heap_ok_boot _ _)))).
    reflexivity.
Defined.

(** ** What a lookup does to the context *)

(** X7. After a lookup that returns a record the cache of that index
    holds the key and the record; after one that returns [NULL] the
    context is as before. The heads of the lists and the cache of the
    other index never change, a second lookup of the same key returns the
    same record and changes nothing more, and with a [NULL] context or
    string [planedb_lookup] returns [NULL]. *)
Theorem lookup_cache_effect (db : PlaneDb) (w : world) :
  (forall id rec db',
     type_lookup db id w = Done (rec, db') ->
     (rec <> 0 -> last_model db' = id /\ last_ti db' = rec)
     /\ (rec = 0 -> db' = db)
     /\ types db' = types db /\ planes db' = planes db
     /\ last_icao db' = last_icao db /\ last_pi db' = last_pi db
     /\ type_lookup db' id w = Done (rec, db'))
  /\ (forall icao rec odb,
        planedb_lookup (Some db) (Some icao) w = Done (rec, odb) ->
        exists db',
          odb = Some db'
          /\ (rec <> 0 ->
              last_icao db' = parse_hex icao 0 /\ last_pi db' = rec)
          /\ (rec = 0 -> db' = db)
          /\ types db' = types db /\ planes db' = planes db
          /\ last_model db' = last_model db /\ last_ti db' = last_ti db
          /\ planedb_lookup (Some db') (Some icao) w = Done (rec, Some db'))
  /\ (forall icao, planedb_lookup None icao w = Done (0, None))
  /\ planedb_lookup (Some db) None w = Done (0, Some db).
Proof.
  split; [|split; [|split]].
  - intros id rec db' H.
    pose proof (type_lookup_cache db id w rec db' H)
      as (H1 & H2 & H3 & H4 & H5 & H6).
    repeat (split; [assumption|]).
    destruct (Z.eq_dec rec 0) as [E|E].
    + rewrite (H2 E). rewrite (H2 E) in H. exact H.
    + destruct (H1 E) as [Hm Hl]. unfold type_lookup.
      rewrite Hm, Z.eqb_refl, Hl. reflexivity.
  - intros icao rec odb H.
    assert (exists db', odb = Some db') as [db' ->].
    { unfold planedb_lookup in H.
      destruct (parse_hex icao 0 =? last_icao db); [injection H as <- <-; eauto|].
      destruct (list_scan _ _ _ _ _ _) as [r| |]; try discriminate.
      destruct (r =? 0); injection H as <- <-; eauto. }
    exists db'. split; [reflexivity|].
    pose proof (planedb_lookup_cache db icao w rec db' H)
      as (H1 & H2 & H3 & H4 & H5 & H6).
    repeat (split; [assumption|]).
    destruct (Z.eq_dec rec 0) as [E|E].
    + rewrite (H2 E). rewrite (H2 E) in H. exact H.
    + destruct (H1 E) as [Hm Hl]. unfold planedb_lookup.
      rewrite Hm, Z.eqb_refl, Hl. reflexivity.
  - intros [icao|]; reflexivity.
  - reflexivity.
Qed.

Lemma lookup_cache_effect_witness :
  let o := planedb_init sample_world in
  let db := ready_db o in
  let w := ready_world sample_world o in
  (exists db',
     last_model db' = 1200119 /\ last_ti db' = 2
     /\ type_lookup db' 1200119 w = Done (2, db'))
  /\ (exists db',
        last_icao db' = parse_hex (cstr "A1B2C3") 0 /\ last_pi db' = 5
        /\ planedb_lookup (Some db') (Some (cstr "A1B2C3")) w
           = Done (5, Some db')).
Proof.
  intros o db w.
  pose proof (lookup_cache_effect db w) as (Ht & Hp & _).
  split.
  - eexists.
    destruct (Ht 1200119 2 _ ltac:(by_evaluation))
      as (H1 & _ & _ & _ & _ & _ & H7).
    destruct (H1 ltac:(lia)) as [Hm Hl].
    split; [exact Hm|]. split; [exact Hl|exact H7].
  - destruct (Hp (cstr "A1B2C3") 5 _ ltac:(by_evaluation))
      as (db' & _ & H1 & _ & _ & _ & _ & _ & H7).
    destruct (H1 ltac:(lia)) as [Hm Hl].
    exists db'. split; [exact Hm|]. split; [exact Hl|exact H7].
Defined.

(** ** Teardown *)

Lemma type_fields_strings str r : type_fields str r -> type_strings_set r.
Proof.
  intros (_ & Hm & Hn & _). split; [rewrite Hm|rewrite Hn]; unfold pickup; eauto.
Qed.

Lemma plane_fields_strings str r : plane_fields str r -> plane_strings_set r.
Proof.
  intros (_ & Hm & _ & Hn). split; [rewrite Hm|rewrite Hn]; unfold pickup; eauto.
Qed.

Lemma Forall2_strings_type (h : gmap Z TypeInfo) addrs strs :
  Forall2 (fun a str => exists r, h !! a = Some r /\ type_fields str r)
    addrs strs ->
  forall a r, a ∈ addrs -> h !! a = Some r -> type_strings_set r.
Proof.
  induction 1 as [|a str addrs strs (r0 & Hr0 & Hf) _ IH]; intros b r Hb Hr.
  - now apply elem_of_nil in Hb.
  - apply elem_of_cons in Hb as [->|Hb]; [|now apply (IH b)].
    assert (r = r0) by congruence. subst. now apply (type_fields_strings str).
Qed.

Lemma Forall2_strings_plane (h : gmap Z PlaneInfo) addrs strs :
  Forall2 (fun a str => exists r, h !! a = Some r /\ plane_fields str r)
    addrs strs ->
  forall a r, a ∈ addrs -> h !! a = Some r -> plane_strings_set r.
Proof.
  induction 1 as [|a str addrs strs (r0 & Hr0 & Hf) _ IH]; intros b r Hb Hr.
  - now apply elem_of_nil in Hb.
  - apply elem_of_cons in Hb as [->|Hb]; [|now apply (IH b)].
    assert (r = r0) by congruence. subst. now apply (plane_fields_strings str).
Qed.

(** The first loop of [planedb_close] on a list that ends in [NULL]. *)
Lemma free_types_lseg l q : forall p w fuel,
  lseg ti_next (ti_heap w) p l q -> NoDup l -> (length l <= fuel)%nat ->
  (forall a r, a ∈ l -> ti_heap w !! a = Some r -> type_strings_set r) ->
  exists w',
    free_types fuel p w = free_types (fuel - length l) q w'
    /\ (forall x, ti_heap w' !! x
                  = if decide (x ∈ l) then None else ti_heap w !! x)
    /\ pi_heap w' = pi_heap w
    /\ live_strings w' = (live_strings w - 2 * length l)%nat
    /\ live_dbs w' = live_dbs w /\ open_files w' = open_files w
    /\ opened w' = opened w.
Proof.
  induction l as [|a l IH]; intros p w fuel Hseg Hnd Hf Hstr.
  - simpl in Hseg. subst p. exists w. cbn [length].
    rewrite Nat.sub_0_r. repeat split; auto. lia.
  - cbn [lseg] in Hseg. destruct Hseg as (-> & Hnz & r & Hr & Hrest).
    apply NoDup_cons in Hnd as [Hnotin Hnd].
    destruct fuel as [|fuel]; [simpl in Hf; lia|]. cbn [free_types].
    destruct (Z.eqb_spec a 0); [contradiction|]. rewrite Hr.
    unfold typeInfoDelete. destruct (Z.eqb_spec a 0); [contradiction|].
    rewrite Hr.
    destruct (Hstr a r (list_elem_of_here _ _) Hr) as [[m Hm] [n' Hn]].
    rewrite Hm, Hn. cbn [count_some].
    set (w1 := set_ti_heap _ _).
    destruct (IH (ti_next r) w1 fuel) as (w' & Hrun & Hh & Hp & Hs & Hd & Ho & Hop).
    + apply (lseg_frame ti_next (ti_heap w)); [exact Hrest|].
      intros b Hb. cbn [w1 ti_heap set_ti_heap].
      apply lookup_delete_ne. intros ->. contradiction.
    + exact Hnd.
    + simpl in Hf. lia.
    + intros b rb Hb Hrb. cbn [w1 ti_heap set_ti_heap] in Hrb.
      rewrite lookup_delete_ne in Hrb by (intros ->; contradiction).
      apply (Hstr b rb); [now apply list_elem_of_further|exact Hrb].
    + exists w'. split; [rewrite Hrun; reflexivity|].
      cbn [w1 ti_heap pi_heap live_strings live_dbs open_files opened
           set_ti_heap set_live_strings] in *.
      split.
      { intros x. rewrite Hh.
        destruct (decide (x ∈ l)) as [Hx|Hx].
        - rewrite decide_True by (now apply list_elem_of_further). reflexivity.
        - destruct (decide (x = a)) as [->|Hxa].
          + rewrite decide_True by apply list_elem_of_here.
            apply lookup_delete_eq.
          + rewrite decide_False
              by (intros H; apply elem_of_cons in H as [?|?]; contradiction).
            now apply lookup_delete_ne. }
      repeat split; auto. simpl. lia.
Qed.

Lemma free_planes_lseg l q : forall p w fuel,
  lseg pi_next (pi_heap w) p l q -> NoDup l -> (length l <= fuel)%nat ->
  (forall a r, a ∈ l -> pi_heap w !! a = Some r -> plane_strings_set r) ->
  exists w',
    free_planes fuel p w = free_planes (fuel - length l) q w'
    /\ (forall x, pi_heap w' !! x
                  = if decide (x ∈ l) then None else pi_heap w !! x)
    /\ ti_heap w' = ti_heap w
    /\ live_strings w' = (live_strings w - 2 * length l)%nat
    /\ live_dbs w' = live_dbs w /\ open_files w' = open_files w
    /\ opened w' = opened w.
Proof.
  induction l as [|a l IH]; intros p w fuel Hseg Hnd Hf Hstr.
  - simpl in Hseg. subst p. exists w. cbn [length].
    rewrite Nat.sub_0_r. repeat split; auto. lia.
  - cbn [lseg] in Hseg. destruct Hseg as (-> & Hnz & r & Hr & Hrest).
    apply NoDup_cons in Hnd as [Hnotin Hnd].
    destruct fuel as [|fuel]; [simpl in Hf; lia|]. cbn [free_planes].
    destruct (Z.eqb_spec a 0); [contradiction|]. rewrite Hr.
    unfold planeInfoDelete. destruct (Z.eqb_spec a 0); [contradiction|].
    rewrite Hr.
    destruct (Hstr a r (list_elem_of_here _ _) Hr) as [[m Hm] [n' Hn]].
    rewrite Hm, Hn. cbn [count_some].
    set (w1 := set_pi_heap _ _).
    destruct (IH (pi_next r) w1 fuel) as (w' & Hrun & Hh & Hp & Hs & Hd & Ho & Hop).
    + apply (lseg_frame pi_next (pi_heap w)); [exact Hrest|].
      intros b Hb. cbn [w1 pi_heap set_pi_heap].
      apply lookup_delete_ne. intros ->. contradiction.
    + exact Hnd.
    + simpl in Hf. lia.
    + intros b rb Hb Hrb. cbn [w1 pi_heap set_pi_heap] in Hrb.
      rewrite lookup_delete_ne in Hrb by (intros ->; contradiction).
      apply (Hstr b rb); [now apply list_elem_of_further|exact Hrb].
    + exists w'. split; [rewrite Hrun; reflexivity|].
      cbn [w1 ti_heap pi_heap live_strings live_dbs open_files opened
           set_pi_heap set_live_strings] in *.
      split.
      { intros x. rewrite Hh.
        destruct (decide (x ∈ l)) as [Hx|Hx].
        - rewrite decide_True by (now apply list_elem_of_further). reflexivity.
        - destruct (decide (x = a)) as [->|Hxa].
          + rewrite decide_True by apply list_elem_of_here.
            apply lookup_delete_eq.
          + rewrite decide_False
              by (intros H; apply elem_of_cons in H as [?|?]; contradiction).
            now apply lookup_delete_ne. }
      repeat split; auto. simpl. lia.
Qed.

Lemma index_below_bound {A} (h : gmap Z A) (next : A -> Z) l p q :
  NoDup l -> lseg next h p l q ->
  exists k, (scan_bound h - length l = S k)%nat /\ (length l <= scan_bound h)%nat.
Proof.
  intros Hnd Hseg. unfold scan_bound.
  pose proof (live_length h l Hnd
                (fun a Ha => proj2 (lseg_live next h l p q Hseg a Ha))).
  exists (size h - length l)%nat. lia.
Qed.

(** What [planedb_close] does to a context with both indexes loaded: it
    frees the records of the Type Index and follows the link of the last
    one, then does the same with the Registration Index. *)
Lemma planedb_close_loaded db w taddrs tstrs tq paddrs pstrs pq :
  types_loaded w db taddrs tstrs tq -> planes_loaded w db paddrs pstrs pq ->
  exists w1 w2 k1 k2,
    planedb_close (Some db) w
    = match free_types (S k1) tq w1 with
      | Done w1' =>
          match free_planes (scan_bound (pi_heap w1')) (planes db) w1' with
          | Done w2 => Done (true, set_live_dbs (live_dbs w2 - 1)%nat w2)
          | Fault => Fault
          | Hang => Hang
          end
      | Fault => Fault
      | Hang => Hang
      end
    /\ free_planes (scan_bound (pi_heap w1)) (planes db) w1
       = free_planes (S k2) pq w2
    /\ (forall x, ti_heap w1 !! x
                  = if decide (x ∈ taddrs) then None else ti_heap w !! x)
    /\ pi_heap w1 = pi_heap w
    /\ live_strings w1 = (live_strings w - 2 * length taddrs)%nat
    /\ live_dbs w1 = live_dbs w /\ open_files w1 = open_files w
    /\ opened w1 = opened w
    /\ (forall x, pi_heap w2 !! x
                  = if decide (x ∈ paddrs) then None else pi_heap w !! x)
    /\ ti_heap w2 = ti_heap w1
    /\ live_strings w2
       = (live_strings w - 2 * length taddrs - 2 * length paddrs)%nat
    /\ live_dbs w2 = live_dbs w /\ open_files w2 = open_files w
    /\ opened w2 = opened w.
Proof.
  intros (Hnt & Hat & Hst & _) (Hnp & Hap & Hsp & _). unfold planedb_close.
  destruct (index_below_bound _ _ _ _ _ Hnt Hst) as (k1 & Hk1 & Hle1).
  destruct (index_below_bound _ _ _ _ _ Hnp Hsp) as (k2 & Hk2 & Hle2).
  destruct (free_types_lseg taddrs tq (types db) w (scan_bound (ti_heap w)))
    as (w1 & -> & Hh1 & Hp1 & Hs1 & Hd1 & Ho1 & Hop1); auto.
  { now apply (Forall2_strings_type _ _ tstrs). }
  destruct (free_planes_lseg paddrs pq (planes db) w1 (scan_bound (pi_heap w1)))
    as (w2 & Hrun2 & Hh2 & Hp2 & Hs2 & Hd2 & Ho2 & Hop2).
  { now rewrite Hp1. }
  { exact Hnp. }
  { now rewrite Hp1. }
  { rewrite Hp1. now apply (Forall2_strings_plane _ _ pstrs). }
  exists w1, w2, k1, k2. rewrite Hk1. split; [reflexivity|].
  split; [rewrite Hrun2, Hp1, Hk2; reflexivity|].
  split; [exact Hh1|]. split; [exact Hp1|].
  split; [exact Hs1|]. split; [exact Hd1|]. split; [exact Ho1|].
  split; [exact Hop1|].
  split; [intros x; now rewrite Hh2, Hp1|].
  repeat split; congruence.
Qed.

(** Closing a context whose two lists end in [NULL]. *)
Lemma planedb_close_lists db w taddrs tstrs paddrs pstrs :
  types_loaded w db taddrs tstrs 0 -> planes_loaded w db paddrs pstrs 0 ->
  exists w',
    planedb_close (Some db) w = Done (true, w')
    /\ (forall x, ti_heap w' !! x
                  = if decide (x ∈ taddrs) then None else ti_heap w !! x)
    /\ (forall x, pi_heap w' !! x
                  = if decide (x ∈ paddrs) then None else pi_heap w !! x)
    /\ live_strings w'
       = (live_strings w - 2 * length taddrs - 2 * length paddrs)%nat
    /\ live_dbs w' = (live_dbs w - 1)%nat
    /\ open_files w' = open_files w /\ opened w' = opened w.
Proof.
  intros Ht Hp.
  destruct (planedb_close_loaded _ _ _ _ _ _ _ _ Ht Hp)
    as (w1 & w2 & k1 & k2 & Hrun & Hrun2 & Hh1 & Hp1 & Hs1 & Hd1 & Ho1 & Hop1
        & Hh2 & Hp2 & Hs2 & Hd2 & Ho2 & Hop2).
  cbn [free_types Z.eqb] in Hrun. rewrite Hrun2 in Hrun.
  cbn [free_planes Z.eqb] in Hrun.
  eexists. split; [exact Hrun|].
  cbn [ti_heap pi_heap live_strings live_dbs open_files opened set_live_dbs].
  split; [intros x; now rewrite Hp2|].
  split; [exact Hh2|].
  repeat split; congruence.
Qed.

(** ** Construction, in full *)

(** All that a successful [planedb_init] leaves behind: the two indexes,
    the four cache fields and the links of the last records as the
    allocator handed them out, and the resources taken. *)
Lemma planedb_init_full w db w' :
  heap_ok w -> planedb_init w = Done (Some db, w') ->
  exists junk ft fp taddrs tq paddrs pq,
    allocator w (mallocs w) = Block junk
    /\ disk w "ACFTREF.txt"%string = Some ft
    /\ disk w "MASTER.txt"%string = Some fp
    /\ heap_ok w'
    /\ types_loaded w' db taddrs
         (accepted 68 (line_buffers (file_lines ft) (inbuf w))) tq
    /\ planes_loaded w' db paddrs
         (accepted 610
            (line_buffers (file_lines fp)
               (final_buffer (file_lines ft) (inbuf w))))
         pq
    /\ (taddrs <> [] ->
        exists n j, allocator w n = Block j /\ tq = junk_word j 0)
    /\ (paddrs <> [] ->
        exists n j, allocator w n = Block j /\ pq = junk_word j 0)
    /\ last_model db = wrap32 (junk_word junk 1)
    /\ last_ti db = junk_word junk 2
    /\ last_icao db = wrap32 (junk_word junk 4)
    /\ last_pi db = junk_word junk 5
    /\ (forall a, a ∉ taddrs -> ti_heap w' !! a = ti_heap w !! a)
    /\ (forall a, a ∉ paddrs -> pi_heap w' !! a = pi_heap w !! a)
    /\ (forall a, a ∈ taddrs -> ti_heap w !! a = None)
    /\ (forall a, a ∈ paddrs -> pi_heap w !! a = None)
    /\ live_strings w'
       = (live_strings w + 2 * length taddrs + 2 * length paddrs)%nat
    /\ live_dbs w' = S (live_dbs w)
    /\ open_files w' = open_files w
    /\ mallocs w'
       = (mallocs w + 1 + 3 * length taddrs + 3 * length paddrs)%nat
    /\ allocator w' = allocator w.
Proof.
  intros Hok Hrun. unfold planedb_init in Hrun.
  pose proof (heap_ok_malloc w Hok) as Hok1.
  unfold malloc in Hrun, Hok1.
  destruct (allocator w (mallocs w)) as [|junk] eqn:Hj; [discriminate|].
  cbn [snd] in Hok1. cbv beta iota zeta in Hrun.
  set (db0 := mkPlaneDb 0 _ _ 0 _ _) in Hrun.
  set (w2 := set_live_dbs _ _) in Hrun.
  assert (Hok2 : heap_ok w2) by exact Hok1.
  destruct (load_types db0 w2) as [[ok1 db1] w3] eqn:L1.
  destruct ok1; cbn [negb] in Hrun;
    [|now apply planedb_close_never_ready in Hrun].
  destruct (load_types_loaded db0 w2 db1 w3 Hok2 eq_refl L1)
    as (ft & taddrs & tq & Hft & Hok3 & Ht & _ & Htnew & Hpi3 & Hdb1 & Hbuf3
        & Htq & Hal3 & Hm3 & Hls3 & Hld3 & Hof3 & Htold).
  assert (Hp0 : planes db1 = 0).
  { change (planes (with_types 0 db1) = 0). now rewrite Hdb1. }
  destruct (load_planes db1 w3) as [[ok2 db2] w4] eqn:L2.
  destruct ok2; cbn [negb] in Hrun;
    [|now apply planedb_close_never_ready in Hrun].
  injection Hrun as <- <-.
  destruct (load_planes_loaded _ _ _ _ Hok3 Hp0 L2)
    as (fp & paddrs & pq & Hfp & Hok4 & Hp & _ & Hpnew & Hti4 & Hdb2 & _
        & Hpq & Hal4 & Hm4 & Hls4 & Hld4 & Hof4 & Hpold).
  assert (Hd3 : disk w3 = disk w).
  { pose proof (load_types_disk db0 w2) as D. rewrite L1 in D. exact D. }
  cbn [w2 set_live_dbs disk inbuf allocator mallocs live_strings live_dbs
       open_files ti_heap pi_heap] in *.
  exists junk, ft, fp, taddrs, tq, paddrs, pq.
  split; [reflexivity|]. split; [exact Hft|].
  split; [now rewrite <- Hd3|]. split; [exact Hok4|].
  split.
  { unfold types_loaded in *. rewrite Hti4.
    replace (types db2) with (types db1); [exact Ht|].
    change (types (with_planes 0 db1) = types db2). now rewrite <- Hdb2. }
  split; [rewrite <- Hbuf3; exact Hp|].
  split; [exact Htq|].
  split.
  { intros Hne. destruct (Hpq Hne) as (n & j & Hn & ->).
    exists n, j. split; [congruence|reflexivity]. }
  assert (Hdb : mkPlaneDb (types db2) (last_model db0) (last_ti db0)
                  (planes db2) (last_icao db0) (last_pi db0) = db2).
  { assert (E1 : with_planes 0 (with_types 0 db2)
                 = with_planes 0 (with_types 0 db0)).
    { transitivity (with_types 0 (with_planes 0 db2)); [reflexivity|].
      rewrite Hdb2. transitivity (with_planes 0 (with_types 0 db1));
        [reflexivity|]. now rewrite Hdb1. }
    destruct db2. injection E1 as -> -> -> ->. reflexivity. }
  split; [rewrite <- Hdb; reflexivity|].
  split; [rewrite <- Hdb; reflexivity|].
  split; [rewrite <- Hdb; reflexivity|].
  split; [rewrite <- Hdb; reflexivity|].
  split; [intros a Ha; rewrite Hti4; now apply Htold|].
  split; [intros a Ha; rewrite Hpold by exact Ha; now rewrite Hpi3|].
  split; [exact Htnew|].
  split; [intros a Ha; rewrite <- Hpi3; now apply Hpnew|].
  split; [lia|]. split; [lia|]. split; [congruence|]. split; [lia|].
  congruence.
Qed.

(** ** Construction in zero-filled memory *)

Lemma zero_filled_clean d : zero_filled (boot d clean_alloc).
Proof.
  intros n junk i. cbn [boot allocator]. unfold clean_alloc.
  intros [= <-]. unfold junk_word. now destruct i.
Qed.

Lemma never_fails_clean d : never_fails (boot d clean_alloc).
Proof. intros n. cbn [boot allocator]. unfold clean_alloc. discriminate. Qed.

Lemma never_fails_block w n :
  never_fails w -> exists j, allocator w n = Block j.
Proof.
  intros H. specialize (H n). destruct (allocator w n); [contradiction|eauto].
Qed.

(** The head of a loaded list is [NULL] exactly when the index is empty. *)
Lemma types_loaded_head w db addrs strs q :
  types_loaded w db addrs strs q -> (types db = 0 <-> addrs = []).
Proof.
  intros (_ & _ & Hseg & Hq). destruct addrs as [|a l]; cbn [lseg] in Hseg.
  - split; [reflexivity|]. intros _. rewrite Hseg. now apply Hq.
  - destruct Hseg as (-> & Hnz & _). split; [contradiction|discriminate].
Qed.

Lemma planes_loaded_head w db addrs strs q :
  planes_loaded w db addrs strs q -> (planes db = 0 <-> addrs = []).
Proof.
  intros (_ & _ & Hseg & Hq). destruct addrs as [|a l]; cbn [lseg] in Hseg.
  - split; [reflexivity|]. intros _. rewrite Hseg. now apply Hq.
  - destruct Hseg as (-> & Hnz & _). split; [contradiction|discriminate].
Qed.

(** The predicates look at the heads of the lists only. *)
Lemma types_loaded_heads w db db' addrs strs q :
  types db' = types db ->
  types_loaded w db addrs strs q -> types_loaded w db' addrs strs q.
Proof. unfold types_loaded. now intros ->. Qed.

Lemma planes_loaded_heads w db db' addrs strs q :
  planes db' = planes db ->
  planes_loaded w db addrs strs q -> planes_loaded w db' addrs strs q.
Proof. unfold planes_loaded. now intros ->. Qed.

(** In zero-filled memory both lists of the context end in [NULL] and
    the caches read (key 0, no record). *)
Lemma planedb_init_zero_filled w db w' :
  heap_ok w -> zero_filled w -> planedb_init w = Done (Some db, w') ->
  exists ft fp taddrs paddrs,
    disk w "ACFTREF.txt"%string = Some ft
    /\ disk w "MASTER.txt"%string = Some fp
    /\ types_loaded w' db taddrs
         (accepted 68 (line_buffers (file_lines ft) (inbuf w))) 0
    /\ planes_loaded w' db paddrs
         (accepted 610
            (line_buffers (file_lines fp)
               (final_buffer (file_lines ft) (inbuf w))))
         0
    /\ last_model db = 0 /\ last_ti db = 0
    /\ last_icao db = 0 /\ last_pi db = 0
    /\ (forall a, a ∉ taddrs -> ti_heap w' !! a = ti_heap w !! a)
    /\ (forall a, a ∉ paddrs -> pi_heap w' !! a = pi_heap w !! a)
    /\ (forall a, a ∈ taddrs -> ti_heap w !! a = None)
    /\ (forall a, a ∈ paddrs -> pi_heap w !! a = None)
    /\ live_strings w'
       = (live_strings w + 2 * length taddrs + 2 * length paddrs)%nat
    /\ live_dbs w' = S (live_dbs w)
    /\ open_files w' = open_files w
    /\ mallocs w'
       = (mallocs w + 1 + 3 * length taddrs + 3 * length paddrs)%nat.
Proof.
  intros Hok Hz Hrun.
  destruct (planedb_init_full w db w' Hok Hrun)
    as (junk & ft & fp & taddrs & tq & paddrs & pq & Hj & Hft & Hfp & _ & Ht
        & Hp & Htq & Hpq & Hc1 & Hc2 & Hc3 & Hc4 & Hto & Hpo & Htn & Hpn
        & Hls & Hld & Hof & Hm & _).
  assert (tq = 0) as ->.
  { destruct taddrs as [|a l]; [now apply Ht|].
    destruct Htq as (n & j & Hn & ->); [discriminate|]. now apply (Hz n). }
  assert (pq = 0) as ->.
  { destruct paddrs as [|a l]; [now apply Hp|].
    destruct Hpq as (n & j & Hn & ->); [discriminate|]. now apply (Hz n). }
  exists ft, fp, taddrs, paddrs.
  rewrite (Hz _ _ 1%nat Hj) in Hc1. rewrite (Hz _ _ 2%nat Hj) in Hc2.
  rewrite (Hz _ _ 4%nat Hj) in Hc3. rewrite (Hz _ _ 5%nat Hj) in Hc4.
  repeat (split; [assumption|]). exact Hm.
Qed.

(** X8. In zero-filled memory the context that [planedb_init] returns
    has both lists ending in [NULL] and both caches reading key 0 with no
    record. No lookup on it reads outside the lists, whatever the caches
    hold later, and its caches agree with the indexes exactly when no
    loaded record has the id 0. *)
Theorem init_in_zero_filled_memory (w : world) (db : PlaneDb) (w' : world) :
  heap_ok w -> zero_filled w -> planedb_init w = Done (Some db, w') ->
  exists ft fp taddrs paddrs,
    disk w "ACFTREF.txt"%string = Some ft
    /\ disk w "MASTER.txt"%string = Some fp
    /\ types_loaded w' db taddrs
         (accepted 68 (line_buffers (file_lines ft) (inbuf w))) 0
    /\ planes_loaded w' db paddrs
         (accepted 610
            (line_buffers (file_lines fp)
               (final_buffer (file_lines ft) (inbuf w))))
         0
    /\ last_model db = 0 /\ last_ti db = 0
    /\ last_icao db = 0 /\ last_pi db = 0
    /\ (forall dbq id,
          types dbq = types db ->
          exists rec dbq', type_lookup dbq id w' = Done (rec, dbq'))
    /\ (forall dbq icao,
          planes dbq = planes db ->
          exists rec dbq',
            planedb_lookup (Some dbq) (Some icao) w' = Done (rec, dbq'))
    /\ (caches_ok db w' <->
        first_match ti_id (ti_heap w') taddrs 0 = None
        /\ first_match pi_id (pi_heap w') paddrs 0 = None).
Proof.
  intros Hok Hz Hrun.
  destruct (planedb_init_zero_filled w db w' Hok Hz Hrun)
    as (ft & fp & taddrs & paddrs & Hft & Hfp & Ht & Hp & Hc1 & Hc2 & Hc3
        & Hc4 & _).
  exists ft, fp, taddrs, paddrs.
  repeat (split; [assumption|]).
  pose proof Ht as (Hnt & _ & Hst & _). pose proof Hp as (Hnp & _ & Hsp & _).
  assert (Hts : forall id,
            type_scan db id w'
            = match first_match ti_id (ti_heap w') taddrs id with
              | Some a => Done a
              | None => Done 0
              end).
  { intros id. apply list_scan_total; assumption. }
  assert (Hps : forall id,
            plane_scan db id w'
            = match first_match pi_id (pi_heap w') paddrs id with
              | Some a => Done a
              | None => Done 0
              end).
  { intros id. apply list_scan_total; assumption. }
  split; [|split].
  - intros dbq id Hh. unfold type_lookup.
    destruct (id =? last_model dbq); [eauto|].
    rewrite Hh. fold (type_scan db id w'). rewrite Hts.
    destruct (first_match ti_id (ti_heap w') taddrs id) as [a|].
    + destruct (a =? 0); eauto.
    + cbn [Z.eqb]. eauto.
  - intros dbq icao Hh. unfold planedb_lookup.
    destruct (parse_hex icao 0 =? last_icao dbq); [eauto|].
    rewrite Hh. fold (plane_scan db (parse_hex icao 0) w'). rewrite Hps.
    destruct (first_match pi_id (pi_heap w') paddrs (parse_hex icao 0))
      as [a|].
    + destruct (a =? 0); eauto.
    + cbn [Z.eqb]. eauto.
  - unfold caches_ok. rewrite Hc1, Hc2, Hc3, Hc4, Hts, Hps.
    split.
    + intros [H1 H2]. split.
      * destruct (first_match ti_id (ti_heap w') taddrs 0) as [a|] eqn:E;
          [|reflexivity].
        exfalso. injection H1 as ->.
        destruct (first_match_Some _ _ _ _ _ E) as (l1 & l2 & r & -> & _).
        apply (lseg_live _ _ _ _ _ Hst 0); [|reflexivity].
        apply elem_of_app. right. apply list_elem_of_here.
      * destruct (first_match pi_id (pi_heap w') paddrs 0) as [a|] eqn:E;
          [|reflexivity].
        exfalso. injection H2 as ->.
        destruct (first_match_Some _ _ _ _ _ E) as (l1 & l2 & r & -> & _).
        apply (lseg_live _ _ _ _ _ Hsp 0); [|reflexivity].
        apply elem_of_app. right. apply list_elem_of_here.
    + intros [-> ->]. split; reflexivity.
Qed.

Lemma init_in_zero_filled_memory_witness :
  let o := planedb_init sample_world in
  let db := ready_db o in
  let w' := ready_world sample_world o in
  last_model db = 0 /\ last_pi db = 0
  /\ exists rec dbq',
       planedb_lookup (Some db) (Some (cstr "A1B2C3")) w' = Done (rec, dbq').
Proof.
  intros o db w'.
  destruct (init_in_zero_filled_memory sample_world db w' (heap_ok_boot _ _)
              (zero_filled_clean _) ltac:(by_evaluation))
    as (ft & fp & taddrs & paddrs & _ & _ & _ & _ & Hc1 & _ & _ & Hc4 & _
        & Hl & _).
  split; [exact Hc1|]. split; [exact Hc4|].
  apply (Hl db (cstr "A1B2C3") eq_refl).
Defined.

(** ** Sequences of lookups *)

(** X9. From a context whose caches agree with the indexes, any sequence
    of [type_lookup] and [planedb_lookup] calls returns, call by call,
    what scans of the lists without a cache return, and fails where they
    fail; the context it leaves has the same two lists and caches that
    still agree with them. *)
Theorem lookups_answered_as_scans (calls : list lookup_call) (w : world) :
  forall db,
    caches_ok db w ->
    answers (lookups calls db w) = scans calls db w
    /\ forall recs db',
         lookups calls db w = Done (recs, db') ->
         caches_ok db' w /\ types db' = types db /\ planes db' = planes db
         /\ length recs = length calls.
Proof.
  induction calls as [|c rest IH]; intros db Hok.
  - split; [reflexivity|]. intros recs db' [= <- <-]. auto.
  - cbn [lookups scans]. destruct c as [id|icao].
    + destruct (type_lookup_coherent db id w Hok) as (db1 & Hl & Hok1 & Ht & Hp).
      destruct (type_scan db id w) as [rec| |]; rewrite Hl;
        [|split; [reflexivity|discriminate]
         |split; [reflexivity|discriminate]].
      destruct (IH db1 Hok1) as [Hans Hinv].
      rewrite <- (scans_same_heads rest w db db1 Ht Hp), <- Hans.
      destruct (lookups rest db1 w) as [[recs db2]| |];
        [|split; [reflexivity|discriminate]
         |split; [reflexivity|discriminate]].
      split; [reflexivity|]. intros recs' db' [= <- <-].
      destruct (Hinv recs db2 eq_refl) as (H1 & H2 & H3 & H4).
      split; [exact H1|]. split; [congruence|]. split; [congruence|].
      simpl. congruence.
    + destruct (planedb_lookup_coherent db icao w Hok)
        as (db1 & Hl & Hok1 & Ht & Hp).
      destruct (plane_scan db (parse_hex icao 0) w) as [rec| |]; rewrite Hl;
        [|split; [reflexivity|discriminate]
         |split; [reflexivity|discriminate]].
      destruct (IH db1 Hok1) as [Hans Hinv].
      rewrite <- (scans_same_heads rest w db db1 Ht Hp), <- Hans.
      destruct (lookups rest db1 w) as [[recs db2]| |];
        [|split; [reflexivity|discriminate]
         |split; [reflexivity|discriminate]].
      split; [reflexivity|]. intros recs' db' [= <- <-].
      destruct (Hinv recs db2 eq_refl) as (H1 & H2 & H3 & H4).
      split; [exact H1|]. split; [congruence|]. split; [congruence|].
      simpl. congruence.
Qed.

Lemma lookups_answered_as_scans_witness :
  let o := planedb_init sample_world in
  let db := ready_db o in
  let w' := ready_world sample_world o in
  let calls :=
    [ByIcao (cstr "A1B2C3"); ByModel 1200119; ByIcao (cstr "a1b2c3");
     ByModel 7; ByIcao (cstr "A1B2C3")] in
  answers (lookups calls db w') = scans calls db w'.
Proof.
  intros o db w' calls.
  apply (lookups_answered_as_scans calls w' db).
  split; by_evaluation.
Defined.

(** ** Loads that cannot fail *)

Lemma load_types_loop_succeeds fname lines : forall prev db w,
  never_fails w -> 0 < brk w ->
  (load_types_loop fname lines prev db w).1.1 = true.
Proof.
  induction lines as [|line rest IH]; intros prev db w Hnf Hbrk; [reflexivity|].
  destruct (Z.lt_ge_cases (strlen (fgets_store line (inbuf w))) 68) as [Hs|Hs].
  - rewrite load_types_short by exact Hs. apply IH; [exact Hnf|exact Hbrk].
  - destruct (never_fails_block w (mallocs w) Hnf) as [j1 A1].
    destruct (never_fails_block w (S (mallocs w)) Hnf) as [j2 A2].
    destruct (never_fails_block w (S (S (mallocs w))) Hnf) as [j3 A3].
    rewrite (load_types_round _ _ _ _ _ _ j1 j2 j3 Hbrk Hs A1 A2 A3).
    apply IH; [exact Hnf|cbn [brk]; lia].
Qed.

Lemma load_planes_loop_succeeds fname lines : forall prev db w,
  never_fails w -> 0 < brk w ->
  (load_planes_loop fname lines prev db w).1.1 = true.
Proof.
  induction lines as [|line rest IH]; intros prev db w Hnf Hbrk; [reflexivity|].
  destruct (Z.lt_ge_cases (strlen (fgets_store line (inbuf w))) 610) as [Hs|Hs].
  - rewrite load_planes_short by exact Hs. apply IH; [exact Hnf|exact Hbrk].
  - destruct (never_fails_block w (mallocs w) Hnf) as [j1 A1].
    destruct (never_fails_block w (S (mallocs w)) Hnf) as [j2 A2].
    destruct (never_fails_block w (S (S (mallocs w))) Hnf) as [j3 A3].
    rewrite (load_planes_round _ _ _ _ _ _ j1 j2 j3 Hbrk Hs A1 A2 A3).
    apply IH; [exact Hnf|cbn [brk]; lia].
Qed.

Lemma load_types_returns db w :
  heap_ok w -> never_fails w -> is_Some (disk w "ACFTREF.txt"%string) ->
  exists db' w', load_types db w = (true, db', w').
Proof.
  intros (Hbrk & _) Hnf [f Hf].
  pose proof (load_types_loop_succeeds "ACFTREF.txt" (file_lines f) 0 db
                (fopen "ACFTREF.txt" w).2) as H.
  unfold load_types. unfold fopen in *. rewrite Hf in *. cbn [snd] in H.
  destruct (load_types_loop _ _ _ _ _) as [[ok db'] w'].
  cbn [fst] in H. rewrite H; [eauto|exact Hnf|exact Hbrk].
Qed.

Lemma load_planes_returns db w :
  heap_ok w -> never_fails w -> is_Some (disk w "MASTER.txt"%string) ->
  exists db' w', load_planes db w = (true, db', w').
Proof.
  intros (Hbrk & _) Hnf [f Hf].
  pose proof (load_planes_loop_succeeds "MASTER.txt" (file_lines f) 0 db
                (fopen "MASTER.txt" w).2) as H.
  unfold load_planes. unfold fopen in *. rewrite Hf in *. cbn [snd] in H.
  destruct (load_planes_loop _ _ _ _ _) as [[ok db'] w'].
  cbn [fst] in H. rewrite H; [eauto|exact Hnf|exact Hbrk].
Qed.

(** With both files present and no allocation failing, [planedb_init]
    returns a context. *)
Lemma planedb_init_returns w :
  heap_ok w -> never_fails w ->
  is_Some (disk w "ACFTREF.txt"%string) ->
  is_Some (disk w "MASTER.txt"%string) ->
  exists db w', planedb_init w = Done (Some db, w').
Proof.
  intros Hok Hnf Hft Hfp. unfold planedb_init.
  pose proof (heap_ok_malloc w Hok) as Hok1. unfold malloc in *.
  destruct (never_fails_block w (mallocs w) Hnf) as [junk Hj].
  rewrite Hj in *. cbn [snd] in Hok1. cbv beta iota zeta.
  set (db0 := mkPlaneDb 0 _ _ 0 _ _). set (w2 := set_live_dbs _ _).
  assert (Hok2 : heap_ok w2) by exact Hok1.
  destruct (load_types_returns db0 w2 Hok2 Hnf Hft) as (db1 & w3 & L1).
  rewrite L1. cbn [negb].
  destruct (load_types_loaded db0 w2 db1 w3 Hok2 eq_refl L1)
    as (ft & taddrs & tq & _ & Hok3 & _ & _ & _ & _ & _ & _ & _ & Hal3 & _).
  assert (Hd3 : disk w3 = disk w).
  { pose proof (load_types_disk db0 w2) as D. rewrite L1 in D. exact D. }
  destruct (load_planes_returns db1 w3 Hok3) as (db2 & w4 & L2).
  { intros n. rewrite Hal3. apply Hnf. }
  { now rewrite Hd3. }
  rewrite L2. cbn [negb]. eauto.
Qed.

(** ** Construction and teardown together *)

(** Closing a context frees exactly what its construction allocated. *)
Lemma planedb_close_undoes w w' db dbq taddrs tstrs paddrs pstrs :
  types_loaded w' db taddrs tstrs 0 -> planes_loaded w' db paddrs pstrs 0 ->
  types dbq = types db -> planes dbq = planes db ->
  (forall a, a ∉ taddrs -> ti_heap w' !! a = ti_heap w !! a) ->
  (forall a, a ∉ paddrs -> pi_heap w' !! a = pi_heap w !! a) ->
  (forall a, a ∈ taddrs -> ti_heap w !! a = None) ->
  (forall a, a ∈ paddrs -> pi_heap w !! a = None) ->
  live_strings w'
  = (live_strings w + 2 * length taddrs + 2 * length paddrs)%nat ->
  live_dbs w' = S (live_dbs w) ->
  exists w'',
    planedb_close (Some dbq) w' = Done (true, w'')
    /\ ti_heap w'' = ti_heap w /\ pi_heap w'' = pi_heap w
    /\ live_strings w'' = live_strings w /\ live_dbs w'' = live_dbs w
    /\ open_files w'' = open_files w' /\ opened w'' = opened w'.
Proof.
  intros Ht Hp Hht Hhp Hto Hpo Htn Hpn Hls Hld.
  destruct (planedb_close_lists dbq w' taddrs tstrs paddrs pstrs)
    as (w'' & Hrun & Hh1 & Hh2 & Hs & Hd & Hof & Hop).
  { now apply (types_loaded_heads w' db). }
  { now apply (planes_loaded_heads w' db). }
  exists w''. split; [exact Hrun|].
  split.
  { apply map_eq. intros x. rewrite Hh1.
    destruct (decide (x ∈ taddrs)) as [Hx|Hx];
      [symmetry; now apply Htn|now apply Hto]. }
  split.
  { apply map_eq. intros x. rewrite Hh2.
    destruct (decide (x ∈ paddrs)) as [Hx|Hx];
      [symmetry; now apply Hpn|now apply Hpo]. }
  split; [lia|]. split; [lia|]. split; assumption.
Qed.

(** X10. In zero-filled memory [planedb_close] undoes [planedb_init]:
    called on the context, with whatever the lookups have left in its
    caches, it returns TRUE and every record, every string and the
    context itself are freed; both files are closed already. Nothing
    leaks and nothing else is touched. *)
Theorem init_then_close_restores (w : world) (db : PlaneDb) (w' : world) :
  heap_ok w -> zero_filled w -> planedb_init w = Done (Some db, w') ->
  forall dbq,
    types dbq = types db -> planes dbq = planes db ->
    exists w'',
      planedb_close (Some dbq) w' = Done (true, w'')
      /\ ti_heap w'' = ti_heap w /\ pi_heap w'' = pi_heap w
      /\ live_strings w'' = live_strings w /\ live_dbs w'' = live_dbs w
      /\ open_files w'' = open_files w.
Proof.
  intros Hok Hz Hrun dbq Hht Hhp.
  destruct (planedb_init_zero_filled w db w' Hok Hz Hrun)
    as (ft & fp & taddrs & paddrs & _ & _ & Ht & Hp & _ & _ & _ & _ & Hto
        & Hpo & Htn & Hpn & Hls & Hld & Hof & _).
  destruct (planedb_close_undoes w w' db dbq _ _ _ _ Ht Hp Hht Hhp Hto Hpo
              Htn Hpn Hls Hld)
    as (w'' & Hrun' & H1 & H2 & H3 & H4 & H5 & _).
  exists w''. repeat (split; [assumption|]). congruence.
Qed.

Lemma init_then_close_restores_witness :
  let o := planedb_init twin_world in
  let db := ready_db o in
  let w' := ready_world twin_world o in
  exists w'',
    planedb_close (Some db) w' = Done (true, w'')
    /\ ti_heap w'' = ∅ /\ pi_heap w'' = ∅
    /\ live_strings w'' = 0%nat /\ live_dbs w'' = 0%nat
    /\ open_files w'' = [].
Proof.
  intros o db w'.
  apply (init_then_close_restores twin_world db w' (heap_ok_boot _ _)
           (zero_filled_clean _) ltac:(by_evaluation) db eq_refl eq_refl).
Defined.

(** X11. In recycled memory, where the first word of every block reads
    as some value that is neither [NULL] nor a live record, the
    [planedb_close] of a context that [planedb_init] returned follows the
    link of the last record it frees and reads memory that is no block,
    as soon as either index holds a record. *)
Theorem close_after_init_in_recycled_memory (w : world) (db : PlaneDb)
  (w' : world) (v : Z) :
  heap_ok w -> planedb_init w = Done (Some db, w') ->
  (forall n j, allocator w n = Block j -> junk_word j 0 = v) ->
  v <> 0 -> ti_heap w' !! v = None -> pi_heap w' !! v = None ->
  types db <> 0 \/ planes db <> 0 ->
  planedb_close (Some db) w' = Fault.
Proof.
  intros Hok Hrun Hv Hnz Hvt Hvp Hsome.
  destruct (planedb_init_full w db w' Hok Hrun)
    as (junk & ft & fp & taddrs & tq & paddrs & pq & _ & _ & _ & _ & Ht
        & Hp & Htq & Hpq & _).
  destruct (planedb_close_loaded _ _ _ _ _ _ _ _ Ht Hp)
    as (w1 & w2 & k1 & k2 & Hrun' & Hrun2 & Hh1 & Hp1 & _ & _ & _ & _
        & Hh2 & Hp2 & _).
  rewrite Hrun'. clear Hrun'.
  destruct taddrs as [|a l].
  - assert (tq = 0) as -> by now apply Ht.
    cbn [free_types Z.eqb]. rewrite Hrun2.
    destruct paddrs as [|b l'].
    + exfalso. destruct Hsome as [H|H]; apply H.
      * now apply (types_loaded_head _ _ _ _ _ Ht).
      * now apply (planes_loaded_head _ _ _ _ _ Hp).
    + destruct Hpq as (n & j & Hn & ->); [discriminate|].
      rewrite (Hv n j Hn). cbn [free_planes].
      destruct (Z.eqb_spec v 0); [contradiction|].
      rewrite Hh2. destruct (decide (v ∈ b :: l')); [reflexivity|].
      now rewrite Hvp.
  - destruct Htq as (n & j & Hn & ->); [discriminate|].
    rewrite (Hv n j Hn). cbn [free_types].
    destruct (Z.eqb_spec v 0); [contradiction|].
    rewrite Hh1. destruct (decide (v ∈ a :: l)); [reflexivity|].
    now rewrite Hvt.
Qed.

Lemma close_after_init_in_recycled_memory_witness :
  let o := planedb_init dirty_ready_world in
  planedb_close (Some (ready_db o)) (ready_world dirty_ready_world o) = Fault.
Proof.
  intros o.
  apply (close_after_init_in_recycled_memory dirty_ready_world (ready_db o)
           (ready_world dirty_ready_world o) 6510615555426900570
           (heap_ok_boot _ _)).
  - by_evaluation.
  - intros n j. cbn [dirty_ready_world boot allocator]. unfold dirty_alloc.
    intros [= <-]. reflexivity.
  - lia.
  - by_evaluation.
  - by_evaluation.
  - left. by_evaluation.
Defined.



(** ** Failed constructions *)

(** X13. Without ACFTREF.txt, or without memory for the context,
    [planedb_init] returns [NULL] whatever the memory holds: it frees the
    context again, allocates no record, leaves no file open and never
    opens MASTER.txt. *)
Theorem init_without_type_file (w : world) :
  disk w "ACFTREF.txt"%string = None \/ allocator w (mallocs w) = ENOMEM ->
  exists w',
    planedb_init w = Done (None, w')
    /\ ti_heap w' = ti_heap w /\ pi_heap w' = pi_heap w
    /\ live_strings w' = live_strings w /\ live_dbs w' = live_dbs w
    /\ open_files w' = open_files w /\ inbuf w' = inbuf w
    /\ mallocs w' = S (mallocs w)
    /\ opened w'
       = match allocator w (mallocs w) with
         | ENOMEM => opened w
         | Block _ => opened w ++ ["ACFTREF.txt"%string]
         end.
Proof.
  intros H. unfold planedb_init, malloc.
  destruct (allocator w (mallocs w)) as [|junk] eqn:Hj.
  - eexists. split; [reflexivity|]. cbn. repeat split; reflexivity.
  - destruct H as [Hf|]; [|discriminate]. cbv beta iota zeta.
    unfold load_types, fopen. cbn [disk set_live_dbs]. rewrite Hf.
    cbn [negb]. unfold planedb_close, scan_bound.
    cbn [free_types free_planes types planes Z.eqb].
    eexists. split; [reflexivity|].
    cbn [ti_heap pi_heap live_strings live_dbs open_files inbuf mallocs opened
         set_live_dbs].
    repeat split; try reflexivity. lia.
Qed.

Lemma init_without_type_file_witness :
  exists w',
    planedb_init (boot (disk_of None (Some n12345_line)) (dirty_alloc 7))
    = Done (None, w')
    /\ live_dbs w' = 0%nat /\ opened w' = ["ACFTREF.txt"%string].
Proof.
  destruct (init_without_type_file
              (boot (disk_of None (Some n12345_line)) (dirty_alloc 7))
              (or_introl eq_refl))
    as (w' & Hrun & _ & _ & _ & Hd & _ & _ & _ & Hop).
  exists w'. split; [exact Hrun|]. split; [exact Hd|exact Hop].
Defined.

(** X14. With both files on disk and no allocation failing
    [planedb_init] returns a context, whatever the files and the memory
    hold. It has allocated the context and three blocks per record, a
    record per string of at least 68 bytes that [fgets] returns from
    ACFTREF.txt and per string of at least 610 bytes from MASTER.txt; two
    strings per record are live, and both files are closed again. *)
Theorem init_succeeds (w : world) :
  heap_ok w -> never_fails w ->
  is_Some (disk w "ACFTREF.txt"%string) ->
  is_Some (disk w "MASTER.txt"%string) ->
  exists db w' ft fp,
    planedb_init w = Done (Some db, w')
    /\ disk w "ACFTREF.txt"%string = Some ft
    /\ disk w "MASTER.txt"%string = Some fp
    /\ let nt := length (accepted 68 (file_lines ft)) in
       let np := length (accepted 610 (file_lines fp)) in
       mallocs w' = (mallocs w + 1 + 3 * nt + 3 * np)%nat
       /\ live_strings w' = (live_strings w + 2 * nt + 2 * np)%nat
       /\ live_dbs w' = S (live_dbs w)
       /\ open_files w' = open_files w
       /\ opened w' = opened w ++ ["ACFTREF.txt"; "MASTER.txt"]%string
       /\ (types db = 0 <-> nt = 0%nat) /\ (planes db = 0 <-> np = 0%nat).
Proof.
  intros Hok Hnf Hft Hfp.
  destruct (planedb_init_returns w Hok Hnf Hft Hfp) as (db & w' & Hrun).
  destruct (planedb_init_full w db w' Hok Hrun)
    as (junk & ft & fp & taddrs & tq & paddrs & pq & _ & Eft & Efp & _ & Ht
        & Hp & _ & _ & _ & _ & _ & _ & _ & _ & _ & _ & Hls & Hld & Hof & Hm
        & _).
  exists db, w', ft, fp. split; [exact Hrun|].
  split; [exact Eft|]. split; [exact Efp|]. cbv zeta.
  assert (Hnt : length taddrs = length (accepted 68 (file_lines ft))).
  { destruct Ht as (_ & Hall & _).
    rewrite (Forall2_length _ _ _ Hall). apply length_accepted_buffers. }
  assert (Hnp : length paddrs = length (accepted 610 (file_lines fp))).
  { destruct Hp as (_ & Hall & _).
    rewrite (Forall2_length _ _ _ Hall). apply length_accepted_buffers. }
  rewrite <- Hnt, <- Hnp.
  split; [exact Hm|]. split; [exact Hls|]. split; [exact Hld|].
  split; [exact Hof|].
  split.
  { unfold planedb_init in Hrun. unfold malloc in Hrun.
    destruct (allocator w (mallocs w)) as [|j]; [discriminate|].
    cbv beta iota zeta in Hrun.
    set (db0 := mkPlaneDb 0 _ _ 0 _ _) in Hrun.
    set (w2 := set_live_dbs _ _) in Hrun.
    pose proof (load_types_opened db0 w2) as O1.
    destruct (load_types db0 w2) as [[ok1 db1] w3].
    destruct ok1; cbn [negb] in Hrun;
      [|now apply planedb_close_never_ready in Hrun].
    pose proof (load_planes_opened db1 w3) as O2.
    destruct (load_planes db1 w3) as [[ok2 db2] w4].
    destruct ok2; cbn [negb] in Hrun;
      [|now apply planedb_close_never_ready in Hrun].
    injection Hrun as <- <-. cbn [snd] in O1, O2. rewrite O2, O1.
    cbn [w2 set_live_dbs opened]. now rewrite <- app_assoc. }
  split.
  - rewrite (types_loaded_head _ _ _ _ _ Ht). split.
    + now intros ->.
    + intros H. now apply length_zero_iff_nil.
  - rewrite (planes_loaded_head _ _ _ _ _ Hp). split.
    + now intros ->.
    + intros H. now apply length_zero_iff_nil.
Qed.

Lemma init_succeeds_witness :
  exists db w',
    planedb_init twin_world = Done (Some db, w')
    /\ mallocs w' = 13%nat /\ live_strings w' = 8%nat
    /\ open_files w' = [].
Proof.
  destruct (init_succeeds twin_world (heap_ok_boot _ _) (never_fails_clean _)
              ltac:(eexists; by_evaluation) ltac:(eexists; by_evaluation))
    as (db & w' & ft & fp & Hrun & Eft & Efp & Hm & Hls & _ & Hof & _).
  injection Eft as <-. injection Efp as <-.
  exists db, w'. split; [exact Hrun|].
  split; [exact Hm|]. split; [exact Hls|exact Hof].
Defined.

(** X15. With ACFTREF.txt on disk but no MASTER.txt, in zero-filled
    memory and with no allocation failing, [planedb_init] returns [NULL]
    after it has loaded the whole Type Index and freed it again: no
    record, string or context stays allocated and no file stays open. *)
Theorem init_without_master_file (w : world) :
  heap_ok w -> zero_filled w -> never_fails w ->
  is_Some (disk w "ACFTREF.txt"%string) ->
  disk w "MASTER.txt"%string = None ->
  exists w',
    planedb_init w = Done (None, w')
    /\ ti_heap w' = ti_heap w /\ pi_heap w' = pi_heap w
    /\ live_strings w' = live_strings w /\ live_dbs w' = live_dbs w
    /\ open_files w' = open_files w
    /\ opened w' = opened w ++ ["ACFTREF.txt"; "MASTER.txt"]%string.
Proof.
  intros Hok Hz Hnf Hft Hfp. unfold planedb_init.
  pose proof (heap_ok_malloc w Hok) as Hok1. unfold malloc in *.
  destruct (never_fails_block w (mallocs w) Hnf) as [junk Hj].
  rewrite Hj in *. cbn [snd] in Hok1. cbv beta iota zeta.
  set (db0 := mkPlaneDb 0 _ _ 0 _ _). set (w2 := set_live_dbs _ _).
  assert (Hok2 : heap_ok w2) by exact Hok1.
  destruct (load_types_returns db0 w2 Hok2 Hnf Hft) as (db1 & w3 & L1).
  pose proof (load_types_opened db0 w2) as O1.
  rewrite L1 in *. cbn [negb snd] in *.
  destruct (load_types_loaded db0 w2 db1 w3 Hok2 eq_refl L1)
    as (ft & taddrs & tq & _ & Hok3 & Ht & _ & Htn & Hpi3 & Hdb1 & _ & Htq
        & _ & _ & Hls3 & Hld3 & Hof3 & Hto).
  assert (Hd3 : disk w3 = disk w).
  { pose proof (load_types_disk db0 w2) as D. rewrite L1 in D. exact D. }
  assert (Hp0 : planes db1 = 0).
  { change (planes (with_types 0 db1) = 0). now rewrite Hdb1. }
  assert (tq = 0) as ->.
  { destruct taddrs as [|a l]; [now apply Ht|].
    destruct Htq as (n & j & Hn & ->); [discriminate|]. now apply (Hz n). }
  unfold load_planes, fopen. rewrite Hd3, Hfp. cbn [negb].
  set (w4 := mkWorld _ _ _ _ _ _ _ _ _ _ _).
  cbn [w2 set_live_dbs ti_heap pi_heap live_strings live_dbs open_files
       opened] in *.
  destruct (planedb_close_undoes w w4 db1 db1 taddrs
              (accepted 68 (line_buffers (file_lines ft) (inbuf w))) [] [])
    as (w' & Hrun & H1 & H2 & H3 & H4 & H5 & H6);
    try reflexivity; cbn [w4 ti_heap pi_heap live_strings live_dbs].
  - exact Ht.
  - split; [constructor|]. split; [constructor|]. split; [exact Hp0|auto].
  - exact Hto.
  - intros a _. now rewrite Hpi3.
  - exact Htn.
  - intros a Ha. now apply elem_of_nil in Ha.
  - cbn [length]. lia.
  - exact Hld3.
  - rewrite Hrun. exists w'.
    cbn [w4 open_files opened] in H5, H6.
    repeat (split; [first [reflexivity|assumption|congruence]|]).
    rewrite H6, O1. now rewrite <- app_assoc.
Qed.

Lemma init_without_master_file_witness :
  exists w',
    planedb_init no_master_world = Done (None, w')
    /\ ti_heap w' = ∅ /\ live_strings w' = 0%nat /\ live_dbs w' = 0%nat.
Proof.
  destruct (init_without_master_file no_master_world (heap_ok_boot _ _)
              (zero_filled_clean _) (never_fails_clean _)
              ltac:(eexists; by_evaluation) eq_refl)
    as (w' & Hrun & H1 & _ & H3 & H4 & _).
  exists w'. split; [exact Hrun|]. split; [exact H1|]. split; assumption.
Defined.

(** ** Fields come from the line just read *)

Lemma strndup_copy_app_NUL s rest : forall n,
  strndup_copy (s ++ NUL :: rest) n = strndup_copy s n.
Proof.
  induction s as [|c s IH]; intros n; cbn [app strndup_copy].
  - now rewrite orb_true_r.
  - destruct ((n <=? 0) || Ascii.eqb c NUL); [reflexivity|]. now rewrite IH.
Qed.

Lemma pickup_last_fgets_store line buf p0 n : forall last,
  0 <= p0 -> last <= Z.of_nat (length line) ->
  pickup_last n (fgets_store line buf) p0 last = pickup_last n line p0 last.
Proof.
  induction n as [|n IH]; intros last Hp0 Hlast; [reflexivity|].
  cbn [pickup_last]. destruct (Z.geb_spec last p0) as [Hge|]; [|reflexivity].
  replace last with (Z.of_nat (Z.to_nat last)) at 1 3 by lia.
  rewrite char_at_fgets_store by lia.
  replace (Z.of_nat (Z.to_nat last)) with last by lia.
  destruct (negb (isspace (char_at line last))); [reflexivity|].
  apply IH; lia.
Qed.

Lemma pickup_fgets_store ok line buf p0 p1 :
  0 <= p0 <= Z.of_nat (length line) -> p1 <= Z.of_nat (length line) + 1 ->
  pickup ok (fgets_store line buf) p0 p1 = pickup ok line p0 p1.
Proof.
  intros Hp0 Hp1. unfold pickup.
  rewrite pickup_last_fgets_store by lia.
  destruct ok; [|reflexivity]. f_equal. unfold fgets_store.
  rewrite drop_app_le by lia. apply strndup_copy_app_NUL.
Qed.

Lemma is_hex_NUL :
  is_digit NUL = false /\ is_lower_hex NUL = false /\ is_upper_hex NUL = false.
Proof. repeat split; reflexivity. Qed.

Lemma parse_hex_loop_fgets_store line buf n : forall (pos : nat) val,
  (pos <= length line)%nat ->
  parse_hex_loop n (fgets_store line buf) (Z.of_nat pos) val
  = parse_hex_loop n line (Z.of_nat pos) val.
Proof.
  induction n as [|n IH]; intros pos val Hpos; [reflexivity|].
  cbn [parse_hex_loop]. rewrite char_at_fgets_store by exact Hpos.
  destruct (decide (pos = length line)) as [->|Hne].
  - rewrite char_at_drop, drop_all. cbn [nth].
    destruct is_hex_NUL as (-> & -> & ->). reflexivity.
  - replace (Z.of_nat pos + 1) with (Z.of_nat (S pos)) by lia.
    rewrite !IH by lia. reflexivity.
Qed.

Lemma parse_hex_fgets_store line buf (k : nat) :
  (k <= length line)%nat ->
  parse_hex (fgets_store line buf) (Z.of_nat k) = parse_hex line (Z.of_nat k).
Proof. apply parse_hex_loop_fgets_store. Qed.

(** The records of a loaded index against the strings read, not the
    buffers they were read into. *)
Lemma accepted_buffers_Forall2 {P Q : Z -> list ascii -> Prop} width lines :
  (forall a line b,
     width <= strlen line -> P a (fgets_store line b) -> Q a line) ->
  forall buf addrs,
    Forall2 P addrs (accepted width (line_buffers lines buf)) ->
    Forall2 Q addrs (accepted width lines).
Proof.
  intros HPQ. induction lines as [|l lines IH]; intros buf addrs H.
  - cbn in H. apply Forall2_nil_inv_r in H as ->. constructor.
  - cbn [line_buffers] in H.
    destruct (Z.lt_ge_cases (strlen l) width) as [Hs|Hs].
    + rewrite accepted_cons_no in H by (now rewrite strlen_fgets_store).
      rewrite accepted_cons_no by exact Hs. now apply (IH _ _ H).
    + rewrite accepted_cons_yes in H by (now rewrite strlen_fgets_store).
      rewrite accepted_cons_yes by exact Hs.
      apply Forall2_cons_inv_r in H as (a & addrs' & Ha & Hrest & ->).
      constructor; [now apply (HPQ a l buf)|now apply (IH _ _ Hrest)].
Qed.

(** The fields of a type record, against the string of at least 68 bytes
    it was built from. *)
Lemma type_fields_own_line line buf r :
  68 <= strlen line -> type_fields (fgets_store line buf) r ->
  type_line_fields line r.
Proof.
  intros Hlen (H1 & H2 & H3 & H4 & H5).
  pose proof (strlen_bounds line) as Hb. unfold type_line_fields.
  rewrite H1, H2, H3, H4, H5.
  split; [apply (parse_int_fgets_store line buf 0); lia|].
  split; [apply pickup_fgets_store; lia|].
  split; [apply pickup_fgets_store; lia|].
  split; [apply (parse_int_fgets_store line buf 60); lia|].
  intros H72. apply (parse_int_fgets_store line buf 72). lia.
Qed.

(** All four fields of a registration record come from its own string. *)
Lemma plane_fields_own_line line buf r :
  610 <= strlen line -> plane_fields (fgets_store line buf) r ->
  plane_fields line r.
Proof.
  intros Hlen (H1 & H2 & H3 & H4).
  pose proof (strlen_bounds line) as Hb. unfold plane_fields.
  rewrite H1, H2, H3, H4.
  split; [apply (parse_hex_fgets_store line buf 601); lia|].
  split; [apply pickup_fgets_store; lia|].
  split; [apply (parse_int_fgets_store line buf 37); lia|].
  apply pickup_fgets_store; lia.
Qed.

(** The two indexes of a context against the strings [fgets] returned. *)
Lemma planedb_init_lines w db w' :
  heap_ok w -> planedb_init w = Done (Some db, w') ->
  exists ft fp taddrs tq paddrs pq,
    disk w "ACFTREF.txt"%string = Some ft
    /\ disk w "MASTER.txt"%string = Some fp
    /\ NoDup taddrs /\ lseg ti_next (ti_heap w') (types db) taddrs tq
    /\ Forall2
         (fun a line =>
            exists r, ti_heap w' !! a = Some r /\ type_line_fields line r)
         taddrs (accepted 68 (file_lines ft))
    /\ NoDup paddrs /\ lseg pi_next (pi_heap w') (planes db) paddrs pq
    /\ Forall2
         (fun a line =>
            exists r, pi_heap w' !! a = Some r /\ plane_fields line r)
         paddrs (accepted 610 (file_lines fp))
    /\ types_loaded w' db taddrs
         (accepted 68 (line_buffers (file_lines ft) (inbuf w))) tq
    /\ planes_loaded w' db paddrs
         (accepted 610
            (line_buffers (file_lines fp)
               (final_buffer (file_lines ft) (inbuf w))))
         pq.
Proof.
  intros Hok Hrun.
  destruct (planedb_init_ready w db w' Hok Hrun)
    as (_ & ft & fp & taddrs & tq & paddrs & pq & Hft & Hfp & Ht & Hp).
  exists ft, fp, taddrs, tq, paddrs, pq.
  pose proof Ht as (Hnt & Hat & Hst & _). pose proof Hp as (Hnp & Hap & Hsp & _).
  repeat (split; [assumption|]).
  split.
  { eapply (accepted_buffers_Forall2 68 (file_lines ft)); [|exact Hat].
    intros a line b Hlen (r & Hr & Hf). exists r. split; [exact Hr|].
    now apply (type_fields_own_line line b). }
  repeat (split; [assumption|]).
  split; [|split; assumption].
  eapply (accepted_buffers_Forall2 610 (file_lines fp)); [|exact Hap].
  intros a line b Hlen (r & Hr & Hf). exists r. split; [exact Hr|].
  now apply (plane_fields_own_line line b).
Qed.

(** X16. Every record of a context that [planedb_init] returns holds the
    fields of its own line: the Type Index has one record per string of
    at least 68 bytes of ACFTREF.txt, in file order, with the id,
    manufacturer, model and type read from that string, and the seats
    too when the string reaches the seats column; the Registration Index
    has one record per string of at least 610 bytes of MASTER.txt with
    all four fields read from that string. What an earlier line left in
    the buffer can reach the seats of a short type line only. *)
Theorem records_hold_own_lines (w : world) (db : PlaneDb) (w' : world) :
  heap_ok w -> planedb_init w = Done (Some db, w') ->
  exists ft fp taddrs tq paddrs pq,
    disk w "ACFTREF.txt"%string = Some ft
    /\ disk w "MASTER.txt"%string = Some fp
    /\ NoDup taddrs /\ lseg ti_next (ti_heap w') (types db) taddrs tq
    /\ Forall2
         (fun a line =>
            exists r, ti_heap w' !! a = Some r /\ type_line_fields line r)
         taddrs (accepted 68 (file_lines ft))
    /\ NoDup paddrs /\ lseg pi_next (pi_heap w') (planes db) paddrs pq
    /\ Forall2
         (fun a line =>
            exists r, pi_heap w' !! a = Some r /\ plane_fields line r)
         paddrs (accepted 610 (file_lines fp)).
Proof.
  intros Hok Hrun.
  destruct (planedb_init_lines w db w' Hok Hrun)
    as (ft & fp & taddrs & tq & paddrs & pq & H).
  exists ft, fp, taddrs, tq, paddrs, pq.
  decompose [and] H. repeat (split; [assumption|]). assumption.
Qed.

Lemma records_hold_own_lines_witness :
  let o := planedb_init stale_world in
  let db := ready_db o in
  let w' := ready_world stale_world o in
  exists taddrs paddrs tq pq,
    lseg ti_next (ti_heap w') (types db) taddrs tq
    /\ Forall2
         (fun a line =>
            exists r, ti_heap w' !! a = Some r /\ type_line_fields line r)
         taddrs (accepted 68 (file_lines (cessna_line ++ piper_line_70)))
    /\ lseg pi_next (pi_heap w') (planes db) paddrs pq.
Proof.
  intros o db w'.
  destruct (records_hold_own_lines stale_world db w' (heap_ok_boot _ _)
              ltac:(by_evaluation))
    as (ft & fp & taddrs & tq & paddrs & pq & Eft & _ & _ & Hst & Hat & _
        & Hsp & _).
  injection Eft as <-.
  exists taddrs, paddrs, tq, pq. split; [exact Hst|]. split; [exact Hat|].
  exact Hsp.
Defined.

(** ** Printing a registration *)

(** The record [type_lookup] returns on a list that ends in [NULL]. *)
Lemma type_lookup_total db w taddrs tstrs id :
  types_loaded w db taddrs tstrs 0 ->
  exists db',
    type_lookup db id w
    = Done
        (if id =? last_model db then last_ti db
         else default 0 (first_match ti_id (ti_heap w) taddrs id),
         db')
    /\ types db' = types db /\ planes db' = planes db
    /\ last_icao db' = last_icao db /\ last_pi db' = last_pi db.
Proof.
  intros (Hnd & _ & Hseg & _). unfold type_lookup.
  destruct (id =? last_model db); [exists db; auto|].
  rewrite (list_scan_total ti_next ti_id _ _ taddrs id Hnd Hseg).
  destruct (first_match ti_id (ti_heap w) taddrs id) as [a|]; cbn [default].
  - destruct (a =? 0) eqn:E.
    + apply Z.eqb_eq in E. subst a. exists db. auto.
    + eexists. split; [reflexivity|]. auto.
  - exists db. auto.
Qed.

(** X17. [planeInfoPrint] on a live registration record, with a Type
    Index that ends in [NULL] and a type cache that agrees with it:
    the N-number and the registrant are printed as stored, each when it
    is set, and the model when it is not 0; the model, also when 0, is
    resolved to the first type record with that id and printed with it,
    "No model info" is printed when no type record has the id, and the
    print reads outside [typeTable] when the resolved record has a type
    beyond it. The heads of the lists and the registration cache stay as
    they were. With [NULL] for the record the function dereferences
    it. *)
Theorem planeInfoPrint_report (db : PlaneDb) (w : world) (pi : Z)
  (r : PlaneInfo) (taddrs : list Z) (tstrs : list (list ascii)) :
  heap_ok w ->
  types_loaded w db taddrs tstrs 0 ->
  type_scan db (last_model db) w = Done (last_ti db) ->
  pi_heap w !! pi = Some r ->
  planeInfoPrint db 0 w = Fault
  /\ match first_match ti_id (ti_heap w) taddrs (pi_model r) with
     | None =>
         exists db',
           planeInfoPrint db pi w
           = Done
               (mkPlaneReport (pi_nnum r) (pi_registrant r)
                  (if pi_model r =? 0 then None else Some (pi_model r)) None,
                db')
           /\ types db' = types db /\ planes db' = planes db
           /\ last_icao db' = last_icao db /\ last_pi db' = last_pi db
     | Some a =>
         exists t,
           ti_heap w !! a = Some t /\ ti_id t = pi_model r
           /\ match typeTable_at (ti_type t) with
              | Some d =>
                  exists db',
                    planeInfoPrint db pi w
                    = Done
                        (mkPlaneReport (pi_nnum r) (pi_registrant r)
                           (if pi_model r =? 0 then None
                            else Some (pi_model r))
                           (Some
                              (mkTypeReport (ti_manufacturer t) (ti_model t)
                                 (ti_type t) d (ti_nrseats t))),
                         db')
                    /\ types db' = types db /\ planes db' = planes db
                    /\ last_icao db' = last_icao db
                    /\ last_pi db' = last_pi db
              | None => planeInfoPrint db pi w = Fault
              end
     end.
Proof.
  intros (_ & _ & Hp0) Ht Hcache Hr. split.
  { unfold planeInfoPrint. destruct (pi_heap w !! 0) as [r0|] eqn:E;
      [|reflexivity].
    specialize (Hp0 0 ltac:(eauto)). lia. }
  pose proof Ht as (Hnd & _ & Hseg & _).
  destruct (type_lookup_total db w taddrs tstrs (pi_model r) Ht)
    as (db' & Hl & Hsame).
  assert (Hx : (if pi_model r =? last_model db then last_ti db
                else default 0
                       (first_match ti_id (ti_heap w) taddrs (pi_model r)))
               = default 0
                   (first_match ti_id (ti_heap w) taddrs (pi_model r))).
  { destruct (Z.eqb_spec (pi_model r) (last_model db)) as [E|_];
      [|reflexivity].
    unfold type_scan in Hcache.
    rewrite (list_scan_total ti_next ti_id _ _ taddrs _ Hnd Hseg) in Hcache.
    rewrite E.
    destruct (first_match ti_id (ti_heap w) taddrs (last_model db));
      injection Hcache as <-; reflexivity. }
  rewrite Hx in Hl. unfold planeInfoPrint. rewrite Hr, Hl.
  destruct (first_match ti_id (ti_heap w) taddrs (pi_model r)) as [a|] eqn:E;
    cbn [default from_option id]; cbv beta iota.
  - destruct (first_match_Some _ _ _ _ _ E) as (l1 & l2 & t & -> & Ha & Hk & _).
    exists t. split; [exact Ha|]. split; [exact Hk|].
    assert (Hnz : a <> 0).
    { apply (lseg_live _ _ _ _ _ Hseg a). apply elem_of_app. right.
      apply list_elem_of_here. }
    destruct (Z.eqb_spec a 0); [contradiction|].
    unfold typeInfoPrint. rewrite Ha.
    destruct (typeTable_at (ti_type t)); [|reflexivity].
    exists db'. split; [reflexivity|exact Hsame].
  - cbn [Z.eqb]. exists db'. split; [reflexivity|exact Hsame].
Qed.

Lemma planeInfoPrint_report_witness :
  (let o := planedb_init sample_world in
   let db := ready_db o in
   let w := ready_world sample_world o in
   exists db',
     planeInfoPrint db 5 w
     = Done
         (mkPlaneReport (Some (cstr "12345")) (Some (cstr "JOHN DOE"))
            (Some 1200119)
            (Some
               (mkTypeReport (Some (cstr "CESSNA")) (Some (cstr "172")) 4
                  "Fixed wing single engine" 4)),
          db'))
  /\ (let o := planedb_init blank_model_world in
      let db := ready_db o in
      let w := ready_world blank_model_world o in
      exists db',
        planeInfoPrint db 5 w
        = Done
            (mkPlaneReport (Some (cstr "12345")) (Some (cstr "JOHN DOE"))
               None None,
             db')).
Proof.
  split; intros o db w.
  - set (r := mkPlaneInfo 0 (parse_hex (cstr "A1B2C3") 0)
                (Some (cstr "12345")) 1200119 (Some (cstr "JOHN DOE"))).
    set (t := mkTypeInfo 0 1200119 (Some (cstr "CESSNA"))
                (Some (cstr "172")) 4 4).
    assert (E1 : first_match ti_id (ti_heap w) [2] (pi_model r) = Some 2)
      by by_evaluation.
    assert (E2 : ti_heap w !! 2 = Some t) by by_evaluation.
    assert (E3 : typeTable_at (ti_type t)
                 = Some "Fixed wing single engine"%string)
      by reflexivity.
    pose proof (planeInfoPrint_report db w 5 r [2] [cessna_line]) as H.
    rewrite E1 in H.
    destruct H as (_ & t' & Ht & _ & H).
    + apply (planedb_init_ready sample_world db w (heap_ok_boot _ _)).
      by_evaluation.
    + index_by_evaluation.
    + by_evaluation.
    + by_evaluation.
    + rewrite E2 in Ht. injection Ht as <-. rewrite E3 in H.
      destruct H as (db' & H & _). exists db'. exact H.
  - set (r := mkPlaneInfo 0 (parse_hex (cstr "A1B2C3") 0)
                (Some (cstr "12345")) 0 (Some (cstr "JOHN DOE"))).
    assert (E1 : first_match ti_id (ti_heap w) [2] (pi_model r) = None)
      by by_evaluation.
    pose proof (planeInfoPrint_report db w 5 r [2] [cessna_line]) as H.
    rewrite E1 in H.
    destruct H as (_ & db' & H & _).
    + apply (planedb_init_ready blank_model_world db w (heap_ok_boot _ _)).
      by_evaluation.
    + index_by_evaluation.
    + by_evaluation.
    + by_evaluation.
    + exists db'. exact H.
Defined.

(** ** The command-line tool *)

Section MatchFind.
Context {A : Type} (key : A -> Z) (f : list ascii -> Z)
  (P : A -> list ascii -> Prop).

(** The first record with a key, against the first line with it. *)
Lemma first_match_find (h : gmap Z A) addrs lines id :
  Forall2
    (fun a line => exists r, h !! a = Some r /\ key r = f line /\ P r line)
    addrs lines ->
  match find (fun l => f l =? id) lines with
  | None => first_match key h addrs id = None
  | Some line =>
      exists a r,
        first_match key h addrs id = Some a /\ h !! a = Some r
        /\ a ∈ addrs /\ P r line /\ line ∈ lines
  end.
Proof.
  induction 1 as [|a line addrs lines (r & Hr & Hk & HP) _ IH]; [reflexivity|].
  cbn [find first_match]. rewrite Hr, Hk.
  destruct (f line =? id).
  - exists a, r. repeat split; auto; apply list_elem_of_here.
  - destruct (find (fun l => f l =? id) lines) as [l|]; [|exact IH].
    destruct IH as (a' & r' & H1 & H2 & H3 & H4 & H5).
    exists a', r'. repeat split; auto; now apply list_elem_of_further.
Qed.
End MatchFind.

(** X18. The tool, run with one argument in zero-filled memory with both
    files on disk, no allocation failing and every type line reaching
    the seats column: it prints the argument and then what the two files
    say. That is "Plane not found" when the argument parses to 0 or no
    registration line has its id, else the N-number and registrant of
    the first registration line with the id and its model unless that is
    0, followed by the names, type, description and seats of the first
    type line with that model, or by "No model info" when the model is 0
    or in no type line. If
    that type line has a type beyond [typeTable] the run reads outside
    the table and does not end well. When it ends, every record, string
    and the context have been freed and both files are closed. *)
Theorem tool_prints_what_the_files_say (prog icao : list ascii) (w : world)
  (ft fp : list ascii) :
  heap_ok w -> zero_filled w -> never_fails w ->
  disk w "ACFTREF.txt"%string = Some ft ->
  disk w "MASTER.txt"%string = Some fp ->
  (forall tl,
     tl ∈ accepted 68 (file_lines ft) -> 72 <= Z.of_nat (length tl)) ->
  match tool_report ft fp icao with
  | Done out =>
      exists w',
        Standalone.main [prog; icao] w = Done ([Echo icao; out], w')
        /\ ti_heap w' = ti_heap w /\ pi_heap w' = pi_heap w
        /\ live_strings w' = live_strings w /\ live_dbs w' = live_dbs w
        /\ open_files w' = open_files w
  | Fault => Standalone.main [prog; icao] w = Fault
  | Hang => False
  end.
Proof.
  intros Hok Hz Hnf Hft Hfp Hseats.
  destruct (planedb_init_returns w Hok Hnf) as (db & w1 & Hrun); eauto.
  destruct (planedb_init_zero_filled w db w1 Hok Hz Hrun)
    as (ft' & fp' & taddrs & paddrs & Eft & Efp & Ht & Hp & Hc1 & Hc2 & Hc3
        & Hc4 & Hto & Hpo & Htn & Hpn & Hls & Hld & Hof & _).
  assert (ft' = ft) by congruence. assert (fp' = fp) by congruence.
  subst ft' fp'.
  assert (Hat : Forall2
                  (fun a line =>
                     exists r,
                       ti_heap w1 !! a = Some r
                       /\ ti_id r = parse_int line 0
                       /\ type_line_fields line r)
                  taddrs (accepted 68 (file_lines ft))).
  { destruct Ht as (_ & Hall & _).
    eapply (accepted_buffers_Forall2 68 (file_lines ft)); [|exact Hall].
    intros a line b Hlen (r & Hr & Hf). exists r.
    pose proof (type_fields_own_line line b r Hlen Hf) as H.
    split; [exact Hr|]. split; [apply H|exact H]. }
  assert (Hap : Forall2
                  (fun a line =>
                     exists r,
                       pi_heap w1 !! a = Some r
                       /\ pi_id r = parse_hex line 601
                       /\ plane_fields line r)
                  paddrs (accepted 610 (file_lines fp))).
  { destruct Hp as (_ & Hall & _).
    eapply (accepted_buffers_Forall2 610 (file_lines fp)); [|exact Hall].
    intros a line b Hlen (r & Hr & Hf). exists r.
    pose proof (plane_fields_own_line line b r Hlen Hf) as H.
    split; [exact Hr|]. split; [apply H|exact H]. }
  assert (Hclose : forall dbq,
            types dbq = types db -> planes dbq = planes db ->
            exists w'',
              planedb_close (Some dbq) w1 = Done (true, w'')
              /\ ti_heap w'' = ti_heap w /\ pi_heap w'' = pi_heap w
              /\ live_strings w'' = live_strings w
              /\ live_dbs w'' = live_dbs w
              /\ open_files w'' = open_files w).
  { intros dbq Hht Hhp.
    destruct (planedb_close_undoes w w1 db dbq _ _ _ _ Ht Hp Hht Hhp Hto Hpo
                Htn Hpn Hls Hld)
      as (w'' & Hrun' & H1 & H2 & H3 & H4 & H5 & _).
    exists w''. repeat (split; [assumption|]). congruence. }
  pose proof Hp as (Hnp & _ & Hsp & _).
  cbn [Standalone.main]. unfold Standalone.lookup. rewrite Hrun.
  unfold tool_report, found_line, planedb_lookup. rewrite Hc3.
  destruct (Z.eqb_spec (parse_hex icao 0) 0) as [E0|E0].
  { rewrite Hc4. cbn [Standalone.context_after Z.eqb].
    destruct (Hclose db eq_refl eq_refl) as (w'' & -> & Hrest).
    exists w''. split; [reflexivity|exact Hrest]. }
  rewrite (list_scan_total pi_next pi_id _ _ paddrs _ Hnp Hsp).
  pose proof (first_match_find pi_id (fun l => parse_hex l 601)
                (fun r l => plane_fields l r) (pi_heap w1) paddrs _
                (parse_hex icao 0) Hap) as Hfind.
  destruct (find _ (accepted 610 (file_lines fp))) as [pl|].
  2:{ rewrite Hfind. cbn [Standalone.context_after Z.eqb].
      destruct (Hclose db eq_refl eq_refl) as (w'' & -> & Hrest).
      exists w''. split; [reflexivity|exact Hrest]. }
  destruct Hfind as (a & r & -> & Ha & Hain & (_ & Hnn & Hmod & Hreg) & _).
  assert (Hnz : a <> 0) by (now apply (lseg_live _ _ _ _ _ Hsp a)).
  cbv beta iota. destruct (Z.eqb_spec a 0); [contradiction|].
  cbv beta iota. destruct (Z.eqb_spec a 0); [contradiction|].
  cbn [Standalone.context_after].
  set (db1 := mkPlaneDb _ _ _ _ _ _).
  assert (Ht1 : types_loaded w1 db1 taddrs
                  (accepted 68 (line_buffers (file_lines ft) (inbuf w))) 0)
    by (now apply (types_loaded_heads w1 db)).
  unfold planeInfoPrint. rewrite Ha.
  destruct (type_lookup_total db1 w1 taddrs _ (pi_model r) Ht1)
    as (db2 & -> & Hh1 & Hh2 & _).
  cbn [db1 last_model last_ti types planes] in Hh1, Hh2 |- *.
  rewrite Hc1, Hc2, Hnn, Hmod, Hreg.
  destruct (Z.eqb_spec (parse_int pl 37) 0) as [M0|M0].
  { cbv beta iota. cbn [Z.eqb].
    destruct (Hclose db2 Hh1 Hh2) as (w'' & -> & Hrest).
    exists w''. split; [reflexivity|exact Hrest]. }
  pose proof (first_match_find ti_id (fun l => parse_int l 0)
                (fun r l => type_line_fields l r) (ti_heap w1) taddrs _
                (parse_int pl 37) Hat) as Hfind.
  destruct (find _ (accepted 68 (file_lines ft))) as [tl|].
  2:{ rewrite Hfind. cbn [default from_option id]. cbv beta iota.
      cbn [Z.eqb].
      destruct (Hclose db2 Hh1 Hh2) as (w'' & -> & Hrest).
      exists w''. split; [reflexivity|exact Hrest]. }
  destruct Hfind as (a2 & t & -> & Ha2 & Ha2in & Hf & Htl).
  cbn [default from_option id]. cbv beta iota.
  assert (Hnz2 : a2 <> 0).
  { destruct Ht as (_ & _ & Hst & _). now apply (lseg_live _ _ _ _ _ Hst a2). }
  destruct (Z.eqb_spec a2 0); [contradiction|].
  destruct Hf as (_ & Hmf & Hmd & Hty & Hse).
  unfold typeInfoPrint, type_line_report. rewrite Ha2, Hty.
  destruct (typeTable_at (parse_int tl 60)) as [d|]; [|reflexivity].
  rewrite Hmf, Hmd, (Hse (Hseats tl Htl)).
  destruct (Hclose db2 Hh1 Hh2) as (w'' & -> & Hrest).
  exists w''. split; [reflexivity|exact Hrest].
Qed.

Lemma tool_prints_what_the_files_say_witness :
  (exists w',
     Standalone.main [cstr "planedb"; cstr "A1B2C3"] sample_world
     = Done
         ([Echo (cstr "A1B2C3");
           Report
             (mkPlaneReport (Some (cstr "12345")) (Some (cstr "JOHN DOE"))
                (Some 1200119)
                (Some
                   (mkTypeReport (Some (cstr "CESSNA")) (Some (cstr "172")) 4
                      "Fixed wing single engine" 4)))],
          w')
     /\ live_strings w' = 0%nat /\ live_dbs w' = 0%nat)
  /\ (exists w',
        Standalone.main [cstr "planedb"; cstr "A1B2C3"] blank_model_world
        = Done
            ([Echo (cstr "A1B2C3");
              Report
                (mkPlaneReport (Some (cstr "12345")) (Some (cstr "JOHN DOE"))
                   None None)],
             w')
        /\ live_strings w' = 0%nat /\ live_dbs w' = 0%nat).
Proof.
  assert (Hseats : forall tl,
            tl ∈ accepted 68 (file_lines cessna_line) ->
            72 <= Z.of_nat (length tl)).
  { intros tl Htl.
    replace (accepted 68 (file_lines cessna_line)) with [cessna_line] in Htl
      by (vm_compute; reflexivity).
    apply list_elem_of_singleton in Htl. subst tl. by_evaluation. }
  split.
  - pose proof (tool_prints_what_the_files_say (cstr "planedb")
                  (cstr "A1B2C3") sample_world cessna_line n12345_line
                  (heap_ok_boot _ _) (zero_filled_clean _)
                  (never_fails_clean _) eq_refl eq_refl Hseats) as H.
    assert (E : tool_report cessna_line n12345_line (cstr "A1B2C3")
                = Done
                    (Report
                       (mkPlaneReport (Some (cstr "12345"))
                          (Some (cstr "JOHN DOE")) (Some 1200119)
                          (Some
                             (mkTypeReport (Some (cstr "CESSNA"))
                                (Some (cstr "172")) 4
                                "Fixed wing single engine" 4)))))
      by (vm_compute; reflexivity).
    rewrite E in H. destruct H as (w' & Hrun & _ & _ & Hs & Hd & _).
    exists w'. split; [exact Hrun|]. split; [exact Hs|exact Hd].
  - pose proof (tool_prints_what_the_files_say (cstr "planedb")
                  (cstr "A1B2C3") blank_model_world cessna_line
                  blank_model_line (heap_ok_boot _ _) (zero_filled_clean _)
                  (never_fails_clean _) eq_refl eq_refl Hseats) as H.
    assert (E : tool_report cessna_line blank_model_line (cstr "A1B2C3")
                = Done
                    (Report
                       (mkPlaneReport (Some (cstr "12345"))
                          (Some (cstr "JOHN DOE")) None None)))
      by (vm_compute; reflexivity).
    rewrite E in H. destruct H as (w' & Hrun & _ & _ & Hs & Hd & _).
    exists w'. split; [exact Hrun|]. split; [exact Hs|exact Hd].
Defined.

(** ** The reading loop *)

Lemma fgets_length n : forall f l r,
  fgets n f = (l, r) -> (length l <= n)%nat.
Proof.
  induction n as [|n IH]; intros [|c f] l r; simpl;
    try (intros [= <- <-]; simpl; lia).
  destruct (Ascii.eqb c NL); [intros [= <- <-]; simpl; lia|].
  destruct (fgets n f) as [l' r'] eqn:E. intros [= <- <-].
  simpl. specialize (IH _ _ _ E). lia.
Qed.

Lemma fgets_newline_last n : forall f l r,
  fgets n f = (l, r) -> forall body c, l = body ++ [c] -> NL ∉ body.
Proof.
  induction n as [|n IH]; intros [|c f] l r; simpl;
    try (intros [= <- <-] [|b body] c'; discriminate).
  destruct (Ascii.eqb_spec c NL) as [->|Hc].
  - intros [= <- <-] [|b body] c' E.
    + apply not_elem_of_nil.
    + destruct body; discriminate.
  - destruct (fgets n f) as [l' r'] eqn:E. intros [= <- <-] body c' Hb.
    destruct body as [|b body].
    + apply not_elem_of_nil.
    + injection Hb as <- Hb. intros Hin.
      apply elem_of_cons in Hin as [Hin|Hin]; [now symmetry in Hin|].
      now apply (IH _ _ _ E body c' Hb).
Qed.

Lemma fgets_chunk chunk rest :
  NL ∉ chunk -> fgets (length chunk) (chunk ++ rest) = (chunk, rest).
Proof.
  induction chunk as [|c chunk IH]; intros Hnl.
  - destruct rest; reflexivity.
  - simpl. destruct (Ascii.eqb_spec c NL) as [->|_].
    + exfalso. apply Hnl. apply list_elem_of_here.
    + rewrite IH; [reflexivity|].
      intros H. apply Hnl. now apply list_elem_of_further.
Qed.

Lemma read_lines_whole fuel : forall f,
  (length f <= fuel)%nat ->
  concat (read_lines fuel f) = f
  /\ Forall
       (fun l =>
          (0 < length l <= INSIZE - 1)%nat
          /\ forall body c, l = body ++ [c] -> NL ∉ body)
       (read_lines fuel f).
Proof.
  induction fuel as [|k IH]; intros [|c f] Hf; try (simpl in Hf; lia);
    try (split; [reflexivity|constructor]).
  cbn [read_lines]. change (INSIZE - 1)%nat with (S 1022).
  destruct (fgets (S 1022) (c :: f)) as [l r] eqn:E.
  pose proof (fgets_progress _ _ _ _ _ E) as Hr.
  pose proof (fgets_app _ _ _ _ E) as Happ.
  pose proof (fgets_length _ _ _ _ E) as Hlen.
  pose proof (fgets_newline_last _ _ _ _ E) as Hnl.
  destruct (IH r) as [Hc Hall]; [simpl in *; lia|].
  split.
  - cbn [concat]. now rewrite Hc.
  - constructor; [|exact Hall].
    split; [|exact Hnl]. split; [|exact Hlen].
    destruct l as [|x l]; [|simpl; lia].
    simpl in Happ. subst r. simpl in Hr. lia.
Qed.

(** X19. The [while (!feof(f))] loops read a file whole and in order, in
    strings that fit the buffer: the strings [fgets] returns are not
    empty, have at most [INSIZE - 1] bytes, hold a newline at their end
    only, and put together are the file. A stretch of [INSIZE - 1] bytes
    without a newline is a string of its own, so a longer line reaches
    the loaders in pieces, each piece taken for a line. *)
Theorem file_read_in_buffer_sized_strings (f : list ascii) :
  concat (file_lines f) = f
  /\ Forall
       (fun l =>
          (0 < length l <= INSIZE - 1)%nat
          /\ forall body c, l = body ++ [c] -> NL ∉ body)
       (file_lines f)
  /\ forall chunk rest,
       f = chunk ++ rest -> length chunk = (INSIZE - 1)%nat -> NL ∉ chunk ->
       file_lines f = chunk :: file_lines rest.
Proof.
  destruct (read_lines_whole (length f) f (le_n _)) as [H1 H2].
  split; [exact H1|]. split; [exact H2|].
  intros chunk rest -> Hlen Hnl. unfold file_lines.
  pose proof (fgets_chunk chunk rest Hnl) as F. rewrite Hlen in F.
  destruct chunk as [|c chunk]; [discriminate Hlen|]. clear Hlen.
  cbn [app length read_lines] in F |- *. rewrite F. f_equal.
  apply read_lines_fuel; rewrite ?length_app; lia.
Qed.

Lemma file_read_in_buffer_sized_strings_witness :
  let chunk := replicate 1023 "A"%char in
  let rest := replicate 977 "A"%char ++ [NL] in
  file_lines (chunk ++ rest) = chunk :: file_lines rest.
Proof.
  intros chunk rest.
  apply (proj2 (proj2 (file_read_in_buffer_sized_strings (chunk ++ rest)))
           chunk rest eq_refl).
  - apply length_replicate.
  - intros H. apply elem_of_replicate in H as [H _]. discriminate.
Defined.

(** ** Lookups against the files *)

(** X20. The answers of a context built in zero-filled memory, read off
    the files. On that context, or on what lookups have made of it, as
    long as the caches agree with the indexes: [planedb_lookup] returns
    the record of the first string of at least 610 bytes of MASTER.txt
    whose ICAO field parses to the same number as the argument, with the
    four fields of that string, and [NULL] when there is none;
    [type_lookup] returns the record of the first string of at least 68
    bytes of ACFTREF.txt with the id, and [NULL] when there is none. *)
Theorem lookup_returns_first_line (w : world) (db : PlaneDb) (w' : world) :
  heap_ok w -> zero_filled w -> planedb_init w = Done (Some db, w') ->
  exists ft fp,
    disk w "ACFTREF.txt"%string = Some ft
    /\ disk w "MASTER.txt"%string = Some fp
    /\ forall dbq,
         types dbq = types db -> planes dbq = planes db -> caches_ok dbq w' ->
         (forall icao,
            exists rec odb,
              planedb_lookup (Some dbq) (Some icao) w' = Done (rec, odb)
              /\ match
                   find (fun l => parse_hex l 601 =? parse_hex icao 0)
                     (accepted 610 (file_lines fp))
                 with
                 | None => rec = 0
                 | Some pl =>
                     exists r,
                       pi_heap w' !! rec = Some r /\ plane_fields pl r
                 end)
         /\ (forall id,
               exists rec dbq',
                 type_lookup dbq id w' = Done (rec, dbq')
                 /\ match
                      find (fun l => parse_int l 0 =? id)
                        (accepted 68 (file_lines ft))
                    with
                    | None => rec = 0
                    | Some tl =>
                        exists t,
                          ti_heap w' !! rec = Some t
                          /\ type_line_fields tl t
                    end).
Proof.
  intros Hok Hz Hrun.
  destruct (planedb_init_zero_filled w db w' Hok Hz Hrun)
    as (ft & fp & taddrs & paddrs & Eft & Efp & Ht & Hp & _).
  exists ft, fp. split; [exact Eft|]. split; [exact Efp|].
  intros dbq Hht Hhp Hcache.
  pose proof Ht as (Hnt & Hallt & Hst & _).
  pose proof Hp as (Hnp & Hallp & Hsp & _).
  split.
  - intros icao.
    destruct (planedb_lookup_coherent dbq icao w' Hcache) as (db1 & Hl & _).
    unfold plane_scan in Hl. rewrite Hhp in Hl.
    rewrite (list_scan_total pi_next pi_id _ _ paddrs _ Hnp Hsp) in Hl.
    assert (Hap : Forall2
                    (fun a line =>
                       exists r,
                         pi_heap w' !! a = Some r
                         /\ pi_id r = parse_hex line 601
                         /\ plane_fields line r)
                    paddrs (accepted 610 (file_lines fp))).
    { eapply (accepted_buffers_Forall2 610 (file_lines fp)); [|exact Hallp].
      intros a line b Hlen (r & Hr & Hf). exists r.
      pose proof (plane_fields_own_line line b r Hlen Hf) as H.
      split; [exact Hr|]. split; [apply H|exact H]. }
    pose proof (first_match_find pi_id (fun l => parse_hex l 601)
                  (fun r l => plane_fields l r) (pi_heap w') paddrs _
                  (parse_hex icao 0) Hap) as Hfind.
    destruct (find _ (accepted 610 (file_lines fp))) as [pl|].
    + destruct Hfind as (a & r & Hfm & Ha & _ & Hf & _).
      rewrite Hfm in Hl. exists a, (Some db1). split; [exact Hl|eauto].
    + rewrite Hfind in Hl. exists 0, (Some db1). split; [exact Hl|reflexivity].
  - intros id.
    destruct (type_lookup_coherent dbq id w' Hcache) as (db1 & Hl & _).
    unfold type_scan in Hl. rewrite Hht in Hl.
    rewrite (list_scan_total ti_next ti_id _ _ taddrs _ Hnt Hst) in Hl.
    assert (Hat : Forall2
                    (fun a line =>
                       exists r,
                         ti_heap w' !! a = Some r
                         /\ ti_id r = parse_int line 0
                         /\ type_line_fields line r)
                    taddrs (accepted 68 (file_lines ft))).
    { eapply (accepted_buffers_Forall2 68 (file_lines ft)); [|exact Hallt].
      intros a line b Hlen (r & Hr & Hf). exists r.
      pose proof (type_fields_own_line line b r Hlen Hf) as H.
      split; [exact Hr|]. split; [apply H|exact H]. }
    pose proof (first_match_find ti_id (fun l => parse_int l 0)
                  (fun r l => type_line_fields l r) (ti_heap w') taddrs _
                  id Hat) as Hfind.
    destruct (find _ (accepted 68 (file_lines ft))) as [tl|].
    + destruct Hfind as (a & r & Hfm & Ha & _ & Hf & _).
      rewrite Hfm in Hl. exists a, db1. split; [exact Hl|eauto].
    + rewrite Hfind in Hl. exists 0, db1. split; [exact Hl|reflexivity].
Qed.

Lemma lookup_returns_first_line_witness :
  let o := planedb_init twin_world in
  let db := ready_db o in
  let w' := ready_world twin_world o in
  exists rec odb,
    planedb_lookup (Some db) (Some (cstr "a1b2c3")) w' = Done (rec, odb)
    /\ exists r,
         pi_heap w' !! rec = Some r
         /\ pi_nnum r = Some (cstr "12345").
Proof.
  intros o db w'.
  destruct (lookup_returns_first_line twin_world db w' (heap_ok_boot _ _)
              (zero_filled_clean _) ltac:(by_evaluation))
    as (ft & fp & _ & Efp & H).
  injection Efp as <-.
  destruct (H db eq_refl eq_refl ltac:(split; by_evaluation)) as [Hp _].
  destruct (Hp (cstr "a1b2c3")) as (rec & odb & Hrun & Hrec).
  exists rec, odb. split; [exact Hrun|].
  replace (find _ _) with (Some n12345_line) in Hrec
    by (vm_compute; reflexivity).
  destruct Hrec as (r & Hr & _ & Hnn & _). exists r. split; [exact Hr|].
  rewrite Hnn. by_evaluation.
Defined.

(** ** Loads that run out of memory *)

Lemma length_remove_first x l :
  (length l <= length (remove_first x l) + 1)%nat.
Proof.
  induction l as [|y l IH]; [simpl; lia|]. cbn [remove_first].
  destruct (String.eqb x y); simpl; lia.
Qed.

(** The round of [load_types] in which [typeInfoCreate] fails: the file
    is closed and nothing was allocated. *)
Lemma load_types_no_record fname line rest prev db w :
  68 <= strlen (fgets_store line (inbuf w)) ->
  allocator w (mallocs w) = ENOMEM ->
  exists w',
    load_types_loop fname (line :: rest) prev db w = (false, db, w')
    /\ ti_heap w' = ti_heap w /\ pi_heap w' = pi_heap w /\ brk w' = brk w
    /\ allocator w' = allocator w /\ live_strings w' = live_strings w
    /\ live_dbs w' = live_dbs w
    /\ open_files w' = remove_first fname (open_files w).
Proof.
  intros Hlen A1. cbn [load_types_loop]. cbn [inbuf set_inbuf].
  destruct (Z.ltb_spec (strlen (fgets_store line (inbuf w))) 68); [lia|].
  unfold typeInfoCreate, malloc. cbn [allocator mallocs set_inbuf]. rewrite A1.
  cbn [Z.eqb]. eexists. split; [reflexivity|]. repeat split.
Qed.

(** The rounds in which a [strndup] fails: the record stays allocated,
    linked nowhere, and the file stays open. *)
Lemma load_types_no_string fname line rest prev db w junk :
  0 < brk w ->
  68 <= strlen (fgets_store line (inbuf w)) ->
  allocator w (mallocs w) = Block junk ->
  allocator w (S (mallocs w)) = ENOMEM
  \/ allocator w (S (S (mallocs w))) = ENOMEM ->
  exists w' r k,
    load_types_loop fname (line :: rest) prev db w = (false, db, w')
    /\ ti_heap w' = <[brk w := r]> (ti_heap w)
    /\ pi_heap w' = pi_heap w /\ brk w < brk w'
    /\ allocator w' = allocator w
    /\ live_strings w' = (live_strings w + k)%nat /\ (k <= 1)%nat
    /\ live_dbs w' = live_dbs w
    /\ open_files w' = open_files w.
Proof.
  intros Hbrk Hlen A1 Hoom. cbn [load_types_loop]. cbn [inbuf set_inbuf].
  destruct (Z.ltb_spec (strlen (fgets_store line (inbuf w))) 68); [lia|].
  unfold typeInfoCreate, malloc. cbn [allocator mallocs set_inbuf]. rewrite A1.
  cbn [brk set_inbuf].
  destruct (Z.eqb_spec (brk w) 0); [lia|].
  unfold pickup_w, malloc, ti_field. world_fields.
  destruct (allocator w (S (mallocs w))) as [|j2] eqn:A2.
  - world_fields. rewrite !alter_insert_eq.
    eexists _, _, 0%nat. split; [reflexivity|]. world_fields.
    repeat split; lia.
  - world_fields.
    destruct (allocator w (S (S (mallocs w)))) as [|j3] eqn:A3;
      [|destruct Hoom; discriminate].
    world_fields. rewrite !alter_insert_eq.
    eexists _, _, 1%nat. split; [reflexivity|]. world_fields.
    repeat split; lia.
Qed.

Lemma list_built_frame {A} (next : A -> Z) (h h' : gmap Z A) head prev done :
  list_built next h head prev done ->
  (forall a, a ∈ done -> h' !! a = h !! a) ->
  list_built next h' head prev done.
Proof.
  intros [Hnd Hb] Hsame. split; [exact Hnd|].
  destruct Hb as [[-> ->]|(init & -> & Hnz & Hlive & Hseg)]; [now left|].
  right. exists init. split; [reflexivity|]. split; [exact Hnz|].
  split.
  - rewrite Hsame; [exact Hlive|]. apply elem_of_app. right.
    apply list_elem_of_here.
  - apply (lseg_frame next h); [exact Hseg|].
    intros a Ha. apply Hsame. apply elem_of_app. now left.
Qed.

(** The loop of [load_types] when it returns FALSE: the records appended
    before the failing round are linked and complete, and at most one
    record, with at most one string, is left outside the list. *)
Lemma load_types_loop_failed fname lines : forall prev db w done db' w',
  heap_ok w ->
  list_built ti_next (ti_heap w) (types db) prev done ->
  load_types_loop fname lines prev db w = (false, db', w') ->
  exists addrs prev' leak,
    heap_ok w'
    /\ list_built ti_next (ti_heap w') (types db') prev' (done ++ addrs)
    /\ Forall
         (fun a => exists r, ti_heap w' !! a = Some r /\ type_strings_set r)
         addrs
    /\ (forall a,
          is_Some (ti_heap w' !! a) ->
          is_Some (ti_heap w !! a) \/ a ∈ addrs \/ a ∈ leak)
    /\ (forall a r, ti_heap w !! a = Some r ->
          exists r', ti_heap w' !! a = Some r'
                     /\ with_ti_next 0 r' = with_ti_next 0 r)
    /\ pi_heap w' = pi_heap w
    /\ with_types 0 db' = with_types 0 db
    /\ (addrs = [] \/ done <> [] -> types db' = types db)
    /\ (forall a, a ∈ addrs -> brk w <= a)
    /\ (forall r', ti_heap w' !! prev' = Some r' ->
          (addrs = []
           /\ exists r, ti_heap w !! prev = Some r /\ ti_next r' = ti_next r)
          \/ exists n junk,
               allocator w n = Block junk /\ ti_next r' = junk_word junk 0)
    /\ allocator w' = allocator w
    /\ (length leak <= 1)%nat
    /\ (live_strings w'
        <= live_strings w + 2 * length addrs + length leak)%nat
    /\ live_dbs w' = live_dbs w
    /\ (length (open_files w')
        <= length (remove_first fname (open_files w)) + length leak)%nat
    /\ (forall a r, ti_heap w !! a = Some r -> a <> prev ->
          ti_heap w' !! a = Some r).
Proof.
  induction lines as [|line rest IH]; intros prev db w done db' w' Hok Hb Hrun.
  - discriminate.
  - destruct (Z.lt_ge_cases (strlen (fgets_store line (inbuf w))) 68) as [Hs|Hs].
    + rewrite load_types_short in Hrun by exact Hs.
      apply (IH prev db (set_inbuf (fgets_store line (inbuf w)) w) done);
        auto.
    + pose proof Hok as (Hbrk & Htl & Hpl).
      pose proof (heap_ok_fresh_type w Hok) as Hfresh.
      destruct (allocator w (mallocs w)) as [|junk] eqn:A1.
      { destruct (load_types_no_record fname line rest prev db w Hs A1)
          as (w0 & Hrun0 & Hh & Hp & Hbrk0 & Hal & Hls & Hld & Hof).
        rewrite Hrun0 in Hrun. injection Hrun as <- <-.
        assert (Hok0 : heap_ok w0).
        { unfold heap_ok. rewrite Hh, Hp, Hbrk0. exact Hok. }
        exists [], prev, []. rewrite app_nil_r, Hh, Hp.
        split; [exact Hok0|].
        split; [exact Hb|]. split; [constructor|]. split; [auto|].
        split; [intros a r Hr; exists r; auto|].
        split; [reflexivity|]. split; [reflexivity|]. split; [auto|].
        split; [intros a Ha; now apply elem_of_nil in Ha|].
        split; [intros r' Hr'; left; split; [reflexivity|]; exists r'; auto|].
        split; [exact Hal|]. cbn [length]. rewrite Hof.
        repeat split; auto; lia. }
      assert (Hcases :
                (allocator w (S (mallocs w)) = ENOMEM
                 \/ allocator w (S (S (mallocs w))) = ENOMEM)
                \/ exists j2 j3,
                     allocator w (S (mallocs w)) = Block j2
                     /\ allocator w (S (S (mallocs w))) = Block j3).
      { destruct (allocator w (S (mallocs w))); [left; now left|].
        destruct (allocator w (S (S (mallocs w)))); [left; now right|].
        right. eauto. }
      destruct Hcases as [Hoom|(j2 & j3 & A2 & A3)].
      { destruct (load_types_no_string fname line rest prev db w junk Hbrk Hs
                    A1 Hoom)
          as (w0 & r0 & k & Hrun0 & Hh & Hp & Hbrk0 & Hal & Hls & Hk & Hld
              & Hof).
        rewrite Hrun0 in Hrun. injection Hrun as <- <-.
        assert (Hold : forall a r, ti_heap w !! a = Some r ->
                                   <[brk w := r0]> (ti_heap w) !! a = Some r).
        { intros a r Hr. rewrite lookup_insert_ne; [exact Hr|].
          intros <-. congruence. }
        assert (Hok0 : heap_ok w0).
        { unfold heap_ok. rewrite Hh, Hp.
          split; [lia|]. split; intros a Ha.
          - destruct (Z.eq_dec a (brk w)) as [->|Hne]; [lia|].
            rewrite lookup_insert_ne in Ha by congruence.
            specialize (Htl a Ha). lia.
          - specialize (Hpl a Ha). lia. }
        exists [], prev, [brk w]. rewrite app_nil_r, Hh, Hp.
        split; [exact Hok0|].
        split.
        { apply (list_built_frame ti_next (ti_heap w)); [exact Hb|].
          intros a Ha. apply lookup_insert_ne. intros <-.
          destruct (list_built_live _ _ _ _ _ Hb _ Ha) as [_ [x Hx]].
          congruence. }
        split; [constructor|].
        split.
        { intros a Ha. destruct (Z.eq_dec a (brk w)) as [->|Hne].
          - right. right. apply list_elem_of_here.
          - left. now rewrite lookup_insert_ne in Ha by congruence. }
        split; [intros a r Hr; exists r; auto|].
        split; [reflexivity|]. split; [reflexivity|]. split; [auto|].
        split; [intros a Ha; now apply elem_of_nil in Ha|].
        split.
        { intros r' Hr'. left. split; [reflexivity|]. exists r'.
          split; [|reflexivity].
          destruct (Z.eq_dec prev (brk w)) as [E|Hne].
          - exfalso. destruct Hb as [_ [[_ ->]|(init & _ & _ & [x Hx] & _)]].
            + lia.
            + rewrite E in Hx. congruence.
          - now rewrite lookup_insert_ne in Hr' by congruence. }
        split; [exact Hal|]. cbn [length]. rewrite Hof, Hls.
        pose proof (length_remove_first fname (open_files w)).
        repeat split; auto; lia. }
      rewrite (load_types_round _ _ _ _ _ _ junk j2 j3) in Hrun by auto.
      set (str := fgets_store line (inbuf w)) in *.
      set (ti := brk w) in *.
      apply (IH _ _ _ (done ++ [ti])) in Hrun; cycle 1.
      { split; [cbn [brk]; lia|]. split; cbn [brk ti_heap pi_heap].
        - intros a Ha. apply link_type_is_Some in Ha.
          destruct (Z.eq_dec a ti) as [->|Hne]; [unfold ti; lia|].
          rewrite lookup_insert_ne in Ha by congruence.
          specialize (Htl a Ha). lia.
        - intros a Ha. specialize (Hpl a Ha). lia. }
      { cbn [ti_heap].
        pose proof (list_built_append ti_next with_ti_next ltac:(reflexivity)
                      (ti_heap w) (types db) prev done ti
                      (type_record junk str) Hb Hfresh ltac:(unfold ti; lia))
          as Happ.
        unfold link_type. destruct (prev =? 0); exact Happ. }
      destruct Hrun as (addrs & prev' & leak & Hok' & Hb' & Hall & Hdom
                        & Hdata & Hpi & Hdb & Hhead & Hge & Htail & Hal
                        & Hlk & Hls & Hld & Hof & Hold).
      cbn [inbuf ti_heap pi_heap] in *.
      exists (ti :: addrs), prev', leak.
      assert (Hti : exists r', ti_heap w' !! ti = Some r'
                               /\ type_strings_set r').
      { destruct (link_type_data prev ti
                    (<[ti := type_record junk str]> (ti_heap w)) ti
                    (type_record junk str) (lookup_insert_eq _ _ _))
          as (r1 & Hr1 & Hd1).
        destruct (Hdata _ _ Hr1) as (r2 & Hr2 & Hd2).
        exists r2. split; [exact Hr2|].
        apply (type_fields_strings str).
        apply (type_fields_data str (type_record junk str));
          [congruence | apply type_record_fields]. }
      split; [exact Hok'|].
      split; [now rewrite <- app_assoc in Hb'|].
      split; [constructor; [exact Hti | exact Hall]|].
      split.
      { intros a Ha. destruct (Hdom a Ha) as [H|[H|H]]; [|auto|auto].
        - apply link_type_is_Some in H.
          destruct (Z.eq_dec a ti) as [->|Hne].
          + right. left. apply list_elem_of_here.
          + left. now rewrite lookup_insert_ne in H by congruence.
        - right. left. now apply list_elem_of_further. }
      split.
      { intros a r Hr.
        assert (Hne : ti <> a) by (intros <-; congruence).
        destruct (link_type_data prev ti
                    (<[ti := type_record junk str]> (ti_heap w)) a r)
          as (r1 & Hr1 & Hd1).
        { now rewrite lookup_insert_ne. }
        destruct (Hdata _ _ Hr1) as (r2 & Hr2 & Hd2).
        exists r2. split; [exact Hr2|congruence]. }
      split; [exact Hpi|].
      split.
      { rewrite Hdb. destruct (prev =? 0); reflexivity. }
      split.
      { intros [H|H]; [discriminate|].
        rewrite Hhead.
        - destruct Hb as [_ [[-> _]|(init & -> & Hnz & _)]]; [congruence|].
          destruct (Z.eqb_spec prev 0); [contradiction|reflexivity].
        - right. destruct done; discriminate. }
      split.
      { intros a Ha. apply elem_of_cons in Ha as [->|Ha]; [unfold ti; lia|].
        specialize (Hge a Ha). cbn [brk] in Hge. lia. }
      cbn [allocator mallocs live_strings live_dbs open_files length] in *.
      split.
      { intros r' Hr'. right.
        destruct (Htail r' Hr') as [(_ & r & Hr & E)|(n & j & Hn & E)];
          [|eauto].
        exists (mallocs w), junk. split; [exact A1|]. rewrite E.
        assert (Hlast : link_type prev ti
                          (<[ti := type_record junk str]> (ti_heap w)) !! ti
                        = Some (type_record junk str)).
        { unfold link_type.
          destruct (Z.eqb_spec prev 0); [apply lookup_insert_eq|].
          rewrite lookup_alter_ne; [apply lookup_insert_eq|].
          intros E0.
          destruct Hb as [_ [[_ ?]|(init & _ & _ & [x Hx] & _)]];
            [contradiction|].
          rewrite E0 in Hx. congruence. }
        rewrite Hlast in Hr. injection Hr as <-. reflexivity. }
      split; [assumption|]. split; [assumption|]. split; [lia|].
      split; [assumption|]. split; [assumption|].
      intros a r Hr Hne.
      assert (Hfr : a <> brk w) by (intros ->; unfold ti in Hfresh; congruence).
      apply Hold; [|exact Hfr].
      unfold link_type. destruct (Z.eqb_spec prev 0).
      * rewrite lookup_insert_ne by (unfold ti; congruence). exact Hr.
      * rewrite lookup_alter_ne by congruence.
        rewrite lookup_insert_ne by (unfold ti; congruence). exact Hr.
Qed.

(** The round of [load_planes] in which [planeInfoCreate] fails: the file
    is closed and nothing was allocated. *)
Lemma load_planes_no_record fname line rest prev db w :
  610 <= strlen (fgets_store line (inbuf w)) ->
  allocator w (mallocs w) = ENOMEM ->
  exists w',
    load_planes_loop fname (line :: rest) prev db w = (false, db, w')
    /\ pi_heap w' = pi_heap w /\ ti_heap w' = ti_heap w /\ brk w' = brk w
    /\ allocator w' = allocator w /\ live_strings w' = live_strings w
    /\ live_dbs w' = live_dbs w
    /\ open_files w' = remove_first fname (open_files w).
Proof.
  intros Hlen A1. cbn [load_planes_loop]. cbn [inbuf set_inbuf].
  destruct (Z.ltb_spec (strlen (fgets_store line (inbuf w))) 610); [lia|].
  unfold planeInfoCreate, malloc. cbn [allocator mallocs set_inbuf]. rewrite A1.
  cbn [Z.eqb]. eexists. split; [reflexivity|]. repeat split.
Qed.

(** The rounds in which a [strndup] fails: the record stays allocated,
    linked nowhere, and the file stays open. *)
Lemma load_planes_no_string fname line rest prev db w junk :
  0 < brk w ->
  610 <= strlen (fgets_store line (inbuf w)) ->
  allocator w (mallocs w) = Block junk ->
  allocator w (S (mallocs w)) = ENOMEM
  \/ allocator w (S (S (mallocs w))) = ENOMEM ->
  exists w' r k,
    load_planes_loop fname (line :: rest) prev db w = (false, db, w')
    /\ pi_heap w' = <[brk w := r]> (pi_heap w)
    /\ ti_heap w' = ti_heap w /\ brk w < brk w'
    /\ allocator w' = allocator w
    /\ live_strings w' = (live_strings w + k)%nat /\ (k <= 1)%nat
    /\ live_dbs w' = live_dbs w
    /\ open_files w' = open_files w.
Proof.
  intros Hbrk Hlen A1 Hoom. cbn [load_planes_loop]. cbn [inbuf set_inbuf].
  destruct (Z.ltb_spec (strlen (fgets_store line (inbuf w))) 610); [lia|].
  unfold planeInfoCreate, malloc. cbn [allocator mallocs set_inbuf]. rewrite A1.
  cbn [brk set_inbuf].
  destruct (Z.eqb_spec (brk w) 0); [lia|].
  unfold pickup_w, malloc, pi_field. world_fields.
  destruct (allocator w (S (mallocs w))) as [|j2] eqn:A2.
  - world_fields. rewrite !alter_insert_eq.
    eexists _, _, 0%nat. split; [reflexivity|]. world_fields.
    repeat split; lia.
  - world_fields.
    destruct (allocator w (S (S (mallocs w)))) as [|j3] eqn:A3;
      [|destruct Hoom; discriminate].
    world_fields. rewrite !alter_insert_eq.
    eexists _, _, 1%nat. split; [reflexivity|]. world_fields.
    repeat split; lia.
Qed.

(** The loop of [load_planes] when it returns FALSE: the records appended
    before the failing round are linked and complete, and at most one
    record, with at most one string, is left outside the list. *)
Lemma load_planes_loop_failed fname lines : forall prev db w done db' w',
  heap_ok w ->
  list_built pi_next (pi_heap w) (planes db) prev done ->
  load_planes_loop fname lines prev db w = (false, db', w') ->
  exists addrs prev' leak,
    heap_ok w'
    /\ list_built pi_next (pi_heap w') (planes db') prev' (done ++ addrs)
    /\ Forall
         (fun a => exists r, pi_heap w' !! a = Some r /\ plane_strings_set r)
         addrs
    /\ (forall a,
          is_Some (pi_heap w' !! a) ->
          is_Some (pi_heap w !! a) \/ a ∈ addrs \/ a ∈ leak)
    /\ (forall a r, pi_heap w !! a = Some r ->
          exists r', pi_heap w' !! a = Some r'
                     /\ with_pi_next 0 r' = with_pi_next 0 r)
    /\ ti_heap w' = ti_heap w
    /\ with_planes 0 db' = with_planes 0 db
    /\ (addrs = [] \/ done <> [] -> planes db' = planes db)
    /\ (forall a, a ∈ addrs -> brk w <= a)
    /\ (forall r', pi_heap w' !! prev' = Some r' ->
          (addrs = []
           /\ exists r, pi_heap w !! prev = Some r /\ pi_next r' = pi_next r)
          \/ exists n junk,
               allocator w n = Block junk /\ pi_next r' = junk_word junk 0)
    /\ allocator w' = allocator w
    /\ (length leak <= 1)%nat
    /\ (live_strings w'
        <= live_strings w + 2 * length addrs + length leak)%nat
    /\ live_dbs w' = live_dbs w
    /\ (length (open_files w')
        <= length (remove_first fname (open_files w)) + length leak)%nat
    /\ (forall a r, pi_heap w !! a = Some r -> a <> prev ->
          pi_heap w' !! a = Some r).
Proof.
  induction lines as [|line rest IH]; intros prev db w done db' w' Hok Hb Hrun.
  - discriminate.
  - destruct (Z.lt_ge_cases (strlen (fgets_store line (inbuf w))) 610) as [Hs|Hs].
    + rewrite load_planes_short in Hrun by exact Hs.
      apply (IH prev db (set_inbuf (fgets_store line (inbuf w)) w) done);
        auto.
    + pose proof Hok as (Hbrk & Htl & Hpl).
      pose proof (heap_ok_fresh_plane w Hok) as Hfresh.
      destruct (allocator w (mallocs w)) as [|junk] eqn:A1.
      { destruct (load_planes_no_record fname line rest prev db w Hs A1)
          as (w0 & Hrun0 & Hh & Hp & Hbrk0 & Hal & Hls & Hld & Hof).
        rewrite Hrun0 in Hrun. injection Hrun as <- <-.
        assert (Hok0 : heap_ok w0).
        { unfold heap_ok. rewrite Hh, Hp, Hbrk0. exact Hok. }
        exists [], prev, []. rewrite app_nil_r, Hh, Hp.
        split; [exact Hok0|].
        split; [exact Hb|]. split; [constructor|]. split; [auto|].
        split; [intros a r Hr; exists r; auto|].
        split; [reflexivity|]. split; [reflexivity|]. split; [auto|].
        split; [intros a Ha; now apply elem_of_nil in Ha|].
        split; [intros r' Hr'; left; split; [reflexivity|]; exists r'; auto|].
        split; [exact Hal|]. cbn [length]. rewrite Hof.
        repeat split; auto; lia. }
      assert (Hcases :
                (allocator w (S (mallocs w)) = ENOMEM
                 \/ allocator w (S (S (mallocs w))) = ENOMEM)
                \/ exists j2 j3,
                     allocator w (S (mallocs w)) = Block j2
                     /\ allocator w (S (S (mallocs w))) = Block j3).
      { destruct (allocator w (S (mallocs w))); [left; now left|].
        destruct (allocator w (S (S (mallocs w)))); [left; now right|].
        right. eauto. }
      destruct Hcases as [Hoom|(j2 & j3 & A2 & A3)].
      { destruct (load_planes_no_string fname line rest prev db w junk Hbrk Hs
                    A1 Hoom)
          as (w0 & r0 & k & Hrun0 & Hh & Hp & Hbrk0 & Hal & Hls & Hk & Hld
              & Hof).
        rewrite Hrun0 in Hrun. injection Hrun as <- <-.
        assert (Hold : forall a r, pi_heap w !! a = Some r ->
                                   <[brk w := r0]> (pi_heap w) !! a = Some r).
        { intros a r Hr. rewrite lookup_insert_ne; [exact Hr|].
          intros <-. congruence. }
        assert (Hok0 : heap_ok w0).
        { unfold heap_ok. rewrite Hh, Hp.
          split; [lia|]. split; intros a Ha.
          - specialize (Htl a Ha). lia.
          - destruct (Z.eq_dec a (brk w)) as [->|Hne]; [lia|].
            rewrite lookup_insert_ne in Ha by congruence.
            specialize (Hpl a Ha). lia. }
        exists [], prev, [brk w]. rewrite app_nil_r, Hh, Hp.
        split; [exact Hok0|].
        split.
        { apply (list_built_frame pi_next (pi_heap w)); [exact Hb|].
          intros a Ha. apply lookup_insert_ne. intros <-.
          destruct (list_built_live _ _ _ _ _ Hb _ Ha) as [_ [x Hx]].
          congruence. }
        split; [constructor|].
        split.
        { intros a Ha. destruct (Z.eq_dec a (brk w)) as [->|Hne].
          - right. right. apply list_elem_of_here.
          - left. now rewrite lookup_insert_ne in Ha by congruence. }
        split; [intros a r Hr; exists r; auto|].
        split; [reflexivity|]. split; [reflexivity|]. split; [auto|].
        split; [intros a Ha; now apply elem_of_nil in Ha|].
        split.
        { intros r' Hr'. left. split; [reflexivity|]. exists r'.
          split; [|reflexivity].
          destruct (Z.eq_dec prev (brk w)) as [E|Hne].
          - exfalso. destruct Hb as [_ [[_ ->]|(init & _ & _ & [x Hx] & _)]].
            + lia.
            + rewrite E in Hx. congruence.
          - now rewrite lookup_insert_ne in Hr' by congruence. }
        split; [exact Hal|]. cbn [length]. rewrite Hof, Hls.
        pose proof (length_remove_first fname (open_files w)).
        repeat split; auto; lia. }
      rewrite (load_planes_round _ _ _ _ _ _ junk j2 j3) in Hrun by auto.
      set (str := fgets_store line (inbuf w)) in *.
      set (pi := brk w) in *.
      apply (IH _ _ _ (done ++ [pi])) in Hrun; cycle 1.
      { split; [cbn [brk]; lia|]. split; cbn [brk pi_heap ti_heap].
        - intros a Ha. specialize (Htl a Ha). lia.
        - intros a Ha. apply link_plane_is_Some in Ha.
          destruct (Z.eq_dec a pi) as [->|Hne]; [unfold pi; lia|].
          rewrite lookup_insert_ne in Ha by congruence.
          specialize (Hpl a Ha). lia. }
      { cbn [pi_heap].
        pose proof (list_built_append pi_next with_pi_next ltac:(reflexivity)
                      (pi_heap w) (planes db) prev done pi
                      (plane_record junk str) Hb Hfresh ltac:(unfold pi; lia))
          as Happ.
        unfold link_plane. destruct (prev =? 0); exact Happ. }
      destruct Hrun as (addrs & prev' & leak & Hok' & Hb' & Hall & Hdom
                        & Hdata & Hpi & Hdb & Hhead & Hge & Htail & Hal
                        & Hlk & Hls & Hld & Hof & Hold).
      cbn [inbuf pi_heap ti_heap] in *.
      exists (pi :: addrs), prev', leak.
      assert (Hti : exists r', pi_heap w' !! pi = Some r'
                               /\ plane_strings_set r').
      { destruct (link_plane_data prev pi
                    (<[pi := plane_record junk str]> (pi_heap w)) pi
                    (plane_record junk str) (lookup_insert_eq _ _ _))
          as (r1 & Hr1 & Hd1).
        destruct (Hdata _ _ Hr1) as (r2 & Hr2 & Hd2).
        exists r2. split; [exact Hr2|].
        apply (plane_fields_strings str).
        apply (plane_fields_data str (plane_record junk str));
          [congruence | apply plane_record_fields]. }
      split; [exact Hok'|].
      split; [now rewrite <- app_assoc in Hb'|].
      split; [constructor; [exact Hti | exact Hall]|].
      split.
      { intros a Ha. destruct (Hdom a Ha) as [H|[H|H]]; [|auto|auto].
        - apply link_plane_is_Some in H.
          destruct (Z.eq_dec a pi) as [->|Hne].
          + right. left. apply list_elem_of_here.
          + left. now rewrite lookup_insert_ne in H by congruence.
        - right. left. now apply list_elem_of_further. }
      split.
      { intros a r Hr.
        assert (Hne : pi <> a) by (intros <-; congruence).
        destruct (link_plane_data prev pi
                    (<[pi := plane_record junk str]> (pi_heap w)) a r)
          as (r1 & Hr1 & Hd1).
        { now rewrite lookup_insert_ne. }
        destruct (Hdata _ _ Hr1) as (r2 & Hr2 & Hd2).
        exists r2. split; [exact Hr2|congruence]. }
      split; [exact Hpi|].
      split.
      { rewrite Hdb. destruct (prev =? 0); reflexivity. }
      split.
      { intros [H|H]; [discriminate|].
        rewrite Hhead.
        - destruct Hb as [_ [[-> _]|(init & -> & Hnz & _)]]; [congruence|].
          destruct (Z.eqb_spec prev 0); [contradiction|reflexivity].
        - right. destruct done; discriminate. }
      split.
      { intros a Ha. apply elem_of_cons in Ha as [->|Ha]; [unfold pi; lia|].
        specialize (Hge a Ha). cbn [brk] in Hge. lia. }
      cbn [allocator mallocs live_strings live_dbs open_files length] in *.
      split.
      { intros r' Hr'. right.
        destruct (Htail r' Hr') as [(_ & r & Hr & E)|(n & j & Hn & E)];
          [|eauto].
        exists (mallocs w), junk. split; [exact A1|]. rewrite E.
        assert (Hlast : link_plane prev pi
                          (<[pi := plane_record junk str]> (pi_heap w)) !! pi
                        = Some (plane_record junk str)).
        { unfold link_plane.
          destruct (Z.eqb_spec prev 0); [apply lookup_insert_eq|].
          rewrite lookup_alter_ne; [apply lookup_insert_eq|].
          intros E0.
          destruct Hb as [_ [[_ ?]|(init & _ & _ & [x Hx] & _)]];
            [contradiction|].
          rewrite E0 in Hx. congruence. }
        rewrite Hlast in Hr. injection Hr as <-. reflexivity. }
      split; [assumption|]. split; [assumption|]. split; [lia|].
      split; [assumption|]. split; [assumption|].
      intros a r Hr Hne.
      assert (Hfr : a <> brk w) by (intros ->; unfold pi in Hfresh; congruence).
      apply Hold; [|exact Hfr].
      unfold link_plane. destruct (Z.eqb_spec prev 0).
      * rewrite lookup_insert_ne by (unfold pi; congruence). exact Hr.
      * rewrite lookup_alter_ne by congruence.
        rewrite lookup_insert_ne by (unfold pi; congruence). exact Hr.
Qed.
